(** * Solar power plant dashboard: the time-series pipeline of [app.py]

    A shallow embedding of the data pipeline of [src/app.py]: the loader
    [load_and_process_data], the date-range filter [df.loc[start:end]], the
    column selection, the trend resampling [resample(rule).sum()] and the
    hourly profile [groupby('HOUR').mean()].

    The script is a thin layer over pandas, so each pandas call the script
    makes is rendered by a function that follows the algorithm pandas runs
    for it (the [strptime] directive grammar, label slicing on a
    [DatetimeIndex], the bin edges of [resample], the group formation of
    [groupby]).  Conventions:

    - a [Timestamp] is the number of minutes since 1970-01-01 00:00 (the
      format ['%d.%m.%Y-%H:%M'] has minute resolution); pandas stores it as
      a signed 64-bit count of nanoseconds, whose bounds are written out in
      [in_ns_bounds];
    - [NaT] and [NaN] are [None];
    - a numeric cell is a rational number: sums and means are exact, the
      rounding of binary floating point is not modelled;
    - strings are byte strings; [str.upper] is the ASCII upper-casing. *)

From Stdlib Require Import ZArith QArith String Ascii Bool Lia List.
From Stdlib Require Import Permutation Sorting.Sorted SpecFloat.
Import ListNotations.

Open Scope Z_scope.

(* ================================================================== *)
(** * Exceptions *)

(** The exceptions the script can meet; [Raise] aborts the computation the
    way a Python exception unwinds it. *)
Inductive exn :=
  | FileNotFoundError
  | KeyError
  | ValueError
  | TypeError
  | OutOfBoundsDatetime
  | OverflowError.

Inductive Exc (A : Type) :=
  | Ok (a : A)
  | Raise (e : exn).
Arguments Ok {A} a.
Arguments Raise {A} e.

Definition bindE {A B} (x : Exc A) (f : A -> Exc B) : Exc B :=
  match x with
  | Ok a => f a
  | Raise e => Raise e
  end.

Notation "x <- c1 ;; c2" := (bindE c1 (fun x => c2))
  (at level 61, c1 at next level, right associativity).

Notation "' pat <- c1 ;; c2" :=
  (bindE c1 (fun x => match x with pat => c2 end))
  (at level 61, pat pattern, c1 at next level, right associativity).

(* ================================================================== *)
(** * The proleptic Gregorian calendar *)

Module Calendar.

Definition is_leap (y : Z) : bool :=
  ((y mod 4 =? 0) && negb (y mod 100 =? 0)) || (y mod 400 =? 0).

Definition days_in_month (y m : Z) : Z :=
  if m =? 2 then (if is_leap y then 29 else 28)
  else if (m =? 4) || (m =? 6) || (m =? 9) || (m =? 11) then 30
  else 31.

(** Day number of a civil date, 1970-01-01 being day 0. *)
Definition days_from_civil (y m d : Z) : Z :=
  let y' := if m <=? 2 then y - 1 else y in
  let era := y' / 400 in
  let yoe := y' - era * 400 in
  let mp := if m <=? 2 then m + 9 else m - 3 in
  let doy := (153 * mp + 2) / 5 + d - 1 in
  let doe := yoe * 365 + yoe / 4 - yoe / 100 + doy in
  era * 146097 + doe - 719468.

(** The civil date [(year, month, day)] of a day number. *)
Definition civil_from_days (z0 : Z) : Z * Z * Z :=
  let z := z0 + 719468 in
  let era := z / 146097 in
  let doe := z - era * 146097 in
  let yoe := (doe - doe / 1460 + doe / 36524 - doe / 146096) / 365 in
  let doy := doe - (365 * yoe + yoe / 4 - yoe / 100) in
  let mp := (5 * doy + 2) / 153 in
  let d := doy - (153 * mp + 2) / 5 + 1 in
  let m := if mp <? 10 then mp + 3 else mp - 9 in
  let y := yoe + era * 400 in
  (if m <=? 2 then y + 1 else y, m, d).

(** [datetime.weekday()]: Monday is 0, Sunday is 6; day 0 was a Thursday. *)
Definition weekday (day : Z) : Z := (day + 3) mod 7.

Definition valid_date (y m d : Z) : bool :=
  (1 <=? m) && (m <=? 12) && (1 <=? d) && (d <=? days_in_month y m).

End Calendar.

Arguments Calendar.civil_from_days : simpl never.
Arguments Calendar.days_from_civil : simpl never.
Arguments Calendar.days_in_month : simpl never.

(* ================================================================== *)
(** * Text *)

(** A Python [str] is a sequence of Unicode code points.  A [string] holds
    its UTF-8 encoding: the equality of two texts and the containment of
    one in another are those of their bytes, and what reads the code
    points, the pattern [\d], [int] and [str.upper], goes through [decode].
    The tables are those of Unicode 14.0.0, which CPython 3.11 carries. *)
Module Unicode.

Definition byte (c : ascii) : Z := Z.of_nat (nat_of_ascii c).
Definition char (b : Z) : ascii := ascii_of_nat (Z.to_nat b).

Definition continuation (b : Z) : bool := (128 <=? b) && (b <? 192).

(** A byte that begins no well-formed sequence stands for itself, as the
    code point that [surrogateescape] gives it. *)
Definition escape (b : Z) : Z := 56320 + b.

Fixpoint decode (s : string) : list Z :=
  match s with
  | EmptyString => []
  | String c0 r0 =>
      let b0 := byte c0 in
      if b0 <? 128 then b0 :: decode r0
      else
        match r0 with
        | String c1 r1 =>
            let b1 := byte c1 in
            if (192 <=? b0) && (b0 <? 224) && continuation b1
            then ((b0 - 192) * 64 + (b1 - 128)) :: decode r1
            else
              match r1 with
              | String c2 r2 =>
                  let b2 := byte c2 in
                  if (224 <=? b0) && (b0 <? 240) && continuation b1
                     && continuation b2
                  then ((b0 - 224) * 4096 + (b1 - 128) * 64 + (b2 - 128))
                         :: decode r2
                  else
                    match r2 with
                    | String c3 r3 =>
                        let b3 := byte c3 in
                        if (240 <=? b0) && (b0 <? 248) && continuation b1
                           && continuation b2 && continuation b3
                        then ((b0 - 240) * 262144 + (b1 - 128) * 4096
                              + (b2 - 128) * 64 + (b3 - 128)) :: decode r3
                        else escape b0 :: decode r0
                    | EmptyString => escape b0 :: decode r0
                    end
              | EmptyString => escape b0 :: decode r0
              end
        | EmptyString => [escape b0]
        end
  end.

Definition encode_point (p : Z) (k : string) : string :=
  if p <? 128 then String (char p) k
  else if (56448 <=? p) && (p <=? 56575) then String (char (p - 56320)) k
  else if p <? 2048 then
    String (char (192 + p / 64)) (String (char (128 + p mod 64)) k)
  else if p <? 65536 then
    String (char (224 + p / 4096))
      (String (char (128 + (p / 64) mod 64)) (String (char (128 + p mod 64)) k))
  else
    String (char (240 + p / 262144))
      (String (char (128 + (p / 4096) mod 64))
         (String (char (128 + (p / 64) mod 64))
            (String (char (128 + p mod 64)) k))).

Fixpoint encode (l : list Z) : string :=
  match l with
  | [] => EmptyString
  | p :: r => encode_point p (encode r)
  end.

(** The digit zero of each script that has decimal digits; the nine code
    points after it are its digits 1 to 9. *)
Definition decimal_zeros : list Z :=
  [
   48; 1632; 1776; 1984; 2406; 2534; 2662; 2790; 2918; 3046; 3174; 3302;
   3430; 3558; 3664; 3792; 3872; 4160; 4240; 6112; 6160; 6470; 6608; 6784;
   6800; 6992; 7088; 7232; 7248; 42528; 43216; 43264; 43472; 43504; 43600;
   44016; 65296; 66720; 68912; 69734; 69872; 69942; 70096; 70384; 70736;
   70864; 71248; 71360; 71472; 71904; 72016; 72784; 73040; 73120; 92768;
   92864; 93008; 120782; 120792; 120802; 120812; 120822; 123200; 123632;
   125264; 130032 ].

(** [unicodedata.decimal]: the value of a decimal digit, which is what the
    pattern [\d] accepts and what [int] reads. *)
Definition decimal (p : Z) : option Z :=
  match find (fun z => (z <=? p) && (p <=? z + 9)) decimal_zeros with
  | Some z => Some (p - z)
  | None => None
  end.

(** The code points above the ASCII range whose upper case is one other
    code point, and those whose upper case is several. *)
Definition uppercase_simple : list (Z * Z) :=
  [
   (181, 924); (224, 192); (225, 193); (226, 194); (227, 195); (228, 196);
   (229, 197); (230, 198); (231, 199); (232, 200); (233, 201); (234, 202);
   (235, 203); (236, 204); (237, 205); (238, 206); (239, 207); (240, 208);
   (241, 209); (242, 210); (243, 211); (244, 212); (245, 213); (246, 214);
   (248, 216); (249, 217); (250, 218); (251, 219); (252, 220); (253, 221);
   (254, 222); (255, 376); (257, 256); (259, 258); (261, 260); (263, 262);
   (265, 264); (267, 266); (269, 268); (271, 270); (273, 272); (275, 274);
   (277, 276); (279, 278); (281, 280); (283, 282); (285, 284); (287, 286);
   (289, 288); (291, 290); (293, 292); (295, 294); (297, 296); (299, 298);
   (301, 300); (303, 302); (305, 73); (307, 306); (309, 308); (311, 310);
   (314, 313); (316, 315); (318, 317); (320, 319); (322, 321); (324, 323);
   (326, 325); (328, 327); (331, 330); (333, 332); (335, 334); (337, 336);
   (339, 338); (341, 340); (343, 342); (345, 344); (347, 346); (349, 348);
   (351, 350); (353, 352); (355, 354); (357, 356); (359, 358); (361, 360);
   (363, 362); (365, 364); (367, 366); (369, 368); (371, 370); (373, 372);
   (375, 374); (378, 377); (380, 379); (382, 381); (383, 83); (384, 579);
   (387, 386); (389, 388); (392, 391); (396, 395); (402, 401); (405, 502);
   (409, 408); (410, 573); (414, 544); (417, 416); (419, 418); (421, 420);
   (424, 423); (429, 428); (432, 431); (436, 435); (438, 437); (441, 440);
   (445, 444); (447, 503); (453, 452); (454, 452); (456, 455); (457, 455);
   (459, 458); (460, 458); (462, 461); (464, 463); (466, 465); (468, 467);
   (470, 469); (472, 471); (474, 473); (476, 475); (477, 398); (479, 478);
   (481, 480); (483, 482); (485, 484); (487, 486); (489, 488); (491, 490);
   (493, 492); (495, 494); (498, 497); (499, 497); (501, 500); (505, 504);
   (507, 506); (509, 508); (511, 510); (513, 512); (515, 514); (517, 516);
   (519, 518); (521, 520); (523, 522); (525, 524); (527, 526); (529, 528);
   (531, 530); (533, 532); (535, 534); (537, 536); (539, 538); (541, 540);
   (543, 542); (547, 546); (549, 548); (551, 550); (553, 552); (555, 554);
   (557, 556); (559, 558); (561, 560); (563, 562); (572, 571); (575, 11390);
   (576, 11391); (578, 577); (583, 582); (585, 584); (587, 586); (589, 588);
   (591, 590); (592, 11375); (593, 11373); (594, 11376); (595, 385); (596,
   390); (598, 393); (599, 394); (601, 399); (603, 400); (604, 42923); (608,
   403); (609, 42924); (611, 404); (613, 42893); (614, 42922); (616, 407);
   (617, 406); (618, 42926); (619, 11362); (620, 42925); (623, 412); (625,
   11374); (626, 413); (629, 415); (637, 11364); (640, 422); (642, 42949);
   (643, 425); (647, 42929); (648, 430); (649, 580); (650, 433); (651, 434);
   (652, 581); (658, 439); (669, 42930); (670, 42928); (837, 921); (881,
   880); (883, 882); (887, 886); (891, 1021); (892, 1022); (893, 1023);
   (940, 902); (941, 904); (942, 905); (943, 906); (945, 913); (946, 914);
   (947, 915); (948, 916); (949, 917); (950, 918); (951, 919); (952, 920);
   (953, 921); (954, 922); (955, 923); (956, 924); (957, 925); (958, 926);
   (959, 927); (960, 928); (961, 929); (962, 931); (963, 931); (964, 932);
   (965, 933); (966, 934); (967, 935); (968, 936); (969, 937); (970, 938);
   (971, 939); (972, 908); (973, 910); (974, 911); (976, 914); (977, 920);
   (981, 934); (982, 928); (983, 975); (985, 984); (987, 986); (989, 988);
   (991, 990); (993, 992); (995, 994); (997, 996); (999, 998); (1001, 1000);
   (1003, 1002); (1005, 1004); (1007, 1006); (1008, 922); (1009, 929);
   (1010, 1017); (1011, 895); (1013, 917); (1016, 1015); (1019, 1018);
   (1072, 1040); (1073, 1041); (1074, 1042); (1075, 1043); (1076, 1044);
   (1077, 1045); (1078, 1046); (1079, 1047); (1080, 1048); (1081, 1049);
   (1082, 1050); (1083, 1051); (1084, 1052); (1085, 1053); (1086, 1054);
   (1087, 1055); (1088, 1056); (1089, 1057); (1090, 1058); (1091, 1059);
   (1092, 1060); (1093, 1061); (1094, 1062); (1095, 1063); (1096, 1064);
   (1097, 1065); (1098, 1066); (1099, 1067); (1100, 1068); (1101, 1069);
   (1102, 1070); (1103, 1071); (1104, 1024); (1105, 1025); (1106, 1026);
   (1107, 1027); (1108, 1028); (1109, 1029); (1110, 1030); (1111, 1031);
   (1112, 1032); (1113, 1033); (1114, 1034); (1115, 1035); (1116, 1036);
   (1117, 1037); (1118, 1038); (1119, 1039); (1121, 1120); (1123, 1122);
   (1125, 1124); (1127, 1126); (1129, 1128); (1131, 1130); (1133, 1132);
   (1135, 1134); (1137, 1136); (1139, 1138); (1141, 1140); (1143, 1142);
   (1145, 1144); (1147, 1146); (1149, 1148); (1151, 1150); (1153, 1152);
   (1163, 1162); (1165, 1164); (1167, 1166); (1169, 1168); (1171, 1170);
   (1173, 1172); (1175, 1174); (1177, 1176); (1179, 1178); (1181, 1180);
   (1183, 1182); (1185, 1184); (1187, 1186); (1189, 1188); (1191, 1190);
   (1193, 1192); (1195, 1194); (1197, 1196); (1199, 1198); (1201, 1200);
   (1203, 1202); (1205, 1204); (1207, 1206); (1209, 1208); (1211, 1210);
   (1213, 1212); (1215, 1214); (1218, 1217); (1220, 1219); (1222, 1221);
   (1224, 1223); (1226, 1225); (1228, 1227); (1230, 1229); (1231, 1216);
   (1233, 1232); (1235, 1234); (1237, 1236); (1239, 1238); (1241, 1240);
   (1243, 1242); (1245, 1244); (1247, 1246); (1249, 1248); (1251, 1250);
   (1253, 1252); (1255, 1254); (1257, 1256); (1259, 1258); (1261, 1260);
   (1263, 1262); (1265, 1264); (1267, 1266); (1269, 1268); (1271, 1270);
   (1273, 1272); (1275, 1274); (1277, 1276); (1279, 1278); (1281, 1280);
   (1283, 1282); (1285, 1284); (1287, 1286); (1289, 1288); (1291, 1290);
   (1293, 1292); (1295, 1294); (1297, 1296); (1299, 1298); (1301, 1300);
   (1303, 1302); (1305, 1304); (1307, 1306); (1309, 1308); (1311, 1310);
   (1313, 1312); (1315, 1314); (1317, 1316); (1319, 1318); (1321, 1320);
   (1323, 1322); (1325, 1324); (1327, 1326); (1377, 1329); (1378, 1330);
   (1379, 1331); (1380, 1332); (1381, 1333); (1382, 1334); (1383, 1335);
   (1384, 1336); (1385, 1337); (1386, 1338); (1387, 1339); (1388, 1340);
   (1389, 1341); (1390, 1342); (1391, 1343); (1392, 1344); (1393, 1345);
   (1394, 1346); (1395, 1347); (1396, 1348); (1397, 1349); (1398, 1350);
   (1399, 1351); (1400, 1352); (1401, 1353); (1402, 1354); (1403, 1355);
   (1404, 1356); (1405, 1357); (1406, 1358); (1407, 1359); (1408, 1360);
   (1409, 1361); (1410, 1362); (1411, 1363); (1412, 1364); (1413, 1365);
   (1414, 1366); (4304, 7312); (4305, 7313); (4306, 7314); (4307, 7315);
   (4308, 7316); (4309, 7317); (4310, 7318); (4311, 7319); (4312, 7320);
   (4313, 7321); (4314, 7322); (4315, 7323); (4316, 7324); (4317, 7325);
   (4318, 7326); (4319, 7327); (4320, 7328); (4321, 7329); (4322, 7330);
   (4323, 7331); (4324, 7332); (4325, 7333); (4326, 7334); (4327, 7335);
   (4328, 7336); (4329, 7337); (4330, 7338); (4331, 7339); (4332, 7340);
   (4333, 7341); (4334, 7342); (4335, 7343); (4336, 7344); (4337, 7345);
   (4338, 7346); (4339, 7347); (4340, 7348); (4341, 7349); (4342, 7350);
   (4343, 7351); (4344, 7352); (4345, 7353); (4346, 7354); (4349, 7357);
   (4350, 7358); (4351, 7359); (5112, 5104); (5113, 5105); (5114, 5106);
   (5115, 5107); (5116, 5108); (5117, 5109); (7296, 1042); (7297, 1044);
   (7298, 1054); (7299, 1057); (7300, 1058); (7301, 1058); (7302, 1066);
   (7303, 1122); (7304, 42570); (7545, 42877); (7549, 11363); (7566, 42950);
   (7681, 7680); (7683, 7682); (7685, 7684); (7687, 7686); (7689, 7688);
   (7691, 7690); (7693, 7692); (7695, 7694); (7697, 7696); (7699, 7698);
   (7701, 7700); (7703, 7702); (7705, 7704); (7707, 7706); (7709, 7708);
   (7711, 7710); (7713, 7712); (7715, 7714); (7717, 7716); (7719, 7718);
   (7721, 7720); (7723, 7722); (7725, 7724); (7727, 7726); (7729, 7728);
   (7731, 7730); (7733, 7732); (7735, 7734); (7737, 7736); (7739, 7738);
   (7741, 7740); (7743, 7742); (7745, 7744); (7747, 7746); (7749, 7748);
   (7751, 7750); (7753, 7752); (7755, 7754); (7757, 7756); (7759, 7758);
   (7761, 7760); (7763, 7762); (7765, 7764); (7767, 7766); (7769, 7768);
   (7771, 7770); (7773, 7772); (7775, 7774); (7777, 7776); (7779, 7778);
   (7781, 7780); (7783, 7782); (7785, 7784); (7787, 7786); (7789, 7788);
   (7791, 7790); (7793, 7792); (7795, 7794); (7797, 7796); (7799, 7798);
   (7801, 7800); (7803, 7802); (7805, 7804); (7807, 7806); (7809, 7808);
   (7811, 7810); (7813, 7812); (7815, 7814); (7817, 7816); (7819, 7818);
   (7821, 7820); (7823, 7822); (7825, 7824); (7827, 7826); (7829, 7828);
   (7835, 7776); (7841, 7840); (7843, 7842); (7845, 7844); (7847, 7846);
   (7849, 7848); (7851, 7850); (7853, 7852); (7855, 7854); (7857, 7856);
   (7859, 7858); (7861, 7860); (7863, 7862); (7865, 7864); (7867, 7866);
   (7869, 7868); (7871, 7870); (7873, 7872); (7875, 7874); (7877, 7876);
   (7879, 7878); (7881, 7880); (7883, 7882); (7885, 7884); (7887, 7886);
   (7889, 7888); (7891, 7890); (7893, 7892); (7895, 7894); (7897, 7896);
   (7899, 7898); (7901, 7900); (7903, 7902); (7905, 7904); (7907, 7906);
   (7909, 7908); (7911, 7910); (7913, 7912); (7915, 7914); (7917, 7916);
   (7919, 7918); (7921, 7920); (7923, 7922); (7925, 7924); (7927, 7926);
   (7929, 7928); (7931, 7930); (7933, 7932); (7935, 7934); (7936, 7944);
   (7937, 7945); (7938, 7946); (7939, 7947); (7940, 7948); (7941, 7949);
   (7942, 7950); (7943, 7951); (7952, 7960); (7953, 7961); (7954, 7962);
   (7955, 7963); (7956, 7964); (7957, 7965); (7968, 7976); (7969, 7977);
   (7970, 7978); (7971, 7979); (7972, 7980); (7973, 7981); (7974, 7982);
   (7975, 7983); (7984, 7992); (7985, 7993); (7986, 7994); (7987, 7995);
   (7988, 7996); (7989, 7997); (7990, 7998); (7991, 7999); (8000, 8008);
   (8001, 8009); (8002, 8010); (8003, 8011); (8004, 8012); (8005, 8013);
   (8017, 8025); (8019, 8027); (8021, 8029); (8023, 8031); (8032, 8040);
   (8033, 8041); (8034, 8042); (8035, 8043); (8036, 8044); (8037, 8045);
   (8038, 8046); (8039, 8047); (8048, 8122); (8049, 8123); (8050, 8136);
   (8051, 8137); (8052, 8138); (8053, 8139); (8054, 8154); (8055, 8155);
   (8056, 8184); (8057, 8185); (8058, 8170); (8059, 8171); (8060, 8186);
   (8061, 8187); (8112, 8120); (8113, 8121); (8126, 921); (8144, 8152);
   (8145, 8153); (8160, 8168); (8161, 8169); (8165, 8172); (8526, 8498);
   (8560, 8544); (8561, 8545); (8562, 8546); (8563, 8547); (8564, 8548);
   (8565, 8549); (8566, 8550); (8567, 8551); (8568, 8552); (8569, 8553);
   (8570, 8554); (8571, 8555); (8572, 8556); (8573, 8557); (8574, 8558);
   (8575, 8559); (8580, 8579); (9424, 9398); (9425, 9399); (9426, 9400);
   (9427, 9401); (9428, 9402); (9429, 9403); (9430, 9404); (9431, 9405);
   (9432, 9406); (9433, 9407); (9434, 9408); (9435, 9409); (9436, 9410);
   (9437, 9411); (9438, 9412); (9439, 9413); (9440, 9414); (9441, 9415);
   (9442, 9416); (9443, 9417); (9444, 9418); (9445, 9419); (9446, 9420);
   (9447, 9421); (9448, 9422); (9449, 9423); (11312, 11264); (11313, 11265);
   (11314, 11266); (11315, 11267); (11316, 11268); (11317, 11269); (11318,
   11270); (11319, 11271); (11320, 11272); (11321, 11273); (11322, 11274);
   (11323, 11275); (11324, 11276); (11325, 11277); (11326, 11278); (11327,
   11279); (11328, 11280); (11329, 11281); (11330, 11282); (11331, 11283);
   (11332, 11284); (11333, 11285); (11334, 11286); (11335, 11287); (11336,
   11288); (11337, 11289); (11338, 11290); (11339, 11291); (11340, 11292);
   (11341, 11293); (11342, 11294); (11343, 11295); (11344, 11296); (11345,
   11297); (11346, 11298); (11347, 11299); (11348, 11300); (11349, 11301);
   (11350, 11302); (11351, 11303); (11352, 11304); (11353, 11305); (11354,
   11306); (11355, 11307); (11356, 11308); (11357, 11309); (11358, 11310);
   (11359, 11311); (11361, 11360); (11365, 570); (11366, 574); (11368,
   11367); (11370, 11369); (11372, 11371); (11379, 11378); (11382, 11381);
   (11393, 11392); (11395, 11394); (11397, 11396); (11399, 11398); (11401,
   11400); (11403, 11402); (11405, 11404); (11407, 11406); (11409, 11408);
   (11411, 11410); (11413, 11412); (11415, 11414); (11417, 11416); (11419,
   11418); (11421, 11420); (11423, 11422); (11425, 11424); (11427, 11426);
   (11429, 11428); (11431, 11430); (11433, 11432); (11435, 11434); (11437,
   11436); (11439, 11438); (11441, 11440); (11443, 11442); (11445, 11444);
   (11447, 11446); (11449, 11448); (11451, 11450); (11453, 11452); (11455,
   11454); (11457, 11456); (11459, 11458); (11461, 11460); (11463, 11462);
   (11465, 11464); (11467, 11466); (11469, 11468); (11471, 11470); (11473,
   11472); (11475, 11474); (11477, 11476); (11479, 11478); (11481, 11480);
   (11483, 11482); (11485, 11484); (11487, 11486); (11489, 11488); (11491,
   11490); (11500, 11499); (11502, 11501); (11507, 11506); (11520, 4256);
   (11521, 4257); (11522, 4258); (11523, 4259); (11524, 4260); (11525,
   4261); (11526, 4262); (11527, 4263); (11528, 4264); (11529, 4265);
   (11530, 4266); (11531, 4267); (11532, 4268); (11533, 4269); (11534,
   4270); (11535, 4271); (11536, 4272); (11537, 4273); (11538, 4274);
   (11539, 4275); (11540, 4276); (11541, 4277); (11542, 4278); (11543,
   4279); (11544, 4280); (11545, 4281); (11546, 4282); (11547, 4283);
   (11548, 4284); (11549, 4285); (11550, 4286); (11551, 4287); (11552,
   4288); (11553, 4289); (11554, 4290); (11555, 4291); (11556, 4292);
   (11557, 4293); (11559, 4295); (11565, 4301); (42561, 42560); (42563,
   42562); (42565, 42564); (42567, 42566); (42569, 42568); (42571, 42570);
   (42573, 42572); (42575, 42574); (42577, 42576); (42579, 42578); (42581,
   42580); (42583, 42582); (42585, 42584); (42587, 42586); (42589, 42588);
   (42591, 42590); (42593, 42592); (42595, 42594); (42597, 42596); (42599,
   42598); (42601, 42600); (42603, 42602); (42605, 42604); (42625, 42624);
   (42627, 42626); (42629, 42628); (42631, 42630); (42633, 42632); (42635,
   42634); (42637, 42636); (42639, 42638); (42641, 42640); (42643, 42642);
   (42645, 42644); (42647, 42646); (42649, 42648); (42651, 42650); (42787,
   42786); (42789, 42788); (42791, 42790); (42793, 42792); (42795, 42794);
   (42797, 42796); (42799, 42798); (42803, 42802); (42805, 42804); (42807,
   42806); (42809, 42808); (42811, 42810); (42813, 42812); (42815, 42814);
   (42817, 42816); (42819, 42818); (42821, 42820); (42823, 42822); (42825,
   42824); (42827, 42826); (42829, 42828); (42831, 42830); (42833, 42832);
   (42835, 42834); (42837, 42836); (42839, 42838); (42841, 42840); (42843,
   42842); (42845, 42844); (42847, 42846); (42849, 42848); (42851, 42850);
   (42853, 42852); (42855, 42854); (42857, 42856); (42859, 42858); (42861,
   42860); (42863, 42862); (42874, 42873); (42876, 42875); (42879, 42878);
   (42881, 42880); (42883, 42882); (42885, 42884); (42887, 42886); (42892,
   42891); (42897, 42896); (42899, 42898); (42900, 42948); (42903, 42902);
   (42905, 42904); (42907, 42906); (42909, 42908); (42911, 42910); (42913,
   42912); (42915, 42914); (42917, 42916); (42919, 42918); (42921, 42920);
   (42933, 42932); (42935, 42934); (42937, 42936); (42939, 42938); (42941,
   42940); (42943, 42942); (42945, 42944); (42947, 42946); (42952, 42951);
   (42954, 42953); (42961, 42960); (42967, 42966); (42969, 42968); (42998,
   42997); (43859, 42931); (43888, 5024); (43889, 5025); (43890, 5026);
   (43891, 5027); (43892, 5028); (43893, 5029); (43894, 5030); (43895,
   5031); (43896, 5032); (43897, 5033); (43898, 5034); (43899, 5035);
   (43900, 5036); (43901, 5037); (43902, 5038); (43903, 5039); (43904,
   5040); (43905, 5041); (43906, 5042); (43907, 5043); (43908, 5044);
   (43909, 5045); (43910, 5046); (43911, 5047); (43912, 5048); (43913,
   5049); (43914, 5050); (43915, 5051); (43916, 5052); (43917, 5053);
   (43918, 5054); (43919, 5055); (43920, 5056); (43921, 5057); (43922,
   5058); (43923, 5059); (43924, 5060); (43925, 5061); (43926, 5062);
   (43927, 5063); (43928, 5064); (43929, 5065); (43930, 5066); (43931,
   5067); (43932, 5068); (43933, 5069); (43934, 5070); (43935, 5071);
   (43936, 5072); (43937, 5073); (43938, 5074); (43939, 5075); (43940,
   5076); (43941, 5077); (43942, 5078); (43943, 5079); (43944, 5080);
   (43945, 5081); (43946, 5082); (43947, 5083); (43948, 5084); (43949,
   5085); (43950, 5086); (43951, 5087); (43952, 5088); (43953, 5089);
   (43954, 5090); (43955, 5091); (43956, 5092); (43957, 5093); (43958,
   5094); (43959, 5095); (43960, 5096); (43961, 5097); (43962, 5098);
   (43963, 5099); (43964, 5100); (43965, 5101); (43966, 5102); (43967,
   5103); (65345, 65313); (65346, 65314); (65347, 65315); (65348, 65316);
   (65349, 65317); (65350, 65318); (65351, 65319); (65352, 65320); (65353,
   65321); (65354, 65322); (65355, 65323); (65356, 65324); (65357, 65325);
   (65358, 65326); (65359, 65327); (65360, 65328); (65361, 65329); (65362,
   65330); (65363, 65331); (65364, 65332); (65365, 65333); (65366, 65334);
   (65367, 65335); (65368, 65336); (65369, 65337); (65370, 65338); (66600,
   66560); (66601, 66561); (66602, 66562); (66603, 66563); (66604, 66564);
   (66605, 66565); (66606, 66566); (66607, 66567); (66608, 66568); (66609,
   66569); (66610, 66570); (66611, 66571); (66612, 66572); (66613, 66573);
   (66614, 66574); (66615, 66575); (66616, 66576); (66617, 66577); (66618,
   66578); (66619, 66579); (66620, 66580); (66621, 66581); (66622, 66582);
   (66623, 66583); (66624, 66584); (66625, 66585); (66626, 66586); (66627,
   66587); (66628, 66588); (66629, 66589); (66630, 66590); (66631, 66591);
   (66632, 66592); (66633, 66593); (66634, 66594); (66635, 66595); (66636,
   66596); (66637, 66597); (66638, 66598); (66639, 66599); (66776, 66736);
   (66777, 66737); (66778, 66738); (66779, 66739); (66780, 66740); (66781,
   66741); (66782, 66742); (66783, 66743); (66784, 66744); (66785, 66745);
   (66786, 66746); (66787, 66747); (66788, 66748); (66789, 66749); (66790,
   66750); (66791, 66751); (66792, 66752); (66793, 66753); (66794, 66754);
   (66795, 66755); (66796, 66756); (66797, 66757); (66798, 66758); (66799,
   66759); (66800, 66760); (66801, 66761); (66802, 66762); (66803, 66763);
   (66804, 66764); (66805, 66765); (66806, 66766); (66807, 66767); (66808,
   66768); (66809, 66769); (66810, 66770); (66811, 66771); (66967, 66928);
   (66968, 66929); (66969, 66930); (66970, 66931); (66971, 66932); (66972,
   66933); (66973, 66934); (66974, 66935); (66975, 66936); (66976, 66937);
   (66977, 66938); (66979, 66940); (66980, 66941); (66981, 66942); (66982,
   66943); (66983, 66944); (66984, 66945); (66985, 66946); (66986, 66947);
   (66987, 66948); (66988, 66949); (66989, 66950); (66990, 66951); (66991,
   66952); (66992, 66953); (66993, 66954); (66995, 66956); (66996, 66957);
   (66997, 66958); (66998, 66959); (66999, 66960); (67000, 66961); (67001,
   66962); (67003, 66964); (67004, 66965); (68800, 68736); (68801, 68737);
   (68802, 68738); (68803, 68739); (68804, 68740); (68805, 68741); (68806,
   68742); (68807, 68743); (68808, 68744); (68809, 68745); (68810, 68746);
   (68811, 68747); (68812, 68748); (68813, 68749); (68814, 68750); (68815,
   68751); (68816, 68752); (68817, 68753); (68818, 68754); (68819, 68755);
   (68820, 68756); (68821, 68757); (68822, 68758); (68823, 68759); (68824,
   68760); (68825, 68761); (68826, 68762); (68827, 68763); (68828, 68764);
   (68829, 68765); (68830, 68766); (68831, 68767); (68832, 68768); (68833,
   68769); (68834, 68770); (68835, 68771); (68836, 68772); (68837, 68773);
   (68838, 68774); (68839, 68775); (68840, 68776); (68841, 68777); (68842,
   68778); (68843, 68779); (68844, 68780); (68845, 68781); (68846, 68782);
   (68847, 68783); (68848, 68784); (68849, 68785); (68850, 68786); (71872,
   71840); (71873, 71841); (71874, 71842); (71875, 71843); (71876, 71844);
   (71877, 71845); (71878, 71846); (71879, 71847); (71880, 71848); (71881,
   71849); (71882, 71850); (71883, 71851); (71884, 71852); (71885, 71853);
   (71886, 71854); (71887, 71855); (71888, 71856); (71889, 71857); (71890,
   71858); (71891, 71859); (71892, 71860); (71893, 71861); (71894, 71862);
   (71895, 71863); (71896, 71864); (71897, 71865); (71898, 71866); (71899,
   71867); (71900, 71868); (71901, 71869); (71902, 71870); (71903, 71871);
   (93792, 93760); (93793, 93761); (93794, 93762); (93795, 93763); (93796,
   93764); (93797, 93765); (93798, 93766); (93799, 93767); (93800, 93768);
   (93801, 93769); (93802, 93770); (93803, 93771); (93804, 93772); (93805,
   93773); (93806, 93774); (93807, 93775); (93808, 93776); (93809, 93777);
   (93810, 93778); (93811, 93779); (93812, 93780); (93813, 93781); (93814,
   93782); (93815, 93783); (93816, 93784); (93817, 93785); (93818, 93786);
   (93819, 93787); (93820, 93788); (93821, 93789); (93822, 93790); (93823,
   93791); (125218, 125184); (125219, 125185); (125220, 125186); (125221,
   125187); (125222, 125188); (125223, 125189); (125224, 125190); (125225,
   125191); (125226, 125192); (125227, 125193); (125228, 125194); (125229,
   125195); (125230, 125196); (125231, 125197); (125232, 125198); (125233,
   125199); (125234, 125200); (125235, 125201); (125236, 125202); (125237,
   125203); (125238, 125204); (125239, 125205); (125240, 125206); (125241,
   125207); (125242, 125208); (125243, 125209); (125244, 125210); (125245,
   125211); (125246, 125212); (125247, 125213); (125248, 125214); (125249,
   125215); (125250, 125216); (125251, 125217) ].

Definition uppercase_special : list (Z * list Z) :=
  [
   (223, [83; 83]); (329, [700; 78]); (496, [74; 780]); (912, [921; 776;
   769]); (944, [933; 776; 769]); (1415, [1333; 1362]); (7830, [72; 817]);
   (7831, [84; 776]); (7832, [87; 778]); (7833, [89; 778]); (7834, [65;
   702]); (8016, [933; 787]); (8018, [933; 787; 768]); (8020, [933; 787;
   769]); (8022, [933; 787; 834]); (8064, [7944; 921]); (8065, [7945; 921]);
   (8066, [7946; 921]); (8067, [7947; 921]); (8068, [7948; 921]); (8069,
   [7949; 921]); (8070, [7950; 921]); (8071, [7951; 921]); (8072, [7944;
   921]); (8073, [7945; 921]); (8074, [7946; 921]); (8075, [7947; 921]);
   (8076, [7948; 921]); (8077, [7949; 921]); (8078, [7950; 921]); (8079,
   [7951; 921]); (8080, [7976; 921]); (8081, [7977; 921]); (8082, [7978;
   921]); (8083, [7979; 921]); (8084, [7980; 921]); (8085, [7981; 921]);
   (8086, [7982; 921]); (8087, [7983; 921]); (8088, [7976; 921]); (8089,
   [7977; 921]); (8090, [7978; 921]); (8091, [7979; 921]); (8092, [7980;
   921]); (8093, [7981; 921]); (8094, [7982; 921]); (8095, [7983; 921]);
   (8096, [8040; 921]); (8097, [8041; 921]); (8098, [8042; 921]); (8099,
   [8043; 921]); (8100, [8044; 921]); (8101, [8045; 921]); (8102, [8046;
   921]); (8103, [8047; 921]); (8104, [8040; 921]); (8105, [8041; 921]);
   (8106, [8042; 921]); (8107, [8043; 921]); (8108, [8044; 921]); (8109,
   [8045; 921]); (8110, [8046; 921]); (8111, [8047; 921]); (8114, [8122;
   921]); (8115, [913; 921]); (8116, [902; 921]); (8118, [913; 834]); (8119,
   [913; 834; 921]); (8124, [913; 921]); (8130, [8138; 921]); (8131, [919;
   921]); (8132, [905; 921]); (8134, [919; 834]); (8135, [919; 834; 921]);
   (8140, [919; 921]); (8146, [921; 776; 768]); (8147, [921; 776; 769]);
   (8150, [921; 834]); (8151, [921; 776; 834]); (8162, [933; 776; 768]);
   (8163, [933; 776; 769]); (8164, [929; 787]); (8166, [933; 834]); (8167,
   [933; 776; 834]); (8178, [8186; 921]); (8179, [937; 921]); (8180, [911;
   921]); (8182, [937; 834]); (8183, [937; 834; 921]); (8188, [937; 921]);
   (64256, [70; 70]); (64257, [70; 73]); (64258, [70; 76]); (64259, [70; 70;
   73]); (64260, [70; 70; 76]); (64261, [83; 84]); (64262, [83; 84]);
   (64275, [1348; 1350]); (64276, [1348; 1333]); (64277, [1348; 1339]);
   (64278, [1358; 1350]); (64279, [1348; 1341]) ].

(** The upper case of one code point, as [str.upper] maps it. *)
Definition to_upper (p : Z) : list Z :=
  if p <? 128 then (if (97 <=? p) && (p <=? 122) then [p - 32] else [p])
  else
    match find (fun e => fst e =? p) uppercase_simple with
    | Some e => [snd e]
    | None =>
        match find (fun e => fst e =? p) uppercase_special with
        | Some e => snd e
        | None => [p]
        end
    end.

End Unicode.

(* ================================================================== *)
(** * Numbers *)

(** A [float64] is a binary64 number of IEEE 754.  Its arithmetic is that
    of the standard library's specification of floating-point numbers,
    which rounds each result to the nearest number, ties to even.  [NaN]
    is the missing value of a column of floats. *)
Abbreviation float64 := spec_float (only parsing).

Module Float64.

Definition prec : Z := 53.
Definition emax : Z := 1024.

Definition add : float64 -> float64 -> float64 := SFadd prec emax.
Definition sub : float64 -> float64 -> float64 := SFsub prec emax.
Definition div : float64 -> float64 -> float64 := SFdiv prec emax.

Definition zero : float64 := S754_zero false.
Definition nan : float64 := S754_nan.

(** [x != x] *)
Definition is_nan (x : float64) : bool :=
  match x with
  | S754_nan => true
  | _ => false
  end.

(** The conversion of a whole number. *)
Definition of_Z (n : Z) : float64 := binary_normalize prec emax n 0 false.

(** The rational number that a finite value is. *)
Definition to_Q (x : float64) : Q :=
  match x with
  | S754_finite s m e =>
      ((if s then inject_Z (Z.neg m) else inject_Z (Z.pos m))
       * Qpower (2 # 1) e)%Q
  | _ => 0%Q
  end.

End Float64.

(** An [int64] is a whole number from [-2^63] to [2^63 - 1]; its arithmetic
    wraps around. *)
Module Int64.

Definition wrap (n : Z) : Z := (n + 2 ^ 63) mod 2 ^ 64 - 2 ^ 63.

Definition add (a b : Z) : Z := wrap (a + b).
Definition sub (a b : Z) : Z := wrap (a - b).

End Int64.

(** The types over which [libgroupby] sums, with the test [_treat_as_na]:
    [val != val] for a float, never true of an integer. *)
Class Numeric (V : Type) := {
  num_zero : V;
  num_add : V -> V -> V;
  num_sub : V -> V -> V;
  num_isna : V -> bool
}.

#[export] Instance float64_numeric : Numeric float64 := {|
  num_zero := Float64.zero;
  num_add := Float64.add;
  num_sub := Float64.sub;
  num_isna := Float64.is_nan
|}.

#[export] Instance int64_numeric : Numeric Z := {|
  num_zero := 0;
  num_add := Int64.add;
  num_sub := Int64.sub;
  num_isna := fun _ => false
|}.

(** The loop body of [group_sum] and [group_mean] for the rows of one
    group: the Kahan summation of the values that are not missing, the
    compensation being reset when it is not a number. *)
Module Kahan.

Record Acc (V : Type) := mk_acc { sumx : V; compensation : V; nobs : nat }.
Arguments mk_acc {V} sumx compensation nobs.
Arguments sumx {V} a.
Arguments compensation {V} a.
Arguments nobs {V} a.

Definition start {V} `{Numeric V} : Acc V := mk_acc num_zero num_zero 0.

Definition step {V} `{Numeric V} (a : Acc V) (val : V) : Acc V :=
  if num_isna val then a
  else
    let y := num_sub val (compensation a) in
    let t := num_add (sumx a) y in
    let c := num_sub (num_sub t (sumx a)) y in
    mk_acc t (if num_isna c then num_zero else c) (S (nobs a)).

Definition run {V} `{Numeric V} (vals : list V) : Acc V :=
  fold_left step vals start.

(** [group_sum] with [min_count=0]: the sum of a group without a value
    is zero. *)
Definition sum {V} `{Numeric V} (vals : list V) : V := sumx (run vals).

(** [group_mean]: the mean of a group without a value is [NaN]. *)
Definition mean (vals : list float64) : float64 :=
  let a := run vals in
  match nobs a with
  | O => Float64.nan
  | S _ => Float64.div (sumx a) (Float64.of_Z (Z.of_nat (nobs a)))
  end.

End Kahan.

(* ================================================================== *)
(** * Timestamps *)

(** Minutes since the epoch. *)
Abbreviation Timestamp := Z (only parsing).

Definition minutes_per_day : Z := 1440.

Definition ns_per_minute : Z := 60 * 1000000000.

(** [Timestamp.min <= t <= Timestamp.max] for the nanosecond unit: the
    count of nanoseconds fits a signed 64-bit integer, whose least value is
    reserved for [NaT]. *)
Definition in_ns_bounds (t : Timestamp) : bool :=
  (- 2 ^ 63 <? t * ns_per_minute) && (t * ns_per_minute <=? 2 ^ 63 - 1).

Definition mk_timestamp (y m d H M : Z) : Timestamp :=
  Calendar.days_from_civil y m d * minutes_per_day + H * 60 + M.

(** [Timestamp.normalize()] as a day number, and [pd.to_datetime(date)]. *)
Definition day_of (t : Timestamp) : Z := t / minutes_per_day.
Definition midnight (day : Z) : Timestamp := day * minutes_per_day.

(** [Series.dt.date] and [Series.dt.hour] on one value. *)
Definition dt_date (t : Timestamp) : Z * Z * Z :=
  Calendar.civil_from_days (day_of t).
Definition dt_hour (t : Timestamp) : Z := (t mod minutes_per_day) / 60.

(* ================================================================== *)
(** * [pd.to_datetime(..., format='%d.%m.%Y-%H:%M', errors='coerce')] *)

Module Strptime.

(** A backtracking matcher: the ways a pattern matches a prefix of the
    text, a sequence of code points, in the order the regular expression
    engine tries them, each with the value read and the text left. *)
Definition Matcher (A : Type) := list Z -> list (A * list Z).

(** [[lo-hi]]: one of the digits [0] to [9] of ASCII, between two bounds. *)
Definition cls (lo hi : Z) : Matcher Z := fun s =>
  match s with
  | c :: r =>
      let v := c - 48 in
      if (lo <=? v) && (v <=? hi) then [(v, r)] else []
  | [] => []
  end.

(** [\d]: a decimal digit of any script. *)
Definition any_digit : Matcher Z := fun s =>
  match s with
  | c :: r =>
      match Unicode.decimal c with
      | Some v => [(v, r)]
      | None => []
      end
  | [] => []
  end.

(** [r1|r2|...]: the alternatives are tried from left to right. *)
Definition alt {A} (ms : list (Matcher A)) : Matcher A := fun s =>
  flat_map (fun m => m s) ms.

Definition lit (c : Z) : Matcher unit := fun s =>
  match s with
  | c1 :: r => if c1 =? c then [(tt, r)] else []
  | [] => []
  end.

Definition seq {A B} (m : Matcher A) (k : A -> Matcher B) : Matcher B :=
  fun s => flat_map (fun '(a, r) => k a r) (m s).

Definition ret {A} (a : A) : Matcher A := fun s => [(a, s)].

(** Two digits [a b], which [int] reads as [10 a + b]. *)
Definition two (m1 m2 : Matcher Z) : Matcher Z :=
  seq m1 (fun a => seq m2 (fun b => ret (10 * a + b))).

(** The directives of the format, as [_strptime.TimeRE] defines them. *)

(** [%d]: [3[0-1]|[1-2]\d|0[1-9]|[1-9]| [1-9]]; [int] skips the space. *)
Definition re_d : Matcher Z :=
  alt [ two (cls 3 3) (cls 0 1);
        two (cls 1 2) any_digit;
        two (cls 0 0) (cls 1 9);
        cls 1 9;
        seq (lit 32) (fun _ => cls 1 9) ].

(** [%m]: [1[0-2]|0[1-9]|[1-9]] *)
Definition re_m : Matcher Z :=
  alt [ two (cls 1 1) (cls 0 2);
        two (cls 0 0) (cls 1 9);
        cls 1 9 ].

(** [%Y]: [\d\d\d\d] *)
Definition re_Y : Matcher Z :=
  seq (two any_digit any_digit) (fun hi =>
  seq (two any_digit any_digit) (fun lo =>
  ret (100 * hi + lo))).

(** [%H]: [2[0-3]|[0-1]\d|\d] *)
Definition re_H : Matcher Z :=
  alt [ two (cls 2 2) (cls 0 3);
        two (cls 0 1) any_digit;
        any_digit ].

(** [%M]: [[0-5]\d|\d] *)
Definition re_M : Matcher Z :=
  alt [ two (cls 0 5) any_digit;
        any_digit ].

Record fields := mk_fields
  { f_day : Z; f_month : Z; f_year : Z; f_hour : Z; f_minute : Z }.

(** The regular expression of ['%d.%m.%Y-%H:%M']; the code points 46, 45
    and 58 are the full stop, the hyphen and the colon. *)
Definition format_regex : Matcher fields :=
  seq re_d (fun d =>
  seq (lit 46) (fun _ =>
  seq re_m (fun m =>
  seq (lit 46) (fun _ =>
  seq re_Y (fun y =>
  seq (lit 45) (fun _ =>
  seq re_H (fun H =>
  seq (lit 58) (fun _ =>
  seq re_M (fun M =>
  ret (mk_fields d m y H M)))))))))).

(** [format_regex.match(val)] keeps the first match; with [exact=True] a
    match that leaves text unread is an error ("unconverted data
    remains"). *)
Definition match_exact (val : string) : option fields :=
  match format_regex (Unicode.decode val) with
  | (f, []) :: _ => Some f
  | _ => None
  end.

(** One value of the column: a text that does not match, a date that does
    not exist and a value outside the nanosecond range are all errors,
    which [errors='coerce'] turns into [NaT]. *)
Definition to_datetime (val : string) : option Timestamp :=
  match match_exact val with
  | Some f =>
      if Calendar.valid_date (f_year f) (f_month f) (f_day f) then
        let t := mk_timestamp (f_year f) (f_month f) (f_day f)
                              (f_hour f) (f_minute f) in
        if in_ns_bounds t then Some t else None
      else None
  | None => None
  end.

(** The text of a timestamp in the form [dd.mm.YYYY-HH:MM]. *)
Definition digit_char (n : Z) : ascii := ascii_of_nat (Z.to_nat (48 + n)).

Definition show2 (n : Z) (k : string) : string :=
  String (digit_char (n / 10)) (String (digit_char (n mod 10)) k).

Definition show4 (n : Z) (k : string) : string :=
  show2 (n / 100) (show2 (n mod 100) k).

Definition show_stamp (y m d H M : Z) : string :=
  show2 d (String "." (show2 m (String "." (show4 y (String "-"
    (show2 H (String ":" (show2 M EmptyString)))))))).

End Strptime.

(* ================================================================== *)
(** * Data frames *)

(** A column with its dtype.  [NumCol] is a column of [float64].  [IntCol]
    is a column of whole numbers, as [.dt.hour] returns it: of integer
    dtype when no value is missing, of [float64] once a [NaN] is in. *)
Inductive Column :=
  | NumCol (v : list float64)
  | IntCol (v : list (option Z))
  | ObjCol (v : list (option string))
  | DatetimeCol (v : list (option Timestamp))
  | DateCol (v : list (option (Z * Z * Z))).

Inductive Index :=
  | RangeIndex (n : nat)
  | DatetimeIndex (labels : list (option Timestamp)).

Record DataFrame := mk_df
  { index : Index;
    columns : list (string * Column) }.

(** [pd.DataFrame()] *)
Definition pd_DataFrame : DataFrame := mk_df (RangeIndex 0) [].

Definition index_length (i : Index) : nat :=
  match i with
  | RangeIndex n => n
  | DatetimeIndex l => length l
  end.

(** [df.empty]: an axis of length 0. *)
Definition df_empty (df : DataFrame) : bool :=
  (index_length (index df) =? 0)%nat || (length (columns df) =? 0)%nat.

Definition column_names (df : DataFrame) : list string :=
  map fst (columns df).

(** [df.rename(columns={old: new}, inplace=True)] *)
Definition rename (old new : string) (df : DataFrame) : DataFrame :=
  mk_df (index df)
        (map (fun '(n, c) => (if String.eqb n old then new else n, c))
             (columns df)).

(** [df[name]]: a missing label raises [KeyError]; a label carried by
    several columns selects a frame, not a series. *)
Inductive Selection :=
  | SelSeries (c : Column)
  | SelFrame (cs : list Column).

Definition getitem (df : DataFrame) (name : string) : Exc Selection :=
  match filter (fun nc => String.eqb (fst nc) name) (columns df) with
  | [] => Raise KeyError
  | [nc] => Ok (SelSeries (snd nc))
  | ncs => Ok (SelFrame (map snd ncs))
  end.

(** [df[name] = c]: an existing column is replaced where it stands, a new
    one is appended. *)
Fixpoint setitem_cols (name : string) (c : Column)
         (cols : list (string * Column)) : list (string * Column) :=
  match cols with
  | [] => [(name, c)]
  | (n, c') :: rest =>
      if String.eqb n name then (n, c) :: rest
      else (n, c') :: setitem_cols name c rest
  end.

Definition setitem (name : string) (c : Column) (df : DataFrame) : DataFrame :=
  mk_df (index df) (setitem_cols name c (columns df)).

(** [df.set_index(name)]: the datetime column becomes the index and leaves
    the columns. *)
Definition set_index (name : string) (df : DataFrame) : Exc DataFrame :=
  match getitem df name with
  | Ok (SelSeries (DatetimeCol v)) =>
      Ok (mk_df (DatetimeIndex v)
                (filter (fun nc => negb (String.eqb (fst nc) name))
                        (columns df)))
  | Ok _ => Raise ValueError
  | Raise e => Raise e
  end.

(* ================================================================== *)
(** * [load_and_process_data] *)

(** What [pd.read_csv(file_path)] finds: no file, a file it cannot parse, or
    a table under a [RangeIndex]. *)
Inductive Source :=
  | Missing
  | Unparsable
  | Csv (df : DataFrame).

Definition read_csv (src : Source) : Exc DataFrame :=
  match src with
  | Missing => Raise FileNotFoundError
  | Unparsable => Raise ValueError
  | Csv df => Ok df
  end.

(** [pd.to_datetime] on what [df['DATE_TIME']] selected.  The cells of a
    text column are parsed one by one, a blank cell being [NaT]; the cells
    of a numeric column are matched through their decimal text, which has
    no [':'], so that each one is coerced to [NaT]; a frame cannot be
    assembled into dates and raises. *)
Definition to_datetime_column (c : Column) : list (option Timestamp) :=
  match c with
  | ObjCol v =>
      map (fun cell => match cell with
                       | Some s => Strptime.to_datetime s
                       | None => None
                       end) v
  | NumCol v => map (fun _ => None) v
  | IntCol v => map (fun _ => None) v
  | DatetimeCol v => v
  | DateCol v => map (fun _ => None) v
  end.

Definition pd_to_datetime (sel : Selection) : Exc (list (option Timestamp)) :=
  match sel with
  | SelSeries c => Ok (to_datetime_column c)
  | SelFrame _ => Raise ValueError
  end.

(** The body of the [try] block. *)
Definition load_try (src : Source) : Exc DataFrame :=
  df <- read_csv src ;;
  let df := rename "Date-Hour(NMT)" "DATE_TIME" df in
  sel <- getitem df "DATE_TIME" ;;
  stamps <- pd_to_datetime sel ;;
  let df := setitem "DATE_TIME" (DatetimeCol stamps) df in
  let df := setitem "DATE" (DateCol (map (option_map dt_date) stamps)) df in
  let df := setitem "HOUR" (IntCol (map (option_map dt_hour) stamps)) df in
  set_index "DATE_TIME" df.

(** The messages the three [except] clauses pass to [st.error]. *)
Inductive Diagnostic :=
  | FileNotFoundMessage
  | MissingColumnMessage
  | LoadFailedMessage.

(** The table returned and the calls to [st.error] made. *)
Definition load_and_process_data (src : Source) : DataFrame * list Diagnostic :=
  match load_try src with
  | Ok df => (df, [])
  | Raise FileNotFoundError => (pd_DataFrame, [FileNotFoundMessage])
  | Raise KeyError => (pd_DataFrame, [MissingColumnMessage])
  | Raise _ => (pd_DataFrame, [LoadFailedMessage])
  end.

(** The number of [NaT] labels of a table. *)
Definition index_labels (df : DataFrame) : list (option Timestamp) :=
  match index df with
  | DatetimeIndex l => l
  | RangeIndex _ => []
  end.

Definition is_NaT (t : option Timestamp) : bool :=
  match t with None => true | Some _ => false end.

Definition count_NaT (df : DataFrame) : nat :=
  length (filter is_NaT (index_labels df)).

(* ================================================================== *)
(** * The date filter: [df.loc[start_date:end_date]] *)

Module Loc.

(** [algos.is_monotonic] on the labels of a datetime index: a [NaT]
    anywhere makes the index neither increasing nor decreasing. *)
Fixpoint monotonic_from (le : Z -> Z -> bool) (prev : Z)
         (l : list (option Timestamp)) : bool :=
  match l with
  | [] => true
  | None :: _ => false
  | Some cur :: rest => le prev cur && monotonic_from le cur rest
  end.

Definition is_monotonic_increasing (l : list (option Timestamp)) : bool :=
  match l with
  | [] => true
  | None :: _ => false
  | Some t :: rest => monotonic_from Z.leb t rest
  end.

Definition is_monotonic_decreasing (l : list (option Timestamp)) : bool :=
  match l with
  | [] => true
  | None :: _ => false
  | Some t :: rest => monotonic_from Z.geb t rest
  end.

Definition label_is (key : Timestamp) (l : option Timestamp) : bool :=
  match l with
  | Some t => t =? key
  | None => false
  end.

Definition label_lt (key : Timestamp) (l : option Timestamp) : bool :=
  match l with
  | Some t => t <? key
  | None => false
  end.

Definition label_le (key : Timestamp) (l : option Timestamp) : bool :=
  match l with
  | Some t => t <=? key
  | None => false
  end.

(** [searchsorted] on an increasing array: the insertion point is the
    number of elements before it. *)
Inductive Side := Left | Right.

Definition searchsorted (labels : list (option Timestamp))
           (key : Timestamp) (side : Side) : nat :=
  match side with
  | Left => length (filter (label_lt key) labels)
  | Right => length (filter (label_le key) labels)
  end.

(** What [get_loc] returns: a position, a slice or a boolean mask. *)
Inductive Location :=
  | LocInt (p : nat)
  | LocSlice (start stop : nat)
  | LocMask (mask : list bool).

Fixpoint positions_from (i : nat) (key : Timestamp)
         (labels : list (option Timestamp)) : list nat :=
  match labels with
  | [] => []
  | l :: rest =>
      if label_is key l then i :: positions_from (S i) key rest
      else positions_from (S i) key rest
  end.

(** The index engine: a label that occurs once is found at its position;
    one that occurs several times is a slice on an increasing index and a
    mask otherwise; an absent label raises [KeyError]. *)
Definition get_loc (labels : list (option Timestamp)) (key : Timestamp)
  : Exc Location :=
  match positions_from 0 key labels with
  | [] => Raise KeyError
  | [p] => Ok (LocInt p)
  | p :: ps =>
      if is_monotonic_increasing labels
      then Ok (LocSlice p (S (last ps p)))
      else Ok (LocMask (map (label_is key) labels))
  end.

(** [lib.maybe_booleans_to_slice]: the slice of a mask whose true entries
    are contiguous, nothing for the others.  The state is the scan's
    [started], [finished], [start] and [end]. *)
Fixpoint booleans_scan (mask : list bool) (i : nat)
         (started finished : bool) (start stop : nat) : option (nat * nat) :=
  match mask with
  | [] =>
      if negb started then Some (0, 0)%nat
      else if negb finished then Some (start, i)
      else Some (start, stop)
  | true :: rest =>
      if negb started then booleans_scan rest (S i) true finished i stop
      else if finished then None
      else booleans_scan rest (S i) started finished start stop
  | false :: rest =>
      if started && negb finished
      then booleans_scan rest (S i) started true start i
      else booleans_scan rest (S i) started finished start stop
  end.

Definition maybe_booleans_to_slice (mask : list bool) : option (nat * nat) :=
  booleans_scan mask 0 false false 0 0.

(** [Index._searchsorted_monotonic] *)
Definition searchsorted_monotonic (labels : list (option Timestamp))
           (key : Timestamp) (side : Side) : Exc nat :=
  if is_monotonic_increasing labels then
    Ok (searchsorted labels key side)
  else if is_monotonic_decreasing labels then
    let pos := searchsorted (rev labels) key
                 (match side with Left => Right | Right => Left end) in
    Ok (length labels - pos)%nat
  else Raise ValueError.

(** [Index.get_slice_bound] *)
Definition get_slice_bound (labels : list (option Timestamp))
           (key : Timestamp) (side : Side) : Exc nat :=
  match get_loc labels key with
  | Raise _ =>
      match searchsorted_monotonic labels key side with
      | Ok p => Ok p
      | Raise _ => Raise KeyError
      end
  | Ok (LocMask mask) =>
      match maybe_booleans_to_slice mask with
      | Some (start, stop) =>
          Ok (match side with Left => start | Right => stop end)
      | None => Raise KeyError
      end
  | Ok (LocSlice start stop) =>
      Ok (match side with Left => start | Right => stop end)
  | Ok (LocInt p) =>
      Ok (match side with Left => p | Right => S p end)
  end.

(** [Index.slice_locs] *)
Definition slice_locs (labels : list (option Timestamp))
           (start stop : Timestamp) : Exc (nat * nat) :=
  start_slice <- get_slice_bound labels start Left ;;
  end_slice <- get_slice_bound labels stop Right ;;
  Ok (start_slice, end_slice).

(** The positional slice [l[i:j]]. *)
Definition slice {A} (i j : nat) (l : list A) : list A :=
  firstn (j - i) (skipn i l).

Definition slice_column (i j : nat) (c : Column) : Column :=
  match c with
  | NumCol v => NumCol (slice i j v)
  | IntCol v => IntCol (slice i j v)
  | ObjCol v => ObjCol (slice i j v)
  | DatetimeCol v => DatetimeCol (slice i j v)
  | DateCol v => DateCol (slice i j v)
  end.

Definition slice_frame (i j : nat) (df : DataFrame) : DataFrame :=
  mk_df (match index df with
         | RangeIndex n => RangeIndex (length (slice i j (repeat tt n)))
         | DatetimeIndex l => DatetimeIndex (slice i j l)
         end)
        (map (fun '(n, c) => (n, slice_column i j c)) (columns df)).

(** [df.loc[start:stop]] with two [Timestamp] bounds. *)
Definition loc (df : DataFrame) (start stop : Timestamp) : Exc DataFrame :=
  '(i, j) <- slice_locs (index_labels df) start stop ;;
  Ok (slice_frame i j df).

End Loc.

(** Lines 67-71: [date_range] is what [st.sidebar.date_input] returned, a
    tuple of dates (day numbers); two dates select a range, anything else
    leaves the table as it is. *)
Definition df_filtered (df : DataFrame) (date_range : list Z) : Exc DataFrame :=
  match date_range with
  | [d0; d1] => Loc.loc df (midnight d0) (midnight d1)
  | _ => Ok df
  end.

(* ================================================================== *)
(** * Column selection *)

(** [str.upper()] *)
Definition upper (s : string) : string :=
  Unicode.encode (flat_map Unicode.to_upper (Unicode.decode s)).

Fixpoint starts_with (sub s : string) : bool :=
  match sub, s with
  | EmptyString, _ => true
  | String _ _, EmptyString => false
  | String a sub', String b s' => Ascii.eqb a b && starts_with sub' s'
  end.

(** [sub in s]: [sub] starts at some position of [s]. *)
Fixpoint contains (sub s : string) : bool :=
  starts_with sub s ||
  match s with
  | EmptyString => false
  | String _ r => contains sub r
  end.

(** The condition of the comprehension of line 79. *)
Definition is_generation_name (col : string) : bool :=
  contains "GENERATION" (upper col) || contains "YIELD" (upper col) ||
  contains "POWER" (upper col) || contains "PRODUCTION" (upper col).

Definition generation_cols (df : DataFrame) : list string :=
  filter is_generation_name (column_names df).

(** [pd.api.types.is_numeric_dtype] *)
Definition is_numeric_dtype (c : Column) : bool :=
  match c with
  | NumCol _ | IntCol _ => true
  | _ => false
  end.

(** [df.select_dtypes(include=np.number).columns.tolist()] *)
Definition numeric_cols (df : DataFrame) : list string :=
  map fst (filter (fun nc => is_numeric_dtype (snd nc)) (columns df)).

(** [l.index(x)] for an [x] that is in [l]. *)
Fixpoint list_index (x : string) (l : list string) : nat :=
  match l with
  | [] => 0
  | y :: r => if String.eqb y x then 0 else S (list_index x r)
  end.

(** Lines 161-163. *)
Definition default_col_index (numeric : list string) : nat :=
  if existsb (String.eqb "Radiation") numeric
  then list_index "Radiation" numeric
  else 0.

(** What [st.selectbox(label, options, index=i)] shows first: the option at
    [i], nothing when there is no option. *)
Definition selectbox_default (options : list string) (i : nat) : option string :=
  nth_error options i.

Definition correlation_col (df : DataFrame) : option string :=
  selectbox_default (numeric_cols df) (default_col_index (numeric_cols df)).

(* ================================================================== *)
(** * Series *)

(** The values of a numeric column with their dtype: a column of whole
    numbers is of [int64] when none is missing and is otherwise read as
    [float64], the missing ones being [NaN]. *)
Inductive Values :=
  | FloatValues (v : list float64)
  | IntValues (v : list Z).

Fixpoint whole_numbers (v : list (option Z)) : option (list Z) :=
  match v with
  | [] => Some []
  | Some n :: r => option_map (cons n) (whole_numbers r)
  | None :: _ => None
  end.

Definition float_cell (c : option Z) : float64 :=
  match c with
  | Some n => Float64.of_Z n
  | None => Float64.nan
  end.

Definition numeric_values (c : Column) : option Values :=
  match c with
  | NumCol v => Some (FloatValues v)
  | IntCol v =>
      Some (match whole_numbers v with
            | Some ns => IntValues ns
            | None => FloatValues (map float_cell v)
            end)
  | _ => None
  end.

(** [ensure_float64] *)
Definition as_float64 (v : Values) : list float64 :=
  match v with
  | FloatValues v => v
  | IntValues ns => map Float64.of_Z ns
  end.

(** A numeric column under the datetime index: one label and one value per
    row. *)
Inductive Series :=
  | FloatSeries (rows : list (option Z * float64))
  | IntSeries (rows : list (option Z * Z)).

(** [df[col]] for a numeric column. *)
Definition df_series (df : DataFrame) (col : string) : Exc Series :=
  sel <- getitem df col ;;
  match sel with
  | SelSeries c =>
      match numeric_values c with
      | Some (FloatValues v) => Ok (FloatSeries (combine (index_labels df) v))
      | Some (IntValues v) => Ok (IntSeries (combine (index_labels df) v))
      | None => Raise TypeError
      end
  | SelFrame _ => Raise ValueError
  end.

(* ================================================================== *)
(** * The trend: [resample(rule).sum()] *)

Module Resample.

(** The values of [resample_map]. *)
Inductive Rule := D | W | M.

(** ** Date offsets *)

(** [Week(weekday=6)._apply], [n] weeks from a day. *)
Definition week_apply (n day : Z) : Z :=
  let other_day := Calendar.weekday day in
  if other_day =? 6 then day + 7 * n
  else
    let day' := day + (6 - other_day) mod 7 in
    let k := if 0 <? n then n - 1 else n in
    day' + 7 * k.

(** [shift_month(stamp, months, 'end')] *)
Definition shift_month_end (y m months : Z) : Z :=
  let dy := (m + months) / 12 in
  let month := (m + months) mod 12 in
  let '(month, dy) := if month =? 0 then (12, dy - 1) else (month, dy) in
  let year := y + dy in
  Calendar.days_from_civil year month (Calendar.days_in_month year month).

(** [MonthEnd._apply] with [roll_convention]. *)
Definition month_end_apply (n day : Z) : Z :=
  let '(y, m, d) := Calendar.civil_from_days day in
  let compare_day := Calendar.days_in_month y m in
  let n' := if (0 <? n) && (d <? compare_day) then n - 1
            else if (n <=? 0) && (compare_day <? d) then n + 1
            else n in
  shift_month_end y m n'.

(** ** The edges of the bins *)

(** The edges that [_get_timestamp_range_edges] computes: for the day, a
    tick, through [_adjust_dates_anchored] with [origin='start_day']; for
    the week and the month end, which are closed on the right, one offset
    before the first day and one after the last. *)
Definition range_edges (rule : Rule) (first last : Timestamp)
  : Z * Z :=
  match rule with
  | D =>
      let freq := minutes_per_day in
      let origin := midnight (day_of first) in
      let foffset := (first - origin) mod freq in
      let loffset := (last - origin) mod freq in
      (if 0 <? foffset then first - foffset else first,
       if 0 <? loffset then last + (freq - loffset) else last + freq)
  | W =>
      (midnight (week_apply (-1) (day_of first)),
       midnight (week_apply 1 (day_of last)))
  | M =>
      (midnight (month_end_apply (-1) (day_of first)),
       midnight (month_end_apply 1 (day_of last)))
  end.

(** [Timestamp(value)]: a value outside the range of [Timestamp] raises
    [OutOfBoundsDatetime]. *)
Definition to_Timestamp (t : Z) : Exc Timestamp :=
  if in_ns_bounds t then Ok t else Raise OutOfBoundsDatetime.

Definition timestamp_range_edges (rule : Rule) (first last : Timestamp)
  : Exc (Timestamp * Timestamp) :=
  let '(e0, e1) := range_edges rule first last in
  first <- to_Timestamp e0 ;;
  last <- to_Timestamp e1 ;;
  Ok (first, last).

Definition next_on_offset (rule : Rule) (t : Timestamp) : Timestamp :=
  match rule with
  | D => t + minutes_per_day
  | W => midnight (week_apply 1 (day_of t))
  | M => midnight (month_end_apply 1 (day_of t))
  end.

(** [date_range(start, end, freq)]: the offset is added until the end is
    passed.  Each step advances by a day at least, which bounds the number
    of steps. *)
Fixpoint date_range_from (fuel : nat) (rule : Rule) (cur stop : Timestamp)
  : list Timestamp :=
  match fuel with
  | O => []
  | S fuel' =>
      if cur <=? stop
      then cur :: date_range_from fuel' rule (next_on_offset rule cur) stop
      else []
  end.

Definition date_range (rule : Rule) (start stop : Timestamp) : list Timestamp :=
  date_range_from (S (Z.to_nat (day_of stop - day_of start))) rule start stop.

Definition to_ns (t : Timestamp) : Z := t * ns_per_minute.

Definition second_last (l : list Z) : option Z :=
  match rev l with
  | _ :: x :: _ => Some x
  | _ => None
  end.

(** [_adjust_bin_edges]: for the week and the month end the right edge of
    a bin is the last nanosecond of its day, a day being added to the edge
    and a nanosecond taken back, and a last bin that holds no value is
    dropped.  The addition of the day raises [OverflowError] when it
    leaves the range of [int64]. *)
Definition adjust_bin_edges (rule : Rule) (binner : list Timestamp)
           (ax_max : Timestamp) : Exc (list Timestamp * list Z) :=
  match rule with
  | D => Ok (binner, map to_ns binner)
  | W | M =>
      if negb (forallb (fun b => to_ns (b + minutes_per_day) <=? 2 ^ 63 - 1)
                       binner)
      then Raise OverflowError
      else
      let bin_edges := map (fun b => to_ns (b + minutes_per_day) - 1) binner in
      match second_last bin_edges with
      | Some e =>
          if to_ns ax_max <? e
          then Ok (removelast binner, removelast bin_edges)
          else Ok (binner, bin_edges)
      | None => Raise ValueError
      end
  end.

(** ** The bins *)

Inductive Closed := ClosedLeft | ClosedRight.

Definition closed (rule : Rule) : Closed :=
  match rule with
  | D => ClosedLeft
  | W | M => ClosedRight
  end.

(** The test of the inner loop of [generate_bins_dt64]. *)
Definition before_edge {V} (c : Closed) (r_bin : Z) (row : Z * V) : bool :=
  match c with
  | ClosedRight => to_ns (fst row) <=? r_bin
  | ClosedLeft => to_ns (fst row) <? r_bin
  end.

Fixpoint take_while {A} (p : A -> bool) (l : list A) : list A :=
  match l with
  | [] => []
  | x :: r => if p x then x :: take_while p r else []
  end.

Fixpoint drop_while {A} (p : A -> bool) (l : list A) : list A :=
  match l with
  | [] => []
  | x :: r => if p x then drop_while p r else l
  end.

(** The linear scan: for each right edge the rows before it leave the
    front of the sorted values and make the bin. *)
Fixpoint scan_bins {V} (c : Closed) (r_bins : list Z) (values : list (Z * V))
  : list (list (Z * V)) :=
  match r_bins with
  | [] => []
  | r_bin :: rest =>
      take_while (before_edge c r_bin) values
        :: scan_bins c rest (drop_while (before_edge c r_bin) values)
  end.

(** [lib.generate_bins_dt64] *)
Definition generate_bins {V} (c : Closed) (values : list (Z * V))
           (binner : list Z) : Exc (list (list (Z * V))) :=
  match values, binner with
  | (v0, x0) :: _, b0 :: r_bins =>
      if to_ns v0 <? b0 then Raise ValueError
      else if last binner b0 <? to_ns (fst (last values (v0, x0)))
      then Raise ValueError
      else Ok (scan_bins c r_bins values)
  | _, _ => Raise ValueError
  end.

(** ** The grouper *)

Definition stamp_leb (a b : option Timestamp) : bool :=
  match a, b with
  | None, _ => true
  | Some _, None => false
  | Some x, Some y => x <=? y
  end.

(** The stable sort of the axis, [NaT] first. *)
Fixpoint insert_row {V} (r : option Timestamp * V)
         (l : list (option Timestamp * V)) : list (option Timestamp * V) :=
  match l with
  | [] => [r]
  | h :: t =>
      if stamp_leb (fst r) (fst h) then r :: h :: t
      else h :: insert_row r t
  end.

Fixpoint sort_index {V} (s : list (option Timestamp * V))
  : list (option Timestamp * V) :=
  match s with
  | [] => []
  | r :: t => insert_row r (sort_index t)
  end.

(** The rows of the sorted axis after its [NaT] rows. *)
Definition dated_rows {V} (s : list (option Timestamp * V)) : list (Z * V) :=
  flat_map (fun '(k, v) => match k with
                           | Some t => [(t, v)]
                           | None => []
                           end) s.

(** [TimeGrouper._get_time_bins] and the sum of each bin. *)
Definition resample_sum {V} `{Numeric V} (rule : Rule)
           (s : list (option Timestamp * V)) : Exc (list (Timestamp * V)) :=
  match sort_index s with
  | [] => Ok []
  | ax =>
      match dated_rows ax with
      | [] => Raise ValueError
      | ((first, v0) :: _) as values =>
          let last := fst (last values (first, v0)) in
          '(e0, e1) <- timestamp_range_edges rule first last ;;
          let binner := date_range rule e0 e1 in
          '(binner, bin_edges) <- adjust_bin_edges rule binner last ;;
          bins <- generate_bins (closed rule) values bin_edges ;;
          let labels := match closed rule with
                        | ClosedRight => tl binner
                        | ClosedLeft => binner
                        end in
          let labels := firstn (length bins) labels in
          Ok (combine labels (map (fun g => Kahan.sum (map snd g)) bins))
      end
  end.

End Resample.

(** The choices of the selectbox of line 118 and [resample_map]. *)
Inductive ResampleOption := PerJam | Harian | Mingguan | Bulanan.

Definition resample_map (o : ResampleOption) : option Resample.Rule :=
  match o with
  | Harian => Some Resample.D
  | Mingguan => Some Resample.W
  | Bulanan => Some Resample.M
  | PerJam => None
  end.

(** A value with its dtype. *)
Inductive Scalar :=
  | Float (x : float64)
  | Int (n : Z).

(** Lines 121-124: the resampled series, or the rows as they are. *)
Inductive Trend :=
  | Resampled (buckets : list (Timestamp * Scalar))
  | Unbucketed (rows : Series).

Definition df_resampled (df : DataFrame) (col : string) (o : ResampleOption)
  : Exc Trend :=
  s <- df_series df col ;;
  match resample_map o with
  | Some rule =>
      match s with
      | FloatSeries rows =>
          b <- Resample.resample_sum rule rows ;;
          Ok (Resampled (map (fun '(l, v) => (l, Float v)) b))
      | IntSeries rows =>
          b <- Resample.resample_sum rule rows ;;
          Ok (Resampled (map (fun '(l, v) => (l, Int v)) b))
      end
  | None => Ok (Unbucketed s)
  end.

(* ================================================================== *)
(** * The hourly profile: [groupby('HOUR')[col].mean()] *)

Module GroupBy.

(** The groups in ascending order of their key, each with its values in
    row order. *)
Fixpoint insert_group (k : Z) (v : float64) (groups : list (Z * list float64))
  : list (Z * list float64) :=
  match groups with
  | [] => [(k, [v])]
  | (k', vs) :: rest =>
      if k <? k' then (k, [v]) :: groups
      else if k =? k' then (k', vs ++ [v]) :: rest
      else (k', vs) :: insert_group k v rest
  end.

(** Rows whose key is [NaN] belong to no group ([dropna=True]). *)
Definition add_row (groups : list (Z * list float64))
           (row : option Z * float64) : list (Z * list float64) :=
  match fst row with
  | Some k => insert_group k (snd row) groups
  | None => groups
  end.

Definition groups (keys : list (option Z)) (vals : list float64)
  : list (Z * list float64) :=
  fold_left add_row (combine keys vals) [].

Definition group_mean (keys : list (option Z)) (vals : list float64)
  : list (Z * float64) :=
  map (fun '(k, vs) => (k, Kahan.mean vs)) (groups keys vals).

End GroupBy.

(** Line 148; the values of a column of whole numbers are made [float64]
    before their mean is taken. *)
Definition hourly_avg (df : DataFrame) (col : string)
  : Exc (list (Z * float64)) :=
  hour <- getitem df "HOUR" ;;
  sel <- getitem df col ;;
  match hour, sel with
  | SelSeries (IntCol keys), SelSeries c =>
      match numeric_values c with
      | Some v => Ok (GroupBy.group_mean keys (as_float64 v))
      | None => Raise TypeError
      end
  | _, _ => Raise ValueError
  end.

(* ================================================================== *)
(** * Vocabulary of the properties *)

(** Two characters are the same letter of the alphabet up to case: the
    capitals are the bytes 65 to 90 and the small letters follow them at a
    distance of 32. *)
Inductive same_letter : ascii -> ascii -> Prop :=
| same_char c : same_letter c c
| small_and_capital n :
    65 <= n <= 90 -> same_letter (Unicode.char (n + 32)) (Unicode.char n)
| capital_and_small n :
    65 <= n <= 90 -> same_letter (Unicode.char n) (Unicode.char (n + 32)).

(** [a] and [b] are the same text up to the case of their letters. *)
Inductive eq_ignore_case : string -> string -> Prop :=
| eq_ignore_case_nil : eq_ignore_case EmptyString EmptyString
| eq_ignore_case_cons a b s t :
    same_letter a b -> eq_ignore_case s t ->
    eq_ignore_case (String a s) (String b t).

(** A text written with the characters of ASCII alone. *)
Fixpoint is_ascii (s : string) : bool :=
  match s with
  | EmptyString => true
  | String c r => (Unicode.byte c <? 128) && is_ascii r
  end.

(** A column of numbers: of floating-point or of whole numbers. *)
Inductive numeric_column : Column -> Prop :=
| float_column v : numeric_column (NumCol v)
| integer_column v : numeric_column (IntCol v).

(** The small letters of ASCII made capitals, byte by byte. *)
Definition capital (c : ascii) : ascii :=
  let n := Unicode.byte c in
  if (97 <=? n) && (n <=? 122) then Unicode.char (n - 32) else c.

Fixpoint capitals (s : string) : string :=
  match s with
  | EmptyString => EmptyString
  | String c r => String (capital c) (capitals r)
  end.

(** A name of five letters, y, dotless i, e, l, d: the dotless i is the
    code point 305, the bytes 196 and 177 in UTF-8. *)
Definition dotless_name : string :=
  String "y" (String (Unicode.char 196) (String (Unicode.char 177) "eld")).

(** [name] contains [kw], the case of letters being ignored. *)
Definition contains_ignore_case (kw name : string) : Prop :=
  exists pre mid post,
    name = (pre ++ mid ++ post)%string /\ eq_ignore_case mid kw.

Definition generation_keywords : list string :=
  ["GENERATION"; "YIELD"; "POWER"; "PRODUCTION"]%string.

(** The entry of a key in a sequence of pairs, when there is one. *)
Fixpoint lookup {V} (k : Z) (l : list (Z * V)) : option V :=
  match l with
  | [] => None
  | (k', v) :: r => if k' =? k then Some v else lookup k r
  end.

(** The arithmetic mean of a sequence of numbers. *)
Definition arithmetic_mean (xs : list Q) : Q :=
  (fold_right Qplus 0 xs / inject_Z (Z.of_nat (length xs)))%Q.

(** The values that are not missing. *)
Definition valid_values (vals : list float64) : list float64 :=
  filter (fun x => negb (Float64.is_nan x)) vals.

(** The compensated sum of a sequence of numbers, taken from the first to
    the last: [s] is the sum so far and [c] the rounding error of the last
    addition, which the next one takes back. *)
Fixpoint compensated (s c : float64) (xs : list float64) : float64 :=
  match xs with
  | [] => s
  | x :: r =>
      let y := Float64.sub x c in
      let t := Float64.add s y in
      let c' := Float64.sub (Float64.sub t s) y in
      compensated t (if Float64.is_nan c' then Float64.zero else c') r
  end.

Definition float_sum (xs : list float64) : float64 :=
  compensated Float64.zero Float64.zero xs.

(** The mean in [float64]: the compensated sum divided by the number of
    values. *)
Definition float_mean (xs : list float64) : float64 :=
  Float64.div (float_sum xs) (Float64.of_Z (Z.of_nat (length xs))).

(** The sum of whole numbers in [int64]. *)
Definition int_sum (xs : list Z) : Z := Int64.wrap (fold_right Z.add 0 xs).

(** The numbers 0.1, 0.2 and 0.3 of [float64]. *)
Definition tenth : float64 := S754_finite false 7205759403792794 (-56).

(** The HOUR column of a table and the values of one of its numeric
    columns. *)
Definition hour_column (df : DataFrame) : list (option Z) :=
  match getitem df "HOUR" with
  | Ok (SelSeries (IntCol keys)) => keys
  | _ => []
  end.

Definition column_values (df : DataFrame) (col : string) : list float64 :=
  match getitem df col with
  | Ok (SelSeries c) =>
      match numeric_values c with
      | Some v => as_float64 v
      | None => []
      end
  | _ => []
  end.

(** The values, in row order, of the rows whose hour is [h]. *)
Definition row_at (h : Z) (row : option Z * float64) : bool :=
  match fst row with
  | Some k => k =? h
  | None => false
  end.

Definition values_at_hour (h : Z) (keys : list (option Z))
           (vals : list float64) : list float64 :=
  map snd (filter (row_at h) (combine keys vals)).

(** Groups whose keys are in strictly ascending order. *)
Definition keys_above (k : Z) (g : list (Z * list float64)) : Prop :=
  Forall (fun e => k < fst e) g.

Inductive ascending : list (Z * list float64) -> Prop :=
| asc_nil : ascending []
| asc_cons k vs g : keys_above k g -> ascending g -> ascending ((k, vs) :: g).

Definition profile_example : DataFrame :=
  mk_df (DatetimeIndex [Some 600; Some 2040; Some 660; None])
        [("SystemProduction"%string,
          NumCol [Float64.of_Z 3; Float64.of_Z 4; Float64.nan; Float64.of_Z 9]);
         ("HOUR"%string, IntCol [Some 10; Some 10; Some 11; None])].

(** Three readings of 0.1 in the hour from 10 to 11 of three days. *)
Definition tenths_example : DataFrame :=
  mk_df (DatetimeIndex [Some 600; Some 2040; Some 3480])
        [("SystemProduction"%string, NumCol [tenth; tenth; tenth]);
         ("HOUR"%string, IntCol [Some 10; Some 10; Some 10])].

(** One cell of the text column of timestamps. *)
Definition parse_cell (cell : option string) : option Timestamp :=
  match cell with
  | Some s => Strptime.to_datetime s
  | None => None
  end.

(** A table as read from a file whose second row has the timestamp of a
    day that does not exist, and one whose timestamp column has another
    header. *)
Definition raw_example : DataFrame :=
  mk_df (RangeIndex 2)
        [("Date-Hour(NMT)", ObjCol [Some "01.01.2020-10:00"; Some "31.02.2020-10:00"]);
         ("SystemProduction", NumCol [Float64.of_Z 3; Float64.of_Z 4])]%string.

Definition raw_canonical_header : DataFrame :=
  mk_df (RangeIndex 1)
        [("DATE_TIME", ObjCol [Some "01.01.2020-10:00"]);
         ("SystemProduction", NumCol [Float64.of_Z 3])]%string.

Definition raw_other_header : DataFrame :=
  mk_df (RangeIndex 1)
        [("Time", ObjCol [Some "01.01.2020-10:00"]);
         ("SystemProduction", NumCol [Float64.of_Z 3])]%string.

(** The columns that carry a name. *)
Definition named (name : string) (nc : string * Column) : bool :=
  String.eqb (fst nc) name.

(** The label lies between two timestamps, both included. *)
Definition label_between (a b : Timestamp) (l : option Timestamp) : bool :=
  match l with
  | Some t => (a <=? t) && (t <=? b)
  | None => false
  end.

(** The label lies on a day between two dates, both included. *)
Definition label_on_days (d0 d1 : Z) (l : option Timestamp) : bool :=
  match l with
  | Some t => (d0 <=? day_of t) && (day_of t <=? d1)
  | None => false
  end.

(** A file in chronological order with two readings on 2020-01-01 (day
    18262) and one on the next day, and a file whose readings are not in
    chronological order. *)
Definition raw_sorted : DataFrame :=
  mk_df (RangeIndex 3)
        [("Date-Hour(NMT)",
          ObjCol [Some "01.01.2020-00:00"; Some "01.01.2020-12:00";
                  Some "02.01.2020-08:00"]);
         ("SystemProduction",
          NumCol [Float64.of_Z 0; Float64.of_Z 7; Float64.of_Z 2])]%string.

Definition raw_unsorted : DataFrame :=
  mk_df (RangeIndex 3)
        [("Date-Hour(NMT)",
          ObjCol [Some "02.01.2020-10:00"; Some "01.01.2020-10:00";
                  Some "03.01.2020-10:00"]);
         ("SystemProduction",
          NumCol [Float64.of_Z 5; Float64.of_Z 7; Float64.of_Z 2])]%string.

(** ** Checks by computation *)

(** [p] holds of the [n] integers from [z] on. *)
Fixpoint forall_range (n : nat) (z : Z) (p : Z -> bool) : bool :=
  match n with
  | O => true
  | S n' => p z && forall_range n' (z + 1) p
  end.

Definition triple_eqb (a b : Z * Z * Z) : bool :=
  let '(a1, a2, a3) := a in
  let '(b1, b2, b3) := b in
  (a1 =? b1) && (a2 =? b2) && (a3 =? b3).

(** A day number gives a date that exists and that gives the day number
    back. *)
Definition check_day (z : Z) : bool :=
  let '(y, m, d) := Calendar.civil_from_days z in
  Calendar.valid_date y m d && (Calendar.days_from_civil y m d =? z).

(** A date that exists gives a day number that gives the date back. *)
Definition check_date (y m d : Z) : bool :=
  negb (Calendar.valid_date y m d) ||
  triple_eqb (Calendar.civil_from_days (Calendar.days_from_civil y m d)) (y, m, d).

(** The first day of a month follows the last day of the month before. *)
Definition check_month_start (y m : Z) : bool :=
  let '(py, pm) := if m =? 1 then (y - 1, 12) else (y, m - 1) in
  Calendar.days_from_civil y m 1 =?
  Calendar.days_from_civil py pm (Calendar.days_in_month py pm) + 1.

(** ** The texts the format accepts *)

(** What the directives of the format accept, alternative by alternative,
    with the number read.  A digit is written by its code point: [48 + b]
    is the digit [b] of ASCII, and a code point [c] with
    [Unicode.decimal c = Some b] is the digit [b] of any script. *)
Inductive day_text : list Z -> Z -> Prop :=
| day_thirty b : 0 <= b <= 1 -> day_text [51; 48 + b] (30 + b)
| day_two_digits a c b :
    1 <= a <= 2 -> Unicode.decimal c = Some b ->
    day_text [48 + a; c] (10 * a + b)
| day_padded b : 1 <= b <= 9 -> day_text [48; 48 + b] b
| day_one_digit b : 1 <= b <= 9 -> day_text [48 + b] b
| day_after_space b : 1 <= b <= 9 -> day_text [32; 48 + b] b.

Inductive month_text : list Z -> Z -> Prop :=
| month_two_digits b : 0 <= b <= 2 -> month_text [49; 48 + b] (10 + b)
| month_padded b : 1 <= b <= 9 -> month_text [48; 48 + b] b
| month_one_digit b : 1 <= b <= 9 -> month_text [48 + b] b.

Inductive year_text : list Z -> Z -> Prop :=
| year_four_digits c1 c2 c3 c4 a b c d :
    Unicode.decimal c1 = Some a -> Unicode.decimal c2 = Some b ->
    Unicode.decimal c3 = Some c -> Unicode.decimal c4 = Some d ->
    year_text [c1; c2; c3; c4] (1000 * a + 100 * b + 10 * c + d).

Inductive hour_text : list Z -> Z -> Prop :=
| hour_twenty b : 0 <= b <= 3 -> hour_text [50; 48 + b] (20 + b)
| hour_two_digits a c b :
    0 <= a <= 1 -> Unicode.decimal c = Some b ->
    hour_text [48 + a; c] (10 * a + b)
| hour_one_digit c b : Unicode.decimal c = Some b -> hour_text [c] b.

Inductive minute_text : list Z -> Z -> Prop :=
| minute_two_digits a c b :
    0 <= a <= 5 -> Unicode.decimal c = Some b ->
    minute_text [48 + a; c] (10 * a + b)
| minute_one_digit c b : Unicode.decimal c = Some b -> minute_text [c] b.

(** A text that reads [day.month.year-hour:minute]. *)
Definition stamp_text (s : list Z) (y m d H M : Z) : Prop :=
  exists td tm ty tH tM,
    s = td ++ 46 :: tm ++ 46 :: ty ++ 45 :: tH ++ 58 :: tM /\
    day_text td d /\ month_text tm m /\ year_text ty y /\
    hour_text tH H /\ minute_text tM M.

(** A date and a time of day that exist, the year having four digits. *)
Definition valid_fields (y m d H M : Z) : Prop :=
  0 <= y <= 9999 /\ Calendar.valid_date y m d = true /\
  0 <= H <= 23 /\ 0 <= M <= 59.

(** ** Buckets *)

(** The day that labels the bucket of a day: the day itself, the Sunday that
    ends its week, the last day of its month. *)
Definition bucket_day (rule : Resample.Rule) (z : Z) : Z :=
  match rule with
  | Resample.D => z
  | Resample.W => z + (6 - Calendar.weekday z)
  | Resample.M =>
      let '(y, m, _) := Calendar.civil_from_days z in
      Calendar.days_from_civil y m (Calendar.days_in_month y m)
  end.

(** The label of the bucket of a timestamp. *)
Definition bucket_label (rule : Resample.Rule) (t : Timestamp) : Timestamp :=
  midnight (bucket_day rule (day_of t)).

(** The first instant of the calendar day, week (from Monday) or month of a
    timestamp. *)
Definition period_start (rule : Resample.Rule) (t : Timestamp) : Timestamp :=
  match rule with
  | Resample.D => midnight (day_of t)
  | Resample.W => midnight (day_of t - Calendar.weekday (day_of t))
  | Resample.M =>
      let '(y, m, _) := Calendar.civil_from_days (day_of t) in
      midnight (Calendar.days_from_civil y m 1)
  end.

(** The number of days of the month of a timestamp. *)
Definition month_length (t : Timestamp) : Z :=
  let '(y, m, _) := Calendar.civil_from_days (day_of t) in
  Calendar.days_in_month y m.

(** The label of the calendar day, week or month of a timestamp: the first
    instant of the day; midnight of the Sunday that ends the week, six days
    after its first instant; midnight of the last day of the month. *)
Definition period_label (rule : Resample.Rule) (t : Timestamp) : Timestamp :=
  match rule with
  | Resample.D => period_start Resample.D t
  | Resample.W => period_start Resample.W t + 6 * minutes_per_day
  | Resample.M =>
      period_start Resample.M t + (month_length t - 1) * minutes_per_day
  end.

(** The days from [a] to [b]. *)
Fixpoint zrange_n (n : nat) (a : Z) : list Z :=
  match n with
  | O => []
  | S n' => a :: zrange_n n' (a + 1)
  end.

Definition zrange (a b : Z) : list Z := zrange_n (Z.to_nat (b + 1 - a)) a.

(** The days from [a] to [b] that label a bucket, [B] giving the day that
    labels the bucket of a day. *)
Definition offsets (B : Z -> Z) (a b : Z) : list Z :=
  filter (fun z => B z =? z) (zrange a b).

(** The rows of the bucket labelled by the day [L]. *)
Definition in_bucket {V} (B : Z -> Z) (L : Z) (row : Z * V) : bool :=
  B (day_of (fst row)) =? L.

Definition row_le {V} (r1 r2 : Z * V) : Prop := fst r1 <= fst r2.

(** The months before and after a month. *)
Definition prev_month (y m : Z) : Z * Z :=
  if m =? 1 then (y - 1, 12) else (y, m - 1).

Definition next_month (y m : Z) : Z * Z :=
  if m =? 12 then (y + 1, 1) else (y, m + 1).

(** The right edge, in nanoseconds, of the bin labelled by the day [L]: the
    last nanosecond of [L] for a bin closed on the right, the midnight that
    follows [L] for a bin closed on the left. *)
Definition edge_right (L : Z) : Z :=
  Resample.to_ns (midnight L + minutes_per_day) - 1.

Definition edge_left (L : Z) : Z := Resample.to_ns (midnight (L + 1)).

(** The order of the sorted axis. *)
Definition series_le {V} (a b : option Z * V) : Prop :=
  Resample.stamp_leb (fst a) (fst b) = true.

(** The resampled series written bucket by bucket: one entry for each
    bucket from the bucket of the first day to the bucket of the last day,
    with the sum of the values of its rows. *)
Definition buckets {V} `{Numeric V} (rule : Resample.Rule)
           (values : list (Z * V)) (dmin dmax : Z) : list (Z * V) :=
  map (fun L => (midnight L,
                 Kahan.sum (map snd (filter (in_bucket (bucket_day rule) L)
                                            values))))
      (offsets (bucket_day rule) (bucket_day rule dmin) (bucket_day rule dmax)).

(** ** The rows of a series *)

(** The timestamps of the rows that have one. *)
Definition stamps {V} (s : list (option Timestamp * V)) : list Timestamp :=
  map fst (Resample.dated_rows s).

Definition series_stamps (s : Series) : list Timestamp :=
  match s with
  | FloatSeries rows => stamps rows
  | IntSeries rows => stamps rows
  end.

(** The rows in chronological order, the rows of one timestamp in the order
    of the table. *)
Definition chronological {V} (s : list (option Timestamp * V))
  : list (Z * V) :=
  Resample.dated_rows (Resample.sort_index s).

(** The values, in chronological order, of the rows whose timestamp falls
    in the bucket labelled [L]. *)
Definition bucket_values {V} (rule : Resample.Rule) (L : Timestamp)
           (s : list (option Timestamp * V)) : list V :=
  map snd (filter (fun row => bucket_label rule (fst row) =? L)
                  (chronological s)).

(** The values, in chronological order, of the rows of the calendar day,
    week or month whose first instant is [start]. *)
Definition period_values {V} (rule : Resample.Rule) (start : Timestamp)
           (s : list (option Timestamp * V)) : list V :=
  map snd (filter (fun row => period_start rule (fst row) =? start)
                  (chronological s)).



(** The edges of the bins of a span of timestamps are in range. *)
Definition span_in_range (rule : Resample.Rule) (tmin tmax : Timestamp) : bool :=
  let '(e0, e1) := Resample.range_edges rule tmin tmax in
  in_ns_bounds e0 && in_ns_bounds e1 &&
  match Resample.closed rule with
  | Resample.ClosedLeft => true
  | Resample.ClosedRight =>
      Resample.to_ns (e1 + minutes_per_day) <=? 2 ^ 63 - 1
  end.

(** Readings on 2020-01-01 and 2020-01-03 and none on the day between, and
    one reading on Wednesday 2020-01-08 at 10:00. *)
Definition gap_series : list (option Timestamp * float64) :=
  [(Some (mk_timestamp 2020 1 1 10 0), Float64.of_Z 3);
   (Some (mk_timestamp 2020 1 3 11 0), Float64.of_Z 4)].

Definition wednesday_series : list (option Timestamp * float64) :=
  [(Some (mk_timestamp 2020 1 8 10 0), Float64.of_Z 1)].




(** ** The loaded table *)

(** The names the loader gives a meaning to. *)
Definition loader_names : list string :=
  ["Date-Hour(NMT)"; "DATE_TIME"; "DATE"; "HOUR"]%string.

(** An hour of the day, or the missing hour of a row without timestamp. *)
Definition hour_ok (h : option Z) : Prop :=
  match h with
  | Some x => 0 <= x <= 23
  | None => True
  end.

(** A file whose header has both the expected and the canonical name of the
    timestamp column. *)
Definition raw_both_headers : DataFrame :=
  mk_df (RangeIndex 1)
        [("Date-Hour(NMT)", ObjCol [Some "01.01.2020-10:00"]);
         ("DATE_TIME", ObjCol [Some "01.01.2020-10:00"]);
         ("SystemProduction", NumCol [Float64.of_Z 3])]%string.

(* ================================================================== *)
(** * The bounds of the date picker (lines 58-65) *)




(* ================================================================== *)
(** * Column selection: proofs *)

Section ColumnSelection.

Local Open Scope string_scope.

Lemma starts_with_app (a s : string) :
  starts_with a s = true <-> exists post, s = a ++ post.
Proof.
  revert s; induction a as [|c a IH]; intros s; simpl.
  - split; [intros _; now exists s | reflexivity].
  - destruct s as [|c' s].
    + split; [discriminate | intros [post H]; discriminate].
    + rewrite andb_true_iff, IH.
      destruct (Ascii.eqb_spec c c') as [->|Hne].
      * split.
        -- intros [_ [post H]]. exists post. now rewrite H.
        -- intros [post H]. split; [reflexivity|]. exists post. now injection H.
      * split; [intros [H _]; discriminate|].
        intros [post H]. injection H as H1 H2. congruence.
Qed.

Lemma contains_app (sub s : string) :
  contains sub s = true <-> exists pre post, s = pre ++ sub ++ post.
Proof.
  induction s as [|c s IH]; simpl; rewrite orb_true_iff, starts_with_app.
  - split.
    + intros [[post H]|H]; [|discriminate]. now exists "", post.
    + intros [pre [post H]]. left. destruct pre; simpl in H.
      * now exists post.
      * discriminate.
  - rewrite IH. split.
    + intros [[post H]|[pre [post H]]].
      * now exists "", post.
      * exists (String c pre), post. simpl. now rewrite H.
    + intros [pre [post H]]. destruct pre as [|c' pre]; simpl in H.
      * left. now exists post.
      * right. injection H as _ H. now exists pre, post.
Qed.

Lemma capitals_app (a b : string) :
  capitals (a ++ b) = capitals a ++ capitals b.
Proof. induction a as [|c a IH]; simpl; [reflexivity | now rewrite IH]. Qed.

Lemma capitals_split (s a b : string) :
  capitals s = a ++ b ->
  exists s1 s2, s = s1 ++ s2 /\ capitals s1 = a /\ capitals s2 = b.
Proof.
  revert s; induction a as [|c a IH]; intros s H; simpl in H.
  - now exists "", s.
  - destruct s as [|c' s]; simpl in H; [discriminate|].
    injection H as Hc H.
    destruct (IH _ H) as (s1 & s2 & -> & H1 & H2).
    exists (String c' s1), s2. simpl. now rewrite Hc, H1.
Qed.

Lemma byte_bounds c : (0 <= Unicode.byte c < 256)%Z.
Proof.
  unfold Unicode.byte. pose proof (nat_ascii_bounded c). lia.
Qed.

Lemma char_byte c : Unicode.char (Unicode.byte c) = c.
Proof.
  unfold Unicode.char, Unicode.byte. rewrite Nat2Z.id.
  apply ascii_nat_embedding.
Qed.

Lemma byte_char n : (0 <= n < 256)%Z -> Unicode.byte (Unicode.char n) = n.
Proof.
  intros H. unfold Unicode.char, Unicode.byte.
  rewrite nat_ascii_embedding by lia. lia.
Qed.

(** A character and the capital it becomes are the same letter. *)
Lemma capital_same_letter a : same_letter a (capital a).
Proof.
  unfold capital. cbv zeta.
  destruct ((97 <=? Unicode.byte a) && (Unicode.byte a <=? 122))%Z eqn:E;
    [|constructor].
  apply andb_true_iff in E as [H1 H2].
  apply Z.leb_le in H1, H2.
  rewrite <- (char_byte a) at 1.
  replace (Unicode.byte a) with (Unicode.byte a - 32 + 32)%Z at 1 by lia.
  apply small_and_capital. lia.
Qed.

Lemma same_letter_capital a k :
  capital k = k -> same_letter a k -> capital a = k.
Proof.
  intros Hk H. destruct H as [c | n Hn | n Hn].
  - exact Hk.
  - unfold capital. rewrite byte_char by lia.
    replace ((97 <=? n + 32) && (n + 32 <=? 122))%Z with true
      by (symmetry; apply andb_true_iff; split; apply Z.leb_le; lia).
    f_equal. lia.
  - exfalso. unfold capital in Hk. rewrite byte_char in Hk by lia.
    replace ((97 <=? n + 32) && (n + 32 <=? 122))%Z with true in Hk
      by (symmetry; apply andb_true_iff; split; apply Z.leb_le; lia).
    apply (f_equal Unicode.byte) in Hk. rewrite !byte_char in Hk by lia. lia.
Qed.

Lemma capitals_eq_ignore_case mid kw :
  capitals kw = kw -> (capitals mid = kw <-> eq_ignore_case mid kw).
Proof.
  revert kw. induction mid as [|a mid IH]; intros kw Hkw; simpl.
  - split.
    + intros <-. constructor.
    + intros H. now inversion H.
  - destruct kw as [|k kw].
    + split; [discriminate | intros H; inversion H].
    + simpl in Hkw. injection Hkw as Hk Hkw. split.
      * intros H. injection H as Ha Hm. constructor.
        -- rewrite <- Ha. apply capital_same_letter.
        -- now apply IH.
      * intros H. inversion H as [|? ? ? ? Hl Hr]; subst.
        f_equal; [now apply same_letter_capital | now apply IH].
Qed.

(** For a keyword written in capitals, containment in the capitals of a
    name is containment up to case. *)
Lemma contains_capitals_iff (kw name : string) :
  capitals kw = kw ->
  (contains kw (capitals name) = true <-> contains_ignore_case kw name).
Proof.
  intros Hkw. rewrite contains_app. split.
  - intros (pre & post & H).
    destruct (capitals_split _ _ _ H) as (s1 & s2' & -> & H1 & H2).
    destruct (capitals_split _ _ _ H2) as (s2 & s3 & -> & H3 & H4).
    exists s1, s2, s3. split; [reflexivity|].
    now apply capitals_eq_ignore_case.
  - intros (pre & mid & post & -> & H).
    apply capitals_eq_ignore_case in H; [|exact Hkw].
    exists (capitals pre), (capitals post).
    now rewrite !capitals_app, H.
Qed.

(** [str.upper] on a text of ASCII makes its small letters capitals. *)
Lemma upper_ascii (s : string) : is_ascii s = true -> upper s = capitals s.
Proof.
  unfold upper. induction s as [|c s IH]; [reflexivity|].
  cbn [is_ascii]. intros H. apply andb_true_iff in H as [Hc Hs].
  cbn [Unicode.decode]. cbv zeta. rewrite Hc.
  cbn [flat_map]. unfold Unicode.to_upper at 1. rewrite Hc.
  apply Z.ltb_lt in Hc. pose proof (byte_bounds c) as Hb.
  cbn [capitals]. unfold capital. cbv zeta.
  destruct ((97 <=? Unicode.byte c) && (Unicode.byte c <=? 122))%Z eqn:E.
  - apply andb_true_iff in E as [H1 H2]. apply Z.leb_le in H1, H2.
    cbn [app Unicode.encode]. unfold Unicode.encode_point.
    replace (Unicode.byte c - 32 <? 128)%Z with true
      by (symmetry; apply Z.ltb_lt; lia).
    now rewrite IH.
  - cbn [app Unicode.encode]. unfold Unicode.encode_point.
    replace (Unicode.byte c <? 128)%Z with true
      by (symmetry; apply Z.ltb_lt; lia).
    now rewrite char_byte, IH.
Qed.

Lemma generation_keywords_capitals kw :
  In kw generation_keywords -> capitals kw = kw.
Proof.
  intros [<-|[<-|[<-|[<-|[]]]]]; reflexivity.
Qed.

Lemma is_generation_name_spec (col : string) :
  is_generation_name col =
  existsb (fun kw => contains kw (upper col)) generation_keywords.
Proof.
  unfold is_generation_name, generation_keywords. cbn [existsb].
  now rewrite orb_false_r, !orb_assoc.
Qed.

Lemma contains_ignore_case_capitals (col : string) :
  existsb (fun kw => contains kw (capitals col)) generation_keywords = true <->
  exists kw, In kw generation_keywords /\ contains_ignore_case kw col.
Proof.
  rewrite existsb_exists. split.
  - intros (kw & Hin & H). exists kw. split; [exact Hin|].
    now apply contains_capitals_iff; [apply generation_keywords_capitals|].
  - intros (kw & Hin & H). exists kw. split; [exact Hin|].
    now apply contains_capitals_iff; [apply generation_keywords_capitals|].
Qed.

Lemma nth_error_list_index (l : list string) (x : string) :
  In x l -> nth_error l (list_index x l) = Some x.
Proof.
  induction l as [|y l IH]; simpl; [tauto|].
  intros H. destruct (String.eqb_spec y x) as [->|Hne]; [reflexivity|].
  simpl. apply IH. destruct H; congruence.
Qed.

Lemma existsb_eqb_In (l : list string) (x : string) :
  existsb (String.eqb x) l = true <-> In x l.
Proof.
  rewrite existsb_exists. split.
  - intros (y & Hy & E). apply String.eqb_eq in E. now subst.
  - intros H. exists x. split; [exact H | apply String.eqb_refl].
Qed.

Lemma numeric_column_dtype c : numeric_column c <-> is_numeric_dtype c = true.
Proof.
  split.
  - now intros [v|v].
  - destruct c; try discriminate; intros _; constructor.
Qed.

Lemma numeric_cols_In df name :
  In name (numeric_cols df) <->
  exists c, In (name, c) (columns df) /\ numeric_column c.
Proof.
  unfold numeric_cols. rewrite in_map_iff. split.
  - intros ([n c] & <- & H). apply filter_In in H as [H1 H2].
    exists c. split; [exact H1 | now apply numeric_column_dtype].
  - intros (c & H1 & H2). exists (name, c). split; [reflexivity|].
    apply filter_In. split; [exact H1 | now apply numeric_column_dtype].
Qed.

Lemma numeric_cols_first (cols pre : list (string * Column)) name c post :
  cols = (pre ++ (name, c) :: post)%list ->
  numeric_column c ->
  Forall (fun nc => ~ numeric_column (snd nc)) pre ->
  hd_error (map fst (filter (fun nc => is_numeric_dtype (snd nc)) cols))
  = Some name.
Proof.
  intros -> Hc Hpre. induction Hpre as [|[n c'] pre Hn _ IH]; simpl.
  - apply numeric_column_dtype in Hc. now rewrite Hc.
  - destruct (is_numeric_dtype c') eqn:E; [|exact IH].
    exfalso. apply Hn. now apply numeric_column_dtype.
Qed.

Lemma correlation_col_spec df :
  correlation_col df =
  if in_dec string_dec "Radiation" (numeric_cols df)
  then Some "Radiation"
  else hd_error (numeric_cols df).
Proof.
  unfold correlation_col, default_col_index, selectbox_default.
  destruct (in_dec string_dec "Radiation" (numeric_cols df)) as [Hin|Hnin].
  - rewrite (proj2 (existsb_eqb_In _ _) Hin).
    now apply nth_error_list_index.
  - destruct (existsb (String.eqb "Radiation") (numeric_cols df)) eqn:E.
    + apply existsb_eqb_In in E. contradiction.
    + now destruct (numeric_cols df).
Qed.

(** C9 (as the code has it).  The candidate generation columns are the
    columns, in table order, whose name upper-cased by [str.upper] contains
    one of GENERATION, YIELD, POWER, PRODUCTION.  Every column whose name
    is written in ASCII is a candidate exactly when its name contains one
    of the keywords up to the case of its letters.  On the headers
    SystemProduction, Radiation, Temperature (alone, or followed by the
    DATE and HOUR columns of a loaded table) the candidates are
    SystemProduction alone.  The column proposed for the correlation is
    Radiation when a column of numbers bears that name; otherwise it is
    the first column of the table that is a column of numbers, and there
    is none when the table has no column of numbers. *)
Theorem generation_candidates_and_correlation_default :
  (forall df,
      generation_cols df =
      filter (fun col => existsb (fun kw => contains kw (upper col))
                                 generation_keywords)
             (column_names df))
  /\ (forall df col,
      is_ascii col = true ->
      (In col (generation_cols df) <->
       In col (column_names df) /\
       exists kw, In kw generation_keywords /\ contains_ignore_case kw col))
  /\ (forall idx c1 c2 c3,
      generation_cols
        (mk_df idx [("SystemProduction", c1); ("Radiation", c2);
                    ("Temperature", c3)])
      = ["SystemProduction"])
  /\ (forall idx c1 c2 c3 c4 c5,
      generation_cols
        (mk_df idx [("SystemProduction", c1); ("Radiation", c2);
                    ("Temperature", c3); ("DATE", c4); ("HOUR", c5)])
      = ["SystemProduction"])
  /\ (forall idx v1 v2 v3,
      correlation_col
        (mk_df idx [("SystemProduction", NumCol v1); ("Radiation", NumCol v2);
                    ("Temperature", NumCol v3)])
      = Some "Radiation")
  /\ (forall df c,
      In ("Radiation", c) (columns df) -> numeric_column c ->
      correlation_col df = Some "Radiation")
  /\ (forall df pre name c post,
      (forall c', In ("Radiation", c') (columns df) -> ~ numeric_column c') ->
      columns df = (pre ++ (name, c) :: post)%list ->
      numeric_column c ->
      Forall (fun nc => ~ numeric_column (snd nc)) pre ->
      correlation_col df = Some name)
  /\ (forall df,
      Forall (fun nc => ~ numeric_column (snd nc)) (columns df) ->
      correlation_col df = None).
Proof.
  split; [|split; [|split; [|split; [|split; [|split; [|split]]]]]].
  - intros df. unfold generation_cols. apply filter_ext.
    exact is_generation_name_spec.
  - intros df col Ha. unfold generation_cols.
    rewrite filter_In, is_generation_name_spec, (upper_ascii col Ha).
    now rewrite contains_ignore_case_capitals.
  - intros. vm_compute. reflexivity.
  - intros. vm_compute. reflexivity.
  - intros. vm_compute. reflexivity.
  - intros df c Hin Hc. rewrite correlation_col_spec.
    destruct (in_dec string_dec "Radiation" (numeric_cols df)) as [_|Hn];
      [reflexivity|].
    exfalso. apply Hn, numeric_cols_In. now exists c.
  - intros df pre name c post Hrad Hcols Hc Hpre.
    rewrite correlation_col_spec.
    destruct (in_dec string_dec "Radiation" (numeric_cols df)) as [Hin|_].
    + apply numeric_cols_In in Hin as (c' & H1 & H2).
      now destruct (Hrad c' H1).
    + unfold numeric_cols. now apply (numeric_cols_first _ pre name c post).
  - intros df Hall. rewrite correlation_col_spec.
    assert (E : numeric_cols df = []).
    { unfold numeric_cols. induction Hall as [|[n c] l Hn _ IH]; simpl;
        [reflexivity|].
      destruct (is_numeric_dtype c) eqn:E; [|exact IH].
      exfalso. apply Hn. now apply numeric_column_dtype. }
    rewrite E. now destruct (in_dec string_dec "Radiation" []).
Qed.

Lemma generation_candidates_and_correlation_default_witness :
  (In "SystemProduction"
      (generation_cols
         (mk_df (RangeIndex 0)
                [("SystemProduction", NumCol []); ("Radiation", NumCol []);
                 ("Date", ObjCol [])]))
   <-> In "SystemProduction" ["SystemProduction"; "Radiation"; "Date"] /\
       exists kw, In kw generation_keywords /\
                  contains_ignore_case kw "SystemProduction")
  /\ correlation_col
       (mk_df (RangeIndex 0)
              [("Date", ObjCol []); ("Temperature", IntCol []);
               ("SystemProduction", NumCol [])])
     = Some "Temperature".
Proof.
  destruct generation_candidates_and_correlation_default
    as (_ & H2 & _ & _ & _ & _ & H7 & _).
  split.
  - exact (H2 (mk_df (RangeIndex 0)
                     [("SystemProduction", NumCol []); ("Radiation", NumCol []);
                      ("Date", ObjCol [])])
              "SystemProduction" eq_refl).
  - apply (H7 _ [("Date", ObjCol [])] "Temperature" (IntCol [])
              [("SystemProduction", NumCol [])]).
    + intros c' [E|[E|[E|[]]]]; discriminate E.
    + reflexivity.
    + constructor.
    + constructor; [|constructor]. intros H. inversion H.
Defined.

(** C9 as stated fails: the name with a dotless i contains none of the
    keywords up to case, yet its upper case is YIELD and its column is a
    candidate. *)
Lemma dotless_name_is_a_candidate :
  (forall kw, In kw generation_keywords ->
              ~ contains_ignore_case kw dotless_name) /\
  upper dotless_name = "YIELD" /\
  generation_cols (mk_df (RangeIndex 0) [(dotless_name, NumCol [])])
  = [dotless_name].
Proof.
  split; [|split; vm_compute; reflexivity].
  intros kw Hin H.
  assert (E : existsb (fun kw => contains kw (capitals dotless_name))
                      generation_keywords = true).
  { apply contains_ignore_case_capitals. now exists kw. }
  vm_compute in E. discriminate E.
Qed.

End ColumnSelection.

(* ================================================================== *)
(** * The hourly profile: proofs *)

Section HourlyProfile.

Import GroupBy.

Lemma keys_above_lookup k h (g : list (Z * list float64)) :
  keys_above k g -> h <= k -> lookup h g = None.
Proof.
  induction 1 as [|[k' vs] g Hk _ IH]; intros Hh; simpl in *; [reflexivity|].
  destruct (Z.eqb_spec k' h); [lia | now apply IH].
Qed.

Lemma keys_above_insert k0 k v g :
  keys_above k0 g -> k0 < k -> keys_above k0 (insert_group k v g).
Proof.
  induction 1 as [|[k' vs] g Hk Hg IH]; intros Hlt; simpl.
  - repeat constructor. exact Hlt.
  - destruct (k <? k'); [|destruct (k =? k')].
    + constructor; [exact Hlt|]. now constructor.
    + now constructor.
    + constructor; [exact Hk | now apply IH].
Qed.

Lemma ascending_insert k v g :
  ascending g -> ascending (insert_group k v g).
Proof.
  induction 1 as [|k' vs g Hk Hg IH]; simpl.
  - repeat constructor.
  - destruct (Z.ltb_spec k k'); [|destruct (Z.eqb_spec k k')].
    + constructor; [|now constructor].
      constructor; [exact H|].
      eapply Forall_impl; [|exact Hk]. simpl. intros; lia.
    + now constructor.
    + constructor; [|exact IH]. apply keys_above_insert; [exact Hk | lia].
Qed.

(** A row joins the group of its key, at the end, and leaves the other
    groups as they are. *)
Lemma lookup_insert_group h k v g :
  ascending g ->
  lookup h (insert_group k v g) =
  if k =? h then Some (match lookup h g with
                       | Some vs => vs ++ [v]
                       | None => [v]
                       end)
  else lookup h g.
Proof.
  induction 1 as [|k' vs g Hk Hg IH]; simpl.
  - destruct (k =? h); reflexivity.
  - destruct (Z.ltb_spec k k'); [|destruct (Z.eqb_spec k k')]; simpl.
    + destruct (Z.eqb_spec k h); [|reflexivity].
      destruct (Z.eqb_spec k' h); [lia|].
      rewrite (keys_above_lookup k' h g Hk) by lia. reflexivity.
    + subst k'. destruct (Z.eqb_spec k h); reflexivity.
    + destruct (Z.eqb_spec k' h).
      * destruct (Z.eqb_spec k h); [lia | reflexivity].
      * exact IH.
Qed.

Lemma lookup_fold_add_row h rows : forall g,
  ascending g ->
  ascending (fold_left add_row rows g) /\
  lookup h (fold_left add_row rows g) =
  match lookup h g, map snd (filter (row_at h) rows) with
  | None, [] => None
  | None, vs => Some vs
  | Some a, vs => Some (a ++ vs)
  end.
Proof.
  induction rows as [|[k v] rows IH]; intros g Hg; simpl.
  - split; [exact Hg|]. destruct (lookup h g); [now rewrite app_nil_r | reflexivity].
  - destruct k as [k|].
    + change (add_row g (Some k, v)) with (insert_group k v g).
      change (row_at h (Some k, v)) with (k =? h).
      destruct (IH _ (ascending_insert k v g Hg)) as [Ha Hl].
      split; [exact Ha|]. rewrite Hl, lookup_insert_group by exact Hg.
      destruct (k =? h); simpl.
      * destruct (lookup h g); [now rewrite <- app_assoc | reflexivity].
      * reflexivity.
    + exact (IH g Hg).
Qed.

Lemma lookup_groups h keys vals :
  lookup h (groups keys vals) =
  match values_at_hour h keys vals with
  | [] => None
  | vs => Some vs
  end.
Proof.
  unfold groups, values_at_hour.
  destruct (lookup_fold_add_row h (combine keys vals) [] asc_nil) as [_ H].
  exact H.
Qed.

Lemma lookup_map {A B} (f : A -> B) h (l : list (Z * A)) :
  lookup h (map (fun '(k, a) => (k, f a)) l) = option_map f (lookup h l).
Proof.
  induction l as [|[k a] l IH]; simpl; [reflexivity|].
  destruct (k =? h); [reflexivity | exact IH].
Qed.

(** The running sum and the count of [group_mean] and [group_sum] over
    the rows of a group are the compensated sum and the number of the
    values that are not missing. *)
Lemma kahan_step_missing (a : Kahan.Acc float64) x :
  Float64.is_nan x = true -> Kahan.step a x = a.
Proof. intros H. unfold Kahan.step. cbn [num_isna float64_numeric]. now rewrite H. Qed.

Lemma kahan_step_valid (a : Kahan.Acc float64) x r :
  Float64.is_nan x = false ->
  compensated (Kahan.sumx (Kahan.step a x))
              (Kahan.compensation (Kahan.step a x)) r
  = compensated (Kahan.sumx a) (Kahan.compensation a) (x :: r) /\
  Kahan.nobs (Kahan.step a x) = S (Kahan.nobs a).
Proof.
  intros H. unfold Kahan.step. cbn [num_isna float64_numeric]. rewrite H.
  split; reflexivity.
Qed.

Lemma kahan_fold vals : forall a : Kahan.Acc float64,
  Kahan.sumx (fold_left Kahan.step vals a)
  = compensated (Kahan.sumx a) (Kahan.compensation a) (valid_values vals) /\
  Kahan.nobs (fold_left Kahan.step vals a)
  = (Kahan.nobs a + length (valid_values vals))%nat.
Proof.
  unfold valid_values.
  induction vals as [|x vals IH]; intros a; cbn [fold_left filter].
  - split; [reflexivity | cbn [length]; lia].
  - destruct (Float64.is_nan x) eqn:E; cbn [negb].
    + rewrite (kahan_step_missing a x E). apply IH.
    + destruct (IH (Kahan.step a x)) as [H1 H2].
      destruct (kahan_step_valid a x
                  (filter (fun x => negb (Float64.is_nan x)) vals) E)
        as [H3 H4].
      rewrite H1, H2, H3, H4. split; [reflexivity | cbn [length]; lia].
Qed.

Lemma kahan_sum_float vals : Kahan.sum vals = float_sum (valid_values vals).
Proof. unfold Kahan.sum, Kahan.run. now rewrite (proj1 (kahan_fold vals _)). Qed.

Lemma kahan_mean_float vals :
  Kahan.mean vals =
  match valid_values vals with
  | [] => Float64.nan
  | xs => float_mean xs
  end.
Proof.
  unfold Kahan.mean, Kahan.run. cbv zeta.
  destruct (kahan_fold vals Kahan.start) as [H1 H2]. rewrite H1, H2.
  cbn [Kahan.nobs Kahan.start Nat.add].
  destruct (valid_values vals) as [|x xs]; reflexivity.
Qed.

Lemma group_mean_lookup h keys vals :
  lookup h (group_mean keys vals) =
  match values_at_hour h keys vals with
  | [] => None
  | vs => Some (match valid_values vs with
                | [] => Float64.nan
                | xs => float_mean xs
                end)
  end.
Proof.
  unfold group_mean. rewrite lookup_map, lookup_groups.
  destruct (values_at_hour h keys vals) as [|v vs]; [reflexivity|].
  simpl option_map. now rewrite kahan_mean_float.
Qed.

Lemma group_mean_keys_ascending keys vals :
  ascending (groups keys vals).
Proof.
  unfold groups.
  exact (proj1 (lookup_fold_add_row 0 (combine keys vals) [] asc_nil)).
Qed.

(** C8 (as the code has it).  In the hourly profile of a table, the entry
    of an hour [h] is the mean in [float64] of the selected column over the
    rows whose HOUR is [h]: the compensated sum, in row order, of the
    values that are not missing, divided by their number, and [NaN] when
    every value of the hour is missing.  An hour that no row has is absent
    from the profile. *)
Theorem hourly_profile_is_mean_per_hour :
  forall df col profile h,
    hourly_avg df col = Ok profile ->
    lookup h profile =
    match values_at_hour h (hour_column df) (column_values df col) with
    | [] => None
    | vs => Some (match valid_values vs with
                  | [] => Float64.nan
                  | xs => float_mean xs
                  end)
    end.
Proof.
  intros df col profile h. unfold hourly_avg, hour_column, column_values.
  destruct (getitem df "HOUR") as [[[ | keys | | | ]|]|]; simpl; try discriminate;
    destruct (getitem df col) as [[c|]|]; simpl; try discriminate.
  destruct (numeric_values c) as [v|]; [|discriminate].
  intros H. injection H as <-. apply group_mean_lookup.
Qed.

Lemma hourly_profile_is_mean_per_hour_witness :
  exists profile,
    hourly_avg profile_example "SystemProduction" = Ok profile /\
    lookup 10 profile = Some (float_mean [Float64.of_Z 3; Float64.of_Z 4]) /\
    float_mean [Float64.of_Z 3; Float64.of_Z 4]
      = S754_finite false 7881299347898368 (-51) /\
    lookup 11 profile = Some Float64.nan /\
    lookup 12 profile = None.
Proof.
  eexists. split; [reflexivity|]. split; [|split; [|split]].
  - exact (hourly_profile_is_mean_per_hour profile_example "SystemProduction"
             _ 10 eq_refl).
  - vm_compute. reflexivity.
  - exact (hourly_profile_is_mean_per_hour profile_example "SystemProduction"
             _ 11 eq_refl).
  - exact (hourly_profile_is_mean_per_hour profile_example "SystemProduction"
             _ 12 eq_refl).
Defined.

(** C8 as stated fails: the three readings of that hour are the same
    number, 0.1, which is then their arithmetic mean; the entry of the
    profile is the next number of [float64] above it. *)
Lemma mean_of_three_tenths_is_rounded :
  hourly_avg tenths_example "SystemProduction"
    = Ok [(10, S754_finite false 7205759403792795 (-56))] /\
  values_at_hour 10 (hour_column tenths_example)
                 (column_values tenths_example "SystemProduction")
    = [tenth; tenth; tenth] /\
  (arithmetic_mean [Float64.to_Q tenth; Float64.to_Q tenth; Float64.to_Q tenth]
   == Float64.to_Q tenth)%Q /\
  ~ (Float64.to_Q (S754_finite false 7205759403792795 (-56))
     == arithmetic_mean
          [Float64.to_Q tenth; Float64.to_Q tenth; Float64.to_Q tenth])%Q.
Proof.
  split; [vm_compute; reflexivity|]. split; [vm_compute; reflexivity|].
  split; [vm_compute; reflexivity|].
  intros H. vm_compute in H. discriminate H.
Qed.

End HourlyProfile.

(* ================================================================== *)
(** * The loader: proofs *)

Section Loader.

Local Open Scope string_scope.

Lemma filter_named_setitem_same name c cols n0 c0 :
  filter (named name) cols = [(n0, c0)] ->
  filter (named name) (setitem_cols name c cols) = [(n0, c)].
Proof.
  induction cols as [|[n c'] cols IH]; simpl; [discriminate|].
  unfold named at 1; simpl fst.
  destruct (String.eqb_spec n name) as [->|Hne]; simpl.
  - unfold named at 2; simpl fst. rewrite String.eqb_refl.
    intros H. injection H as -> _ H. now rewrite H.
  - unfold named at 2; simpl fst.
    destruct (String.eqb_spec n name); [contradiction|]. exact IH.
Qed.

Lemma filter_named_setitem_other name name' c cols :
  name' <> name ->
  filter (named name) (setitem_cols name' c cols) = filter (named name) cols.
Proof.
  intros Hne. induction cols as [|[n c'] cols IH]; simpl.
  - unfold named; simpl. now destruct (String.eqb_spec name' name).
  - destruct (String.eqb_spec n name') as [->|Hn]; simpl.
    + unfold named; simpl. now destruct (String.eqb_spec name' name).
    + now rewrite IH.
Qed.

Lemma getitem_filter df name :
  getitem df name =
  match filter (named name) (columns df) with
  | [] => Raise KeyError
  | [nc] => Ok (SelSeries (snd nc))
  | ncs => Ok (SelFrame (map snd ncs))
  end.
Proof. reflexivity. Qed.

Lemma getitem_series_inv df name c :
  getitem df name = Ok (SelSeries c) ->
  exists n, filter (named name) (columns df) = [(n, c)].
Proof.
  rewrite getitem_filter.
  destruct (filter (named name) (columns df)) as [|[n c0] [|? ?]];
    try discriminate.
  intros H. injection H as <-. now exists n.
Qed.

(** The table the loader returns once the timestamp column was found. *)
Lemma load_try_series raw c :
  getitem (rename "Date-Hour(NMT)" "DATE_TIME" raw) "DATE_TIME"
    = Ok (SelSeries c) ->
  exists cols,
    load_try (Csv raw) = Ok (mk_df (DatetimeIndex (to_datetime_column c)) cols).
Proof.
  intros H. unfold load_try. simpl read_csv. cbn [bindE].
  rewrite H. cbn [bindE pd_to_datetime].
  destruct (getitem_series_inv _ _ _ H) as [n Hf].
  set (df0 := rename "Date-Hour(NMT)" "DATE_TIME" raw) in *.
  set (stamps := to_datetime_column c).
  unfold set_index. rewrite getitem_filter. unfold setitem; simpl columns.
  rewrite !filter_named_setitem_other by discriminate.
  rewrite (filter_named_setitem_same _ _ _ _ _ Hf).
  simpl snd. eexists. reflexivity.
Qed.

Lemma count_NaT_labels idx cols :
  count_NaT (mk_df (DatetimeIndex idx) cols) = length (filter is_NaT idx).
Proof. reflexivity. Qed.

Lemma filter_map_comm {A B} (f : A -> B) (p : B -> bool) (l : list A) :
  filter p (map f l) = map f (filter (fun a => p (f a)) l).
Proof.
  induction l as [|a l IH]; simpl; [reflexivity|].
  destruct (p (f a)); simpl; now rewrite IH.
Qed.

(** C3 (as the code has it).  When the timestamp column is a text column,
    the loaded table has one row per row of the file, in file order, each
    labelled with its parsed timestamp or, when its text does not parse,
    with [NaT]: unparseable rows are kept, not excluded.  The loader emits
    no diagnostic for them; their number is the number of [NaT] labels of
    the table it returns. *)
Theorem unparseable_rows_are_kept_under_NaT :
  forall raw cells,
    getitem (rename "Date-Hour(NMT)" "DATE_TIME" raw) "DATE_TIME"
      = Ok (SelSeries (ObjCol cells)) ->
    exists df,
      load_and_process_data (Csv raw) = (df, []) /\
      index df = DatetimeIndex (map parse_cell cells) /\
      count_NaT df =
        length (filter (fun cell => is_NaT (parse_cell cell)) cells).
Proof.
  intros raw cells H.
  destruct (load_try_series raw _ H) as [cols Hl].
  exists (mk_df (DatetimeIndex (to_datetime_column (ObjCol cells))) cols).
  unfold load_and_process_data. rewrite Hl. split; [reflexivity|].
  split; [reflexivity|].
  rewrite count_NaT_labels. simpl to_datetime_column.
  change (fun cell => match cell with
                      | Some s => Strptime.to_datetime s
                      | None => None
                      end) with parse_cell.
  now rewrite filter_map_comm, length_map.
Qed.

Lemma unparseable_rows_are_kept_under_NaT_witness :
  exists df,
    load_and_process_data (Csv raw_example) = (df, []) /\
    index df = DatetimeIndex [Some 26297880; None] /\
    count_NaT df = 1%nat.
Proof.
  exact (unparseable_rows_are_kept_under_NaT raw_example
           [Some "01.01.2020-10:00"; Some "31.02.2020-10:00"] eq_refl).
Defined.

(** C3 as stated fails: the row whose timestamp does not parse is in the
    loaded table. *)
Lemma unparseable_rows_not_excluded :
  ~ (forall src df diags,
        load_and_process_data src = (df, diags) ->
        Forall (fun label => is_NaT label = false) (index_labels df)).
Proof.
  intros H.
  specialize (H (Csv raw_example) _ _ eq_refl).
  vm_compute in H. inversion H as [|? ? _ H']. inversion H' as [|? ? E _].
  discriminate.
Qed.

Lemma rename_absent old new raw :
  ~ In old (column_names raw) ->
  columns (rename old new raw) = columns raw.
Proof.
  unfold rename, column_names. simpl columns.
  induction (columns raw) as [|[n c] cols IH]; simpl; [reflexivity|].
  intros H. destruct (String.eqb_spec n old) as [->|Hn]; [tauto|].
  f_equal. apply IH. tauto.
Qed.

Lemma filter_named_unique cols name c :
  NoDup (map fst cols) -> In (name, c) cols ->
  filter (named name) cols = [(name, c)].
Proof.
  induction cols as [|[n c'] cols IH]; simpl; [tauto|].
  intros Hnd Hin. apply NoDup_cons_iff in Hnd as [Hn Hnd].
  unfold named at 1; simpl fst.
  destruct Hin as [E|Hin].
  - injection E as -> ->. rewrite String.eqb_refl. f_equal.
    assert (Hf : forall l, ~ In name (map fst l) -> filter (named name) l = []).
    { induction l as [|[n' c''] l IHl]; simpl; [reflexivity|].
      intros H. unfold named at 1; simpl fst.
      destruct (String.eqb_spec n' name); [tauto|]. apply IHl. tauto. }
    now apply Hf.
  - destruct (String.eqb_spec n name) as [->|Hne].
    + exfalso. apply Hn. apply in_map_iff. now exists (name, c).
    + now apply IH.
Qed.

(** C7 (as the code has it).  A file whose header has neither the expected
    name [Date-Hour(NMT)] nor the canonical name [DATE_TIME] is answered
    with the missing-column message and the empty table.  A file whose
    header, of distinct names, lacks [Date-Hour(NMT)] but has [DATE_TIME]
    is loaded: no message is emitted and the table returned is indexed by
    the timestamps read from that column. *)
Theorem missing_timestamp_header_is_reported :
  (forall raw,
      ~ In "Date-Hour(NMT)" (column_names raw) ->
      ~ In "DATE_TIME" (column_names raw) ->
      load_and_process_data (Csv raw) = (pd_DataFrame, [MissingColumnMessage]))
  /\ (forall raw c,
      ~ In "Date-Hour(NMT)" (column_names raw) ->
      NoDup (column_names raw) ->
      In ("DATE_TIME", c) (columns raw) ->
      exists table,
        load_and_process_data (Csv raw) = (table, []) /\
        index table = DatetimeIndex (to_datetime_column c)).
Proof.
  split.
  - intros raw H1 H2.
    assert (Hf : filter (named "DATE_TIME")
                   (columns (rename "Date-Hour(NMT)" "DATE_TIME" raw)) = []).
    { unfold rename, column_names in *. simpl columns.
      induction (columns raw) as [|[n c] cols IH]; simpl; [reflexivity|].
      simpl in H1, H2. unfold named at 1; simpl fst.
      destruct (String.eqb_spec n "Date-Hour(NMT)") as [->|Hn]; [tauto|].
      destruct (String.eqb_spec n "DATE_TIME") as [->|Hd]; [tauto|].
      apply IH; tauto. }
    unfold load_and_process_data, load_try. simpl read_csv. cbn [bindE].
    rewrite getitem_filter, Hf. reflexivity.
  - intros raw c H1 Hnd Hin.
    assert (Hg : getitem (rename "Date-Hour(NMT)" "DATE_TIME" raw) "DATE_TIME"
                 = Ok (SelSeries c)).
    { rewrite getitem_filter, (rename_absent _ _ _ H1).
      now rewrite (filter_named_unique _ _ _ Hnd Hin). }
    destruct (load_try_series raw c Hg) as [cols Hl].
    exists (mk_df (DatetimeIndex (to_datetime_column c)) cols).
    unfold load_and_process_data. rewrite Hl. split; reflexivity.
Qed.

Lemma missing_timestamp_header_is_reported_witness :
  load_and_process_data (Csv raw_other_header)
    = (pd_DataFrame, [MissingColumnMessage]) /\
  exists table,
    load_and_process_data (Csv raw_canonical_header) = (table, []) /\
    index table = DatetimeIndex [Some 26297880].
Proof.
  split.
  - apply (proj1 missing_timestamp_header_is_reported); simpl;
      intros [H|[H|[]]]; discriminate.
  - apply (proj2 missing_timestamp_header_is_reported raw_canonical_header
             (ObjCol [Some "01.01.2020-10:00"])).
    + simpl. intros [H|[H|[]]]; discriminate.
    + simpl. repeat constructor; simpl; intuition discriminate.
    + now left.
Defined.

(** C7 as stated fails: a header that lacks [Date-Hour(NMT)] but carries
    [DATE_TIME] loads, without any message, into a table that is not
    empty. *)
Lemma canonical_header_loads :
  ~ In "Date-Hour(NMT)" (column_names raw_canonical_header) /\
  load_and_process_data (Csv raw_canonical_header)
    <> (pd_DataFrame, [MissingColumnMessage]) /\
  snd (load_and_process_data (Csv raw_canonical_header)) = [] /\
  df_empty (fst (load_and_process_data (Csv raw_canonical_header))) = false.
Proof.
  split; [|split; [|split]].
  - simpl. intros [H|[H|[]]]; discriminate.
  - vm_compute. discriminate.
  - reflexivity.
  - reflexivity.
Qed.

End Loader.

(* ================================================================== *)
(** * The date filter: proofs *)

Section DateFilter.

Import Loc.

(** An increasing index has no [NaT] and its timestamps are sorted. *)
Lemma monotonic_from_sorted prev labels :
  monotonic_from Z.leb prev labels = true ->
  exists ts, labels = map Some ts /\ StronglySorted Z.le (prev :: ts).
Proof.
  revert prev; induction labels as [|[t|] labels IH]; intros prev H; simpl in H.
  - exists []. split; [reflexivity|]. repeat constructor.
  - apply andb_true_iff in H as [Hle H]. apply Z.leb_le in Hle.
    destruct (IH _ H) as (ts & -> & Hs). exists (t :: ts).
    split; [reflexivity|].
    constructor; [exact Hs|].
    constructor; [exact Hle|].
    apply StronglySorted_inv in Hs as [_ Hall].
    eapply Forall_impl; [|exact Hall]. simpl. intros; lia.
  - discriminate.
Qed.

Lemma monotonic_increasing_sorted labels :
  is_monotonic_increasing labels = true ->
  exists ts, labels = map Some ts /\ StronglySorted Z.le ts.
Proof.
  destruct labels as [|[t|] labels]; simpl; intros H.
  - exists []. split; [reflexivity | constructor].
  - destruct (monotonic_from_sorted _ _ H) as (ts & -> & Hs).
    now exists (t :: ts).
  - discriminate.
Qed.

Lemma filter_none {A} (p : A -> bool) (l : list A) :
  Forall (fun x => p x = false) l -> filter p l = [].
Proof.
  induction 1 as [|x l Hx _ IH]; simpl; [reflexivity|]. now rewrite Hx.
Qed.

Lemma filter_all {A} (p : A -> bool) (l : list A) :
  Forall (fun x => p x = true) l -> filter p l = l.
Proof.
  induction 1 as [|x l Hx _ IH]; simpl; [reflexivity|]. now rewrite Hx, IH.
Qed.

Lemma positions_from_none i key labels :
  Forall (fun l => label_is key l = false) labels ->
  positions_from i key labels = [].
Proof.
  intros H; revert i; induction H as [|x l Hx _ IH]; intros i; simpl;
    [reflexivity|]. now rewrite Hx.
Qed.

(** On sorted timestamps the occurrences of a label are the positions from
    the number of smaller labels up to the number of labels not greater. *)
Lemma positions_from_sorted key ts : forall i,
  StronglySorted Z.le ts ->
  positions_from i key (map Some ts) =
  seq (i + length (filter (label_lt key) (map Some ts)))
      (length (filter (label_is key) (map Some ts))) /\
  length (filter (label_le key) (map Some ts)) =
  (length (filter (label_lt key) (map Some ts)) +
   length (filter (label_is key) (map Some ts)))%nat.
Proof.
  induction ts as [|t ts IH]; intros i Hs; simpl.
  - split; reflexivity.
  - apply StronglySorted_inv in Hs as [Hs Hall].
    destruct (IH (S i) Hs) as [IH1 IH2].
    destruct (Z.ltb_spec t key) as [Hlt|Hge]; simpl.
    + destruct (Z.eqb_spec t key); [lia|].
      destruct (Z.leb_spec t key); [|lia]. simpl.
      rewrite IH1, IH2. split; [f_equal; lia | lia].
    + assert (Hno : filter (label_lt key) (map Some ts) = []).
      { apply filter_none. apply Forall_map.
        eapply Forall_impl; [|exact Hall]. simpl. intros a Ha.
        apply Z.ltb_ge. lia. }
      rewrite Hno in *. simpl in *.
      destruct (Z.eqb_spec t key) as [->|Hne].
      * rewrite Z.leb_refl. simpl. rewrite IH1, IH2.
        split; [f_equal; f_equal; lia | lia].
      * destruct (Z.leb_spec t key); [lia|].
        assert (Hnone : Forall (fun l => label_is key l = false) (map Some ts)).
        { apply Forall_map. eapply Forall_impl; [|exact Hall]. simpl.
          intros a Ha. apply Z.eqb_neq. lia. }
        rewrite (positions_from_none _ _ _ Hnone) in *.
        rewrite (filter_none _ _ Hnone) in *. simpl in *.
        split; [reflexivity | exact IH2].
Qed.

Lemma last_seq a n d : last (seq a (S n)) d = (a + n)%nat.
Proof.
  revert a; induction n as [|n IH]; intros a.
  - simpl. lia.
  - change (seq a (S (S n))) with (a :: seq (S a) (S n)).
    change (last (a :: seq (S a) (S n)) d) with (last (seq (S a) (S n)) d).
    rewrite IH. lia.
Qed.

(** On an increasing index the bounds of a slice are the insertion points
    of its two labels. *)
Lemma get_slice_bound_monotonic labels key side :
  is_monotonic_increasing labels = true ->
  get_slice_bound labels key side = Ok (searchsorted labels key side).
Proof.
  intros Hm. destruct (monotonic_increasing_sorted _ Hm) as (ts & -> & Hs).
  destruct (positions_from_sorted key ts 0 Hs) as [Hp Hle].
  unfold get_slice_bound, get_loc, searchsorted_monotonic. rewrite Hp, Hm.
  simpl plus.
  set (lt := length (filter (label_lt key) (map Some ts))) in *.
  set (eq := length (filter (label_is key) (map Some ts))) in *.
  unfold searchsorted. fold lt. rewrite Hle. fold eq.
  destruct eq as [|[|n]].
  - simpl. destruct side; f_equal; lia.
  - simpl. destruct side; f_equal; lia.
  - change (seq lt (S (S n))) with (lt :: seq (S lt) (S n)).
    cbv iota beta. rewrite last_seq.
    change (seq (S lt) (S n)) with (S lt :: seq (S (S lt)) n). cbv iota beta.
    destruct side; f_equal; lia.
Qed.

(** The rows of a sorted index between the two insertion points are the
    rows whose label lies between the two bounds. *)
Lemma slice_sorted_between a b ts :
  StronglySorted Z.le ts -> a <= b ->
  slice (length (filter (label_lt a) (map Some ts)))
        (length (filter (label_le b) (map Some ts)))
        (map Some ts)
  = filter (label_between a b) (map Some ts).
Proof.
  intros Hs Hab. unfold slice.
  induction Hs as [|t ts Hs IH Hall]; simpl; [reflexivity|].
  destruct (Z.ltb_spec t a) as [Hlt|Hge]; simpl.
  - destruct (Z.leb_spec t b); [|lia]. destruct (Z.leb_spec a t); [lia|].
    simpl. exact IH.
  - assert (Hno : filter (label_lt a) (map Some ts) = []).
    { apply filter_none. apply Forall_map.
      eapply Forall_impl; [|exact Hall]. simpl. intros x Hx.
      apply Z.ltb_ge. lia. }
    rewrite Hno in IH. simpl in IH. rewrite Nat.sub_0_r in IH.
    rewrite Hno. simpl. destruct (Z.leb_spec a t); [|lia].
    destruct (Z.leb_spec t b) as [Hle|Hgt]; simpl.
    + now rewrite IH.
    + rewrite (filter_none (label_le b)), (filter_none (label_between a b));
        [reflexivity | |]; apply Forall_map;
        (eapply Forall_impl; [|exact Hall]); simpl; intros x Hx.
      * apply andb_false_iff. right. apply Z.leb_gt. lia.
      * apply Z.leb_gt. lia.
Qed.

(** What the filter computes on a table in chronological order: the rows
    from midnight of the first date to midnight of the second date, the
    rest of the second day being left out. *)
Lemma df_filtered_monotonic df d0 d1 :
  is_monotonic_increasing (index_labels df) = true -> d0 <= d1 ->
  exists out,
    df_filtered df [d0; d1] = Ok out /\
    (forall labels, index df = DatetimeIndex labels ->
       index out =
       DatetimeIndex (filter (label_between (midnight d0) (midnight d1)) labels)).
Proof.
  intros Hm Hd. unfold df_filtered, loc, slice_locs.
  rewrite !get_slice_bound_monotonic by exact Hm. cbn [bindE].
  eexists. split; [reflexivity|].
  intros labels Hi. unfold slice_frame. simpl index. rewrite Hi. f_equal.
  unfold index_labels in Hm. rewrite Hi in Hm.
  destruct (monotonic_increasing_sorted _ Hm) as (ts & -> & Hs).
  unfold index_labels, searchsorted. rewrite Hi.
  apply slice_sorted_between; [exact Hs|]. unfold midnight, minutes_per_day. lia.
Qed.

(** C2 fails on the code.  The table has two readings on 2020-01-01, at
    00:00 and at 12:00; the filter from that date to the same date keeps
    the reading of 00:00 only, although both lie on the selected day. *)
Theorem range_filter_stops_at_midnight_of_end_date :
  let df := fst (load_and_process_data (Csv raw_sorted)) in
  index_labels df = [Some 26297280; Some 26298000; Some 26299200] /\
  filter (label_on_days 18262 18262) (index_labels df)
    = [Some 26297280; Some 26298000] /\
  exists out,
    df_filtered df [18262; 18262] = Ok out /\
    index_labels out = [Some 26297280] /\
    getitem out "SystemProduction" = Ok (SelSeries (NumCol [Float64.of_Z 0])).
Proof.
  split; [reflexivity|]. split; [reflexivity|].
  eexists. split; [reflexivity|]. split; reflexivity.
Qed.


(** C10.  There is a loaded table whose rows are not in chronological order
    and two dates, with rows of the table on the days between them, for
    which the label slice of the date filter raises [KeyError]. *)
Theorem range_filter_raises_on_unordered_index :
  exists raw d0 d1,
    let df := fst (load_and_process_data (Csv raw)) in
    snd (load_and_process_data (Csv raw)) = [] /\
    Forall (fun l => is_NaT l = false) (index_labels df) /\
    is_monotonic_increasing (index_labels df) = false /\
    d0 <= d1 /\
    filter (label_on_days d0 d1) (index_labels df) <> [] /\
    df_filtered df [d0; d1] = Raise KeyError.
Proof.
  exists raw_unsorted, 18262, 18264. cbv zeta.
  split; [reflexivity|]. split; [repeat constructor|].
  split; [reflexivity|]. split; [lia|].
  split; [vm_compute; discriminate | reflexivity].
Qed.

End DateFilter.

(* ================================================================== *)
(** * The calendar: proofs *)

Section CalendarFacts.

Import Calendar.

Lemma forall_range_spec n p : forall z,
  forall_range n z p = true ->
  forall k, z <= k < z + Z.of_nat n -> p k = true.
Proof.
  induction n as [|n IH]; intros z H k Hk.
  - simpl in Hk. lia.
  - simpl in H. apply andb_true_iff in H as [Hz H].
    destruct (Z.eq_dec k z) as [->|Hne]; [exact Hz|].
    apply (IH (z + 1) H). lia.
Qed.

Lemma forall_range_Z n z p k :
  forall_range (Z.to_nat n) z p = true -> z <= k < z + n -> p k = true.
Proof.
  intros H Hk. apply (forall_range_spec _ _ _ H). rewrite Z2Nat.id; lia.
Qed.

(** The era of 400 years, 146097 days, that starts on 0000-03-01, checked
    day by day. *)
Lemma check_era_days_ok :
  forall_range (Z.to_nat 146097) (-719468) check_day = true.
Proof. vm_cast_no_check (eq_refl true). Qed.

(** The 400 years from year 0, checked date by date. *)
Lemma check_era_dates_ok :
  forall_range (Z.to_nat 400) 0 (fun y =>
    forall_range (Z.to_nat 12) 1 (fun m =>
      check_month_start y m &&
      forall_range (Z.to_nat 31) 1 (fun d => check_date y m d))) = true.
Proof. vm_cast_no_check (eq_refl true). Qed.

(** The calendar repeats every 400 years, which are 146097 days. *)
Lemma is_leap_period y e : is_leap (y + 400 * e) = is_leap y.
Proof.
  unfold is_leap.
  replace (y + 400 * e) with (y + (100 * e) * 4) at 1 by lia.
  replace (y + 400 * e) with (y + (4 * e) * 100) at 1 by lia.
  replace (y + 400 * e) with (y + e * 400) by lia.
  now rewrite !Z.mod_add by lia.
Qed.

Lemma days_in_month_period y m e :
  days_in_month (y + 400 * e) m = days_in_month y m.
Proof. unfold days_in_month. now rewrite is_leap_period. Qed.

Lemma valid_date_period y m d e :
  valid_date (y + 400 * e) m d = valid_date y m d.
Proof. unfold valid_date. now rewrite days_in_month_period. Qed.

Lemma days_from_civil_period y m d e :
  days_from_civil (y + 400 * e) m d = days_from_civil y m d + 146097 * e.
Proof.
  unfold days_from_civil. cbv zeta.
  destruct (m <=? 2).
  - replace (y + 400 * e - 1) with (y - 1 + e * 400) by lia.
    rewrite Z.div_add by lia.
    replace (y - 1 + e * 400 - ((y - 1) / 400 + e) * 400)
      with (y - 1 - (y - 1) / 400 * 400) by lia.
    lia.
  - replace (y + 400 * e) with (y + e * 400) by lia.
    rewrite Z.div_add by lia.
    replace (y + e * 400 - (y / 400 + e) * 400) with (y - y / 400 * 400) by lia.
    lia.
Qed.

Lemma civil_from_days_period z e :
  civil_from_days (z + 146097 * e) =
  let '(y, m, d) := civil_from_days z in (y + 400 * e, m, d).
Proof.
  unfold civil_from_days. cbv zeta.
  replace (z + 146097 * e + 719468) with (z + 719468 + e * 146097) by lia.
  rewrite Z.div_add by lia.
  replace (z + 719468 + e * 146097 - ((z + 719468) / 146097 + e) * 146097)
    with (z + 719468 - (z + 719468) / 146097 * 146097) by lia.
  set (doe := z + 719468 - (z + 719468) / 146097 * 146097).
  set (yoe := (doe - doe / 1460 + doe / 36524 - doe / 146096) / 365).
  set (doy := doe - (365 * yoe + yoe / 4 - yoe / 100)).
  set (mp := (5 * doy + 2) / 153).
  destruct ((if mp <? 10 then mp + 3 else mp - 9) <=? 2); f_equal; f_equal; lia.
Qed.

(** Every day number is the day number of its date, which exists. *)
Lemma civil_from_days_valid z :
  let '(y, m, d) := civil_from_days z in
  valid_date y m d = true /\ days_from_civil y m d = z.
Proof.
  set (e := (z + 719468) / 146097).
  set (z0 := z - 146097 * e).
  assert (Hz0 : -719468 <= z0 < -719468 + 146097).
  { unfold z0, e. pose proof (Z.div_mod (z + 719468) 146097 ltac:(lia)).
    pose proof (Z.mod_pos_bound (z + 719468) 146097 ltac:(lia)). lia. }
  pose proof (forall_range_Z _ _ _ z0 check_era_days_ok ltac:(lia)) as Hc.
  replace z with (z0 + 146097 * e) by (unfold z0; lia).
  rewrite civil_from_days_period. unfold check_day in Hc.
  destruct (civil_from_days z0) as [[y m] d].
  apply andb_true_iff in Hc as [Hv Hd]. apply Z.eqb_eq in Hd.
  rewrite valid_date_period, days_from_civil_period. split; [exact Hv | lia].
Qed.

Lemma valid_date_bounds y m d :
  valid_date y m d = true -> 1 <= m <= 12 /\ 1 <= d <= 31 /\ d <= days_in_month y m.
Proof.
  unfold valid_date. rewrite !andb_true_iff, !Z.leb_le.
  intros [[[H1 H2] H3] H4]. repeat split; try assumption.
  unfold days_in_month in H4.
  destruct (m =? 2); [destruct (is_leap y); lia|].
  destruct ((m =? 4) || (m =? 6) || (m =? 9) || (m =? 11)); lia.
Qed.

Lemma era_dates y m :
  0 <= y < 400 -> 1 <= m <= 12 ->
  check_month_start y m = true /\
  forall d, 1 <= d <= 31 -> check_date y m d = true.
Proof.
  intros Hy Hm.
  pose proof (forall_range_Z _ _ _ y check_era_dates_ok ltac:(lia)) as H.
  cbv beta in H.
  pose proof (forall_range_Z _ _ _ m H ltac:(lia)) as H'.
  cbv beta in H'.
  apply andb_true_iff in H' as [H1 H2]. split; [exact H1|].
  intros d Hd. apply (forall_range_Z _ _ _ d H2). lia.
Qed.

(** A date that exists is the date of its day number. *)
Lemma days_from_civil_inv y m d :
  valid_date y m d = true ->
  civil_from_days (days_from_civil y m d) = (y, m, d).
Proof.
  intros Hv. destruct (valid_date_bounds _ _ _ Hv) as (Hm & Hd & _).
  set (e := y / 400). set (y0 := y mod 400).
  assert (Hy : y = y0 + 400 * e)
    by (unfold y0, e; pose proof (Z.div_mod y 400 ltac:(lia)); lia).
  assert (Hy0 : 0 <= y0 < 400) by (apply Z.mod_pos_bound; lia).
  rewrite Hy in Hv |- *. rewrite valid_date_period in Hv.
  rewrite days_from_civil_period, civil_from_days_period.
  destruct (era_dates y0 m Hy0 Hm) as [_ Hc]. specialize (Hc d Hd).
  unfold check_date in Hc. rewrite Hv in Hc. cbn [negb orb] in Hc.
  destruct (civil_from_days (days_from_civil y0 m d)) as [[y' m'] d'].
  unfold triple_eqb in Hc. rewrite !andb_true_iff, !Z.eqb_eq in Hc.
  destruct Hc as [[-> ->] ->]. reflexivity.
Qed.

(** The day number is affine in the day of the month. *)
Lemma days_from_civil_day y m d d' :
  days_from_civil y m d' = days_from_civil y m d + (d' - d).
Proof. unfold days_from_civil. cbv zeta. lia. Qed.

(** The month after [(y, m)] and the month before. *)
Lemma month_start_after_month_end y m :
  1 <= m <= 12 ->
  let '(py, pm) := if m =? 1 then (y - 1, 12) else (y, m - 1) in
  days_from_civil y m 1 = days_from_civil py pm (days_in_month py pm) + 1.
Proof.
  intros Hm.
  set (e := y / 400). set (y0 := y mod 400).
  assert (Hy : y = y0 + 400 * e)
    by (unfold y0, e; pose proof (Z.div_mod y 400 ltac:(lia)); lia).
  assert (Hy0 : 0 <= y0 < 400) by (apply Z.mod_pos_bound; lia).
  destruct (era_dates y0 m Hy0 Hm) as [Hc _]. unfold check_month_start in Hc.
  destruct (m =? 1).
  - apply Z.eqb_eq in Hc. rewrite Hy.
    replace (y0 + 400 * e - 1) with (y0 - 1 + 400 * e) by lia.
    rewrite !days_from_civil_period, days_in_month_period. lia.
  - apply Z.eqb_eq in Hc. rewrite Hy.
    rewrite !days_from_civil_period, days_in_month_period. lia.
Qed.

End CalendarFacts.

(* ================================================================== *)
(** * Timestamp normalization: proofs *)

Section TimestampNormalization.

Import Strptime.

(** Case analysis on an integer between two numerals. *)
Ltac enumerate n :=
  destruct n as [|n|n]; try lia;
  repeat (try (exfalso; lia); destruct n as [n|n|]);
  try (exfalso; lia).

(** ** Decimal digits *)

Lemma decimal_ascii b : 0 <= b <= 9 -> Unicode.decimal (48 + b) = Some b.
Proof. intros H. enumerate b; reflexivity. Qed.

Lemma decimal_zeros_above :
  forallb (fun z => 48 <=? z) Unicode.decimal_zeros = true.
Proof. vm_compute. reflexivity. Qed.

Lemma decimal_bounds c b :
  Unicode.decimal c = Some b -> 0 <= b <= 9 /\ 48 <= c.
Proof.
  unfold Unicode.decimal.
  destruct (find _ Unicode.decimal_zeros) as [z|] eqn:E; [|discriminate].
  intros H. injection H as <-.
  apply find_some in E as [Hin Hz].
  apply andb_true_iff in Hz as [H1 H2]. apply Z.leb_le in H1, H2.
  pose proof decimal_zeros_above as Ha.
  rewrite forallb_forall in Ha. specialize (Ha z Hin).
  apply Z.leb_le in Ha. lia.
Qed.

(** A decimal digit is a digit of ASCII or lies above the colon. *)
Lemma decimal_cases c b :
  Unicode.decimal c = Some b ->
  0 <= b <= 9 /\ (c = 48 + b \/ 58 < c).
Proof.
  intros H. destruct (decimal_bounds c b H) as [Hb Hc].
  split; [exact Hb|].
  destruct (Z.le_gt_cases c 58) as [Hle|Hgt]; [left | right; lia].
  assert (Hr : 48 <= c <= 58) by lia.
  clear Hc Hle. enumerate c; try (vm_compute in H; injection H as <-; reflexivity).
  vm_compute in H. discriminate H.
Qed.

(** ** The steps of the matchers *)

Lemma cls_ascii lo hi v r :
  lo <= v <= hi -> cls lo hi ((48 + v) :: r) = [(v, r)].
Proof.
  intros H. unfold cls. cbv zeta.
  replace (48 + v - 48) with v by lia.
  replace ((lo <=? v) && (v <=? hi)) with true; [reflexivity|].
  symmetry. apply andb_true_iff. split; apply Z.leb_le; lia.
Qed.

Lemma cls_out lo hi c r :
  ~ (lo <= c - 48 <= hi) -> cls lo hi (c :: r) = [].
Proof.
  intros H. unfold cls. cbv zeta.
  destruct ((lo <=? c - 48) && (c - 48 <=? hi)) eqn:E; [|reflexivity].
  apply andb_true_iff in E as [H1 H2]. apply Z.leb_le in H1, H2. lia.
Qed.

Lemma cls_nil lo hi : cls lo hi [] = [].
Proof. reflexivity. Qed.

Lemma any_digit_eq c b r :
  Unicode.decimal c = Some b -> any_digit (c :: r) = [(b, r)].
Proof. intros H. unfold any_digit. now rewrite H. Qed.

Lemma any_digit_none c r :
  Unicode.decimal c = None -> any_digit (c :: r) = [].
Proof. intros H. unfold any_digit. now rewrite H. Qed.

Lemma lit_eq c r : lit c (c :: r) = [(tt, r)].
Proof. unfold lit. now rewrite Z.eqb_refl. Qed.

Lemma lit_ne c x r : x <> c -> lit c (x :: r) = [].
Proof.
  intros H. unfold lit. destruct (Z.eqb_spec x c); [contradiction|reflexivity].
Qed.

Lemma seq_nil {A B} (m : Matcher A) (k : A -> Matcher B) s :
  m s = [] -> seq m k s = [].
Proof. unfold seq. now intros ->. Qed.

Lemma seq_single {A B} (m : Matcher A) (k : A -> Matcher B) s a r :
  m s = [(a, r)] -> seq m k s = k a r.
Proof. unfold seq. intros ->. simpl. apply app_nil_r. Qed.

Lemma seq_alt {A B} (ms : list (Matcher A)) (k : A -> Matcher B) s :
  seq (alt ms) k s = flat_map (fun m => seq m k s) ms.
Proof.
  unfold seq, alt. induction ms as [|m ms IH]; simpl; [reflexivity|].
  now rewrite flat_map_app, IH.
Qed.

Lemma flat_map_twice {X Y Z'} (f : X -> list Y) (g : Y -> list Z') l :
  flat_map g (flat_map f l) = flat_map (fun x => flat_map g (f x)) l.
Proof.
  induction l as [|x l IH]; simpl; [reflexivity|].
  now rewrite flat_map_app, IH.
Qed.

Lemma seq_two {B} (m1 m2 : Matcher Z) (k : Z -> Matcher B) s :
  seq (two m1 m2) k s =
  seq m1 (fun a => seq m2 (fun b => k (10 * a + b))) s.
Proof.
  unfold two, seq, ret. rewrite flat_map_twice.
  apply flat_map_ext. intros [a r]. rewrite flat_map_twice.
  apply flat_map_ext. intros [b r']. simpl. apply app_nil_r.
Qed.

Lemma seq_seq {A B C} (m : Matcher A) (k1 : A -> Matcher B)
      (k2 : B -> Matcher C) s :
  seq (seq m k1) k2 s = seq m (fun a => seq (k1 a) k2) s.
Proof.
  unfold seq. rewrite flat_map_twice. apply flat_map_ext. now intros [a r].
Qed.

Lemma seq_lit {B} c (k : Matcher B) r :
  seq (lit c) (fun _ => k) (c :: r) = k r.
Proof. apply (seq_single (lit c) (fun _ => k) (c :: r) tt r), lit_eq. Qed.

Lemma seq_lit_ne {B} c (k : Matcher B) x r :
  x <> c -> seq (lit c) (fun _ => k) (x :: r) = [].
Proof. intros H. apply seq_nil, lit_ne, H. Qed.

(** ** Inversion of the matchers *)

Lemma cls_inv lo hi s v r :
  In (v, r) (cls lo hi s) -> s = (48 + v) :: r /\ lo <= v <= hi.
Proof.
  unfold cls. destruct s as [|c s]; [intros []|]. cbv zeta.
  destruct ((lo <=? c - 48) && (c - 48 <=? hi)) eqn:E; [|intros []].
  apply andb_true_iff in E as [H1 H2]. apply Z.leb_le in H1, H2.
  intros [H|[]]. injection H as <- <-. split; [f_equal; lia | lia].
Qed.

Lemma any_digit_inv s v r :
  In (v, r) (any_digit s) -> exists c, s = c :: r /\ Unicode.decimal c = Some v.
Proof.
  unfold any_digit. destruct s as [|c s]; [intros []|].
  destruct (Unicode.decimal c) as [b|] eqn:E; [|intros []].
  intros [H|[]]. injection H as <- <-. now exists c.
Qed.

Lemma lit_inv c s r : In (tt, r) (lit c s) -> s = c :: r.
Proof.
  unfold lit. destruct s as [|c1 s]; [intros []|].
  destruct (Z.eqb_spec c1 c) as [->|]; [|intros []].
  intros [H|[]]. now injection H as <-.
Qed.

Lemma seq_inv {A B} (m : Matcher A) (k : A -> Matcher B) s v r :
  In (v, r) (seq m k s) -> exists a s', In (a, s') (m s) /\ In (v, r) (k a s').
Proof.
  unfold seq. rewrite in_flat_map. intros ([a s'] & H1 & H2). now exists a, s'.
Qed.

Lemma seq_lit_inv {B} c (k : Matcher B) s v r :
  In (v, r) (seq (lit c) (fun _ => k) s) -> exists s', s = c :: s' /\ In (v, r) (k s').
Proof.
  intros H. apply seq_inv in H as ([] & s' & H1 & H2).
  apply lit_inv in H1. now exists s'.
Qed.

Lemma two_inv (m1 m2 : Matcher Z) s v r :
  In (v, r) (two m1 m2 s) ->
  exists a b s', In (a, s') (m1 s) /\ In (b, r) (m2 s') /\ v = 10 * a + b.
Proof.
  unfold two. intros H.
  apply seq_inv in H as (a & s' & H1 & H).
  apply seq_inv in H as (b & s'' & H2 & H).
  destruct H as [H|[]]. injection H as <- <-. now exists a, b, s'.
Qed.

Lemma alt_inv {A} (ms : list (Matcher A)) s x :
  In x (alt ms s) -> exists m, In m ms /\ In x (m s).
Proof. unfold alt. now rewrite in_flat_map. Qed.

Ltac invert_two H :=
  apply two_inv in H as (?a & ?b & ?s' & ?H1 & ?H2 & ->).

Ltac invert_cls H := apply cls_inv in H as [-> ?].

Ltac invert_digit H := apply any_digit_inv in H as (?c & -> & ?).

Lemma re_d_inv s v r :
  In (v, r) (re_d s) -> exists t, s = t ++ r /\ day_text t v.
Proof.
  intros H. apply alt_inv in H as (m & Hm & H).
  destruct Hm as [<-|[<-|[<-|[<-|[<-|[]]]]]].
  - invert_two H. invert_cls H1. invert_cls H2.
    exists [48 + a; 48 + b]. split; [reflexivity|].
    replace a with 3 by lia. now apply (day_thirty b).
  - invert_two H. invert_cls H1. invert_digit H2.
    exists [48 + a; c]. split; [reflexivity|]. now constructor.
  - invert_two H. invert_cls H1. invert_cls H2.
    exists [48 + a; 48 + b]. split; [reflexivity|].
    replace a with 0 by lia. now apply (day_padded b).
  - invert_cls H. exists [48 + v]. split; [reflexivity|]. now constructor.
  - apply seq_lit_inv in H as (s' & -> & H). invert_cls H.
    exists [32; 48 + v]. split; [reflexivity|]. now constructor.
Qed.

Lemma re_m_inv s v r :
  In (v, r) (re_m s) -> exists t, s = t ++ r /\ month_text t v.
Proof.
  intros H. apply alt_inv in H as (m & Hm & H).
  destruct Hm as [<-|[<-|[<-|[]]]].
  - invert_two H. invert_cls H1. invert_cls H2.
    exists [48 + a; 48 + b]. split; [reflexivity|].
    replace a with 1 by lia. now apply (month_two_digits b).
  - invert_two H. invert_cls H1. invert_cls H2.
    exists [48 + a; 48 + b]. split; [reflexivity|].
    replace a with 0 by lia. now apply (month_padded b).
  - invert_cls H. exists [48 + v]. split; [reflexivity|]. now constructor.
Qed.

Lemma re_Y_inv s v r :
  In (v, r) (re_Y s) -> exists t, s = t ++ r /\ year_text t v.
Proof.
  unfold re_Y. intros H.
  apply seq_inv in H as (hi & s1 & Hhi & H).
  apply seq_inv in H as (lo & s2 & Hlo & H).
  destruct H as [H|[]]. apply pair_equal_spec in H as [<- <-].
  apply two_inv in Hhi as (a & b & s3 & Ha & Hb & ->).
  apply two_inv in Hlo as (c & d & s4 & Hc & Hd & ->).
  apply any_digit_inv in Ha as (c1 & -> & Ha).
  apply any_digit_inv in Hb as (c2 & -> & Hb).
  apply any_digit_inv in Hc as (c3 & -> & Hc).
  apply any_digit_inv in Hd as (c4 & -> & Hd).
  exists [c1; c2; c3; c4]. split; [reflexivity|].
  replace (100 * (10 * a + b) + (10 * c + d))
    with (1000 * a + 100 * b + 10 * c + d) by lia.
  now constructor.
Qed.

Lemma re_H_inv s v r :
  In (v, r) (re_H s) -> exists t, s = t ++ r /\ hour_text t v.
Proof.
  intros H. apply alt_inv in H as (m & Hm & H).
  destruct Hm as [<-|[<-|[<-|[]]]].
  - invert_two H. invert_cls H1. invert_cls H2.
    exists [48 + a; 48 + b]. split; [reflexivity|].
    replace a with 2 by lia. now apply (hour_twenty b).
  - invert_two H. invert_cls H1. invert_digit H2.
    exists [48 + a; c]. split; [reflexivity|]. now constructor.
  - invert_digit H. exists [c]. split; [reflexivity|]. now constructor.
Qed.

Lemma re_M_inv s v r :
  In (v, r) (re_M s) -> exists t, s = t ++ r /\ minute_text t v.
Proof.
  intros H. apply alt_inv in H as (m & Hm & H).
  destruct Hm as [<-|[<-|[]]].
  - invert_two H. invert_cls H1. invert_digit H2.
    exists [48 + a; c]. split; [reflexivity|]. now constructor.
  - invert_digit H. exists [c]. split; [reflexivity|]. now constructor.
Qed.

Lemma format_regex_inv s f r :
  In (f, r) (format_regex s) ->
  exists td tm ty tH tM,
    s = td ++ 46 :: tm ++ 46 :: ty ++ 45 :: tH ++ 58 :: tM ++ r /\
    day_text td (f_day f) /\ month_text tm (f_month f) /\
    year_text ty (f_year f) /\ hour_text tH (f_hour f) /\
    minute_text tM (f_minute f).
Proof.
  unfold format_regex. intros H.
  apply seq_inv in H as (d & s1 & Hd & H).
  apply seq_lit_inv in H as (s2 & -> & H).
  apply seq_inv in H as (m & s3 & Hm & H).
  apply seq_lit_inv in H as (s4 & -> & H).
  apply seq_inv in H as (y & s5 & Hy & H).
  apply seq_lit_inv in H as (s6 & -> & H).
  apply seq_inv in H as (h & s7 & Hh & H).
  apply seq_lit_inv in H as (s8 & -> & H).
  apply seq_inv in H as (mi & s9 & Hmi & H).
  destruct H as [H|[]]. injection H as <- <-.
  apply re_d_inv in Hd as (td & -> & Td).
  apply re_m_inv in Hm as (tm & -> & Tm).
  apply re_Y_inv in Hy as (ty & -> & Ty).
  apply re_H_inv in Hh as (tH & -> & TH).
  apply re_M_inv in Hmi as (tM & -> & TM).
  exists td, tm, ty, tH, tM. cbn [f_day f_month f_year f_hour f_minute].
  repeat split; assumption.
Qed.

Lemma match_exact_inv val f :
  match_exact val = Some f ->
  stamp_text (Unicode.decode val)
             (f_year f) (f_month f) (f_day f) (f_hour f) (f_minute f).
Proof.
  unfold match_exact. intros H.
  destruct (format_regex (Unicode.decode val)) as [|[f' [|c r]] l] eqn:E;
    try discriminate.
  injection H as ->.
  destruct (format_regex_inv (Unicode.decode val) f []) as
    (td & tm & ty & tH & tM & Es & Hs); [rewrite E; now left|].
  rewrite app_nil_r in Es.
  exists td, tm, ty, tH, tM. split; [exact Es | exact Hs].
Qed.

(** ** The values the directives read *)

Lemma day_text_range t d : day_text t d -> 1 <= d <= 31.
Proof.
  intros [b H|a c b Ha Hc|b H|b H|b H]; try lia.
  apply decimal_bounds in Hc. lia.
Qed.

Lemma month_text_range t m : month_text t m -> 1 <= m <= 12.
Proof. intros [b H|b H|b H]; lia. Qed.

Lemma year_text_range t y : year_text t y -> 0 <= y <= 9999.
Proof.
  intros [c1 c2 c3 c4 a b c d H1 H2 H3 H4].
  apply decimal_bounds in H1, H2, H3, H4. lia.
Qed.

Lemma hour_text_range t h : hour_text t h -> 0 <= h <= 23.
Proof.
  intros [b H|a c b Ha Hc|c b Hc]; try lia; apply decimal_bounds in Hc; lia.
Qed.

Lemma minute_text_range t m : minute_text t m -> 0 <= m <= 59.
Proof.
  intros [a c b Ha Hc|c b Hc]; apply decimal_bounds in Hc; lia.
Qed.

(** ** The texts of the format are matched *)

(** A decimal digit is none of the marks of the format. *)
Lemma decimal_not_mark c b :
  Unicode.decimal c = Some b -> c <> 46 /\ c <> 45 /\ c <> 58 /\ c <> 32.
Proof.
  intros H. destruct (decimal_cases c b H) as [Hb [->|Hc]]; lia.
Qed.

Ltac crunch :=
  repeat first
    [ rewrite seq_alt; cbn [flat_map]
    | rewrite seq_two
    | rewrite seq_seq
    | rewrite seq_lit
    | progress cbv beta
    | match goal with
      | H : Unicode.decimal ?c = Some _
        |- context [seq any_digit ?k (?c :: ?r)] =>
          rewrite (seq_single any_digit k (c :: r) _ r (any_digit_eq c _ r H))
      | |- context [seq any_digit ?k ((48 + ?v) :: ?r)] =>
          rewrite (seq_single any_digit k ((48 + v) :: r) v r)
            by (apply any_digit_eq, decimal_ascii; lia)
      | |- context [seq (cls ?lo ?hi) ?k ((48 + ?v) :: ?r)] =>
          first
            [ rewrite (seq_single (cls lo hi) k ((48 + v) :: r) v r)
                by (apply cls_ascii; lia)
            | rewrite (seq_nil (cls lo hi) k ((48 + v) :: r))
                by (apply cls_out; lia) ]
      | |- context [seq (cls ?lo ?hi) ?k (?c :: ?r)] =>
          rewrite (seq_nil (cls lo hi) k (c :: r)) by (apply cls_out; lia)
      | |- context [seq (cls ?lo ?hi) ?k []] =>
          rewrite (seq_nil (cls lo hi) k []) by reflexivity
      | |- context [seq any_digit ?k []] =>
          rewrite (seq_nil any_digit k []) by reflexivity
      | |- context [seq (lit ?x) ?k (?c :: ?r)] =>
          rewrite (seq_nil (lit x) k (c :: r)) by (apply lit_ne; lia)
      | |- context [seq any_digit ?k (?c :: ?r)] =>
          rewrite (seq_nil any_digit k (c :: r))
            by (apply any_digit_none; reflexivity)
      end
    | rewrite app_nil_r
    | rewrite app_nil_l ].

(** The digits of ASCII that the alternatives name. *)
Ltac name_digits :=
  change 48 with (48 + 0) at 1; change 49 with (48 + 1);
  change 50 with (48 + 2); change 51 with (48 + 3).

Lemma re_d_step {B} t d r (F : Z -> Matcher B) :
  day_text t d ->
  seq re_d (fun v => seq (lit 46) (fun _ => F v)) (t ++ 46 :: r) = F d r.
Proof.
  intros [b H|a c b Ha Hc|b H|b H|b H]; cbn [app]; unfold re_d.
  - change 51 with (48 + 3). enumerate b; crunch; reflexivity.
  - destruct (decimal_cases c b Hc) as [Hb [->|Hgt]].
    + enumerate a; enumerate b; crunch; reflexivity.
    + enumerate a; crunch; reflexivity.
  - change (48 :: 48 + b :: 46 :: r) with ((48 + 0) :: 48 + b :: 46 :: r).
    enumerate b; crunch; reflexivity.
  - enumerate b; crunch; reflexivity.
  - enumerate b; crunch; reflexivity.
Qed.

Lemma re_m_step {B} t m r (F : Z -> Matcher B) :
  month_text t m ->
  seq re_m (fun v => seq (lit 46) (fun _ => F v)) (t ++ 46 :: r) = F m r.
Proof.
  intros [b H|b H|b H]; cbn [app]; unfold re_m.
  - change 49 with (48 + 1). enumerate b; crunch; reflexivity.
  - change (48 :: 48 + b :: 46 :: r) with ((48 + 0) :: 48 + b :: 46 :: r).
    enumerate b; crunch; reflexivity.
  - enumerate b; crunch; reflexivity.
Qed.

Lemma re_Y_step {B} t y r (F : Z -> Matcher B) :
  year_text t y ->
  seq re_Y (fun v => seq (lit 45) (fun _ => F v)) (t ++ 45 :: r) = F y r.
Proof.
  intros [c1 c2 c3 c4 a b c d H1 H2 H3 H4]; cbn [app]; unfold re_Y.
  assert (E : seq (two any_digit any_digit)
                (fun hi => seq (two any_digit any_digit)
                             (fun lo => ret (100 * hi + lo)))
                (c1 :: c2 :: c3 :: c4 :: 45 :: r)
              = [(1000 * a + 100 * b + 10 * c + d, 45 :: r)]).
  { crunch. unfold ret. do 2 f_equal. lia. }
  rewrite (seq_single _ _ _ _ _ E). apply seq_lit.
Qed.

Lemma re_H_step {B} t h r (F : Z -> Matcher B) :
  hour_text t h ->
  seq re_H (fun v => seq (lit 58) (fun _ => F v)) (t ++ 58 :: r) = F h r.
Proof.
  intros [b H|a c b Ha Hc|c b Hc]; cbn [app]; unfold re_H.
  - change 50 with (48 + 2). enumerate b; crunch; reflexivity.
  - destruct (decimal_cases c b Hc) as [Hb [->|Hgt]].
    + enumerate a; enumerate b; crunch; reflexivity.
    + enumerate a; crunch; reflexivity.
  - destruct (decimal_cases c b Hc) as [Hb [->|Hgt]].
    + enumerate b; crunch; reflexivity.
    + crunch; reflexivity.
Qed.

Lemma re_M_last {B} t m (F : Z -> Matcher B) :
  minute_text t m ->
  exists more, seq re_M F t = F m [] ++ more.
Proof.
  intros [a c b Ha Hc|c b Hc]; unfold re_M.
  - destruct (decimal_cases c b Hc) as [Hb [->|Hgt]].
    + enumerate a; enumerate b; crunch; eexists; reflexivity.
    + enumerate a; crunch; eexists; reflexivity.
  - destruct (decimal_cases c b Hc) as [Hb [->|Hgt]].
    + enumerate b; crunch; exists []; now rewrite ?app_nil_r.
    + crunch. exists []. now rewrite ?app_nil_r.
Qed.

Lemma match_exact_text val y m d H M :
  stamp_text (Unicode.decode val) y m d H M ->
  match_exact val = Some (mk_fields d m y H M).
Proof.
  intros (td & tm & ty & tH & tM & Es & Td & Tm & Ty & TH & TM).
  unfold match_exact, format_regex. rewrite Es.
  rewrite (re_d_step td d _ _ Td), (re_m_step tm m _ _ Tm),
    (re_Y_step ty y _ _ Ty), (re_H_step tH H _ _ TH).
  destruct (re_M_last tM M (fun v => ret (mk_fields d m y H v)) TM)
    as [more ->].
  reflexivity.
Qed.

(** ** The texts in the form dd.mm.YYYY-HH:MM *)

Lemma decode_digit_char a k :
  0 <= a <= 9 ->
  Unicode.decode (String (digit_char a) k) = (48 + a) :: Unicode.decode k.
Proof. intros H. enumerate a; reflexivity. Qed.

Lemma decode_show2 n k :
  0 <= n <= 99 ->
  Unicode.decode (show2 n k)
  = (48 + n / 10) :: (48 + n mod 10) :: Unicode.decode k.
Proof.
  intros H. unfold show2.
  pose proof (Z.div_mod n 10 ltac:(lia)).
  pose proof (Z.mod_pos_bound n 10 ltac:(lia)).
  rewrite !decode_digit_char by lia. reflexivity.
Qed.

Ltac split_digits n a b :=
  pose proof (Z.div_mod n 10 ltac:(lia));
  pose proof (Z.mod_pos_bound n 10 ltac:(lia));
  remember (n / 10) as a; remember (n mod 10) as b;
  replace n with (10 * a + b) by lia.

Lemma day_text_padded d :
  1 <= d <= 31 -> day_text [48 + d / 10; 48 + d mod 10] d.
Proof.
  intros H. split_digits d a b.
  enumerate a;
    first [ apply (day_padded b); lia
          | apply (day_thirty b); lia
          | apply (day_two_digits _ (48 + b) b);
            [lia | apply decimal_ascii; lia] ].
Qed.

Lemma month_text_padded m :
  1 <= m <= 12 -> month_text [48 + m / 10; 48 + m mod 10] m.
Proof.
  intros H. split_digits m a b.
  enumerate a;
    first [ apply (month_padded b); lia | apply (month_two_digits b); lia ].
Qed.

Lemma hour_text_padded h :
  0 <= h <= 23 -> hour_text [48 + h / 10; 48 + h mod 10] h.
Proof.
  intros H. split_digits h a b.
  enumerate a;
    first [ apply (hour_twenty b); lia
          | apply (hour_two_digits _ (48 + b) b);
            [lia | apply decimal_ascii; lia] ].
Qed.

Lemma minute_text_padded m :
  0 <= m <= 59 -> minute_text [48 + m / 10; 48 + m mod 10] m.
Proof.
  intros H. split_digits m a b.
  apply (minute_two_digits a (48 + b) b); [lia | apply decimal_ascii; lia].
Qed.

Lemma year_text_padded y :
  0 <= y <= 9999 ->
  year_text [48 + y / 100 / 10; 48 + (y / 100) mod 10;
             48 + y mod 100 / 10; 48 + (y mod 100) mod 10] y.
Proof.
  intros H.
  pose proof (Z.div_mod y 100 ltac:(lia)).
  pose proof (Z.mod_pos_bound y 100 ltac:(lia)).
  pose proof (Z.div_mod (y / 100) 10 ltac:(lia)).
  pose proof (Z.mod_pos_bound (y / 100) 10 ltac:(lia)).
  pose proof (Z.div_mod (y mod 100) 10 ltac:(lia)).
  pose proof (Z.mod_pos_bound (y mod 100) 10 ltac:(lia)).
  replace y with (1000 * (y / 100 / 10) + 100 * ((y / 100) mod 10)
                  + 10 * (y mod 100 / 10) + (y mod 100) mod 10) at 5 by lia.
  constructor; apply decimal_ascii; lia.
Qed.

Lemma stamp_text_show_stamp y m d H M :
  1 <= d <= 31 -> 1 <= m <= 12 -> 0 <= y <= 9999 ->
  0 <= H <= 23 -> 0 <= M <= 59 ->
  stamp_text (Unicode.decode (show_stamp y m d H M)) y m d H M.
Proof.
  intros Bd Bm By BH BM.
  pose proof (Z.div_mod y 100 ltac:(lia)).
  pose proof (Z.mod_pos_bound y 100 ltac:(lia)).
  exists [48 + d / 10; 48 + d mod 10], [48 + m / 10; 48 + m mod 10],
    [48 + y / 100 / 10; 48 + (y / 100) mod 10;
     48 + y mod 100 / 10; 48 + (y mod 100) mod 10],
    [48 + H / 10; 48 + H mod 10], [48 + M / 10; 48 + M mod 10].
  split.
  - unfold show_stamp, show4.
    repeat first [ rewrite decode_show2 by lia
                 | match goal with
                   | |- context [Unicode.decode (String ?c ?k)] =>
                       change (Unicode.decode (String c k))
                         with (Unicode.byte c :: Unicode.decode k)
                   end ].
    reflexivity.
  - split; [now apply day_text_padded|].
    split; [now apply month_text_padded|].
    split; [now apply year_text_padded|].
    split; [now apply hour_text_padded | now apply minute_text_padded].
Qed.

(** ** The value read *)

Lemma day_of_mk_timestamp y m d H M :
  0 <= H <= 23 -> 0 <= M <= 59 ->
  day_of (mk_timestamp y m d H M) = Calendar.days_from_civil y m d.
Proof.
  intros BH BM. unfold day_of, mk_timestamp, minutes_per_day.
  symmetry. apply (Z.div_unique _ _ _ (H * 60 + M)); lia.
Qed.

Lemma dt_hour_mk_timestamp y m d H M :
  0 <= H <= 23 -> 0 <= M <= 59 ->
  dt_hour (mk_timestamp y m d H M) = H.
Proof.
  intros BH BM. unfold dt_hour, mk_timestamp, minutes_per_day.
  replace ((Calendar.days_from_civil y m d * 1440 + H * 60 + M) mod 1440)
    with (H * 60 + M)
    by (apply (Z.mod_unique _ _ (Calendar.days_from_civil y m d)); lia).
  symmetry. apply (Z.div_unique _ _ _ M); lia.
Qed.

Lemma dt_date_mk_timestamp y m d H M :
  Calendar.valid_date y m d = true -> 0 <= H <= 23 -> 0 <= M <= 59 ->
  dt_date (mk_timestamp y m d H M) = (y, m, d).
Proof.
  intros Hv BH BM. unfold dt_date.
  rewrite day_of_mk_timestamp by assumption.
  now apply days_from_civil_inv.
Qed.

(** The texts that are given a timestamp, and the timestamp they are
    given. *)
Lemma to_datetime_iff s t :
  to_datetime s = Some t <->
  exists y m d H M,
    stamp_text (Unicode.decode s) y m d H M /\
    Calendar.valid_date y m d = true /\
    in_ns_bounds (mk_timestamp y m d H M) = true /\
    t = mk_timestamp y m d H M.
Proof.
  unfold to_datetime. split.
  - destruct (match_exact s) as [f|] eqn:E; [|discriminate].
    destruct (Calendar.valid_date (f_year f) (f_month f) (f_day f)) eqn:Ev;
      [|discriminate].
    destruct (in_ns_bounds _) eqn:Eb; [|discriminate].
    intros Ht. injection Ht as <-.
    apply match_exact_inv in E.
    exists (f_year f), (f_month f), (f_day f), (f_hour f), (f_minute f).
    repeat split; assumption.
  - intros (y & m & d & H & M & Hs & Hv & Hb & ->).
    rewrite (match_exact_text s y m d H M Hs).
    cbn [f_day f_month f_year f_hour f_minute]. now rewrite Hv, Hb.
Qed.

(** C5 (as the code has it).  A text in the form dd.mm.YYYY-HH:MM of a
    date and a time that exist, within the range of nanosecond timestamps,
    is given the timestamp of that minute, whose calendar date and hour are
    the ones written.  The texts that are given a timestamp are those that
    read day.month.year-hour:minute, each field written as its directive
    accepts it (the day with one or two digits or after a space, the month,
    the hour and the minute with one or two digits, the year with four, a
    digit being a decimal digit of any script where the pattern has [\d]),
    for a date that exists and a minute within that range; every other
    text is given [NaT], and no text raises. *)
Theorem timestamp_normalization :
  (forall y m d H M,
      valid_fields y m d H M ->
      in_ns_bounds (mk_timestamp y m d H M) = true ->
      to_datetime (show_stamp y m d H M) = Some (mk_timestamp y m d H M) /\
      dt_date (mk_timestamp y m d H M) = (y, m, d) /\
      dt_hour (mk_timestamp y m d H M) = H)
  /\ (forall s t,
      to_datetime s = Some t <->
      exists y m d H M,
        stamp_text (Unicode.decode s) y m d H M /\
        Calendar.valid_date y m d = true /\
        in_ns_bounds (mk_timestamp y m d H M) = true /\
        t = mk_timestamp y m d H M).
Proof.
  split; [|exact to_datetime_iff].
  intros y m d H M Hf Hb. pose proof Hf as (By & Hv & BH & BM).
  destruct (valid_date_bounds _ _ _ Hv) as (Bm & Bd & _).
  split; [|split].
  - apply to_datetime_iff. exists y, m, d, H, M.
    split; [now apply stamp_text_show_stamp|]. repeat split; assumption.
  - now apply dt_date_mk_timestamp.
  - now apply dt_hour_mk_timestamp.
Qed.

Lemma timestamp_normalization_witness :
  to_datetime "05.06.2020-14:30" = Some (mk_timestamp 2020 6 5 14 30) /\
  dt_date (mk_timestamp 2020 6 5 14 30) = (2020, 6, 5) /\
  dt_hour (mk_timestamp 2020 6 5 14 30) = 14.
Proof.
  assert (Hf : valid_fields 2020 6 5 14 30).
  { unfold valid_fields. split; [lia|]. split; [reflexivity|]. lia. }
  exact (proj1 timestamp_normalization 2020 6 5 14 30 Hf eq_refl).
Defined.

(** C5 as stated fails: a text with an unpadded day and month, one with
    the day after a space and one with the year in the digits of Arabic
    are not in the form dd.mm.YYYY-HH:MM, yet each is given a timestamp,
    not [NaT]. *)
Lemma unpadded_text_is_parsed :
  (forall y m d H M, "5.6.2020-14:30"%string <> show_stamp y m d H M) /\
  to_datetime "5.6.2020-14:30" = Some (mk_timestamp 2020 6 5 14 30) /\
  to_datetime " 5.06.2020-14:30" = Some (mk_timestamp 2020 6 5 14 30) /\
  to_datetime ("05.06." ++ Unicode.encode [1634; 1632; 1634; 1632]
               ++ "-14:30")%string
  = Some (mk_timestamp 2020 6 5 14 30).
Proof.
  split; [|split; [|split]]; try (vm_compute; reflexivity).
  intros y m d H M E. apply (f_equal String.length) in E. discriminate.
Qed.

End TimestampNormalization.

(* ================================================================== *)
(** * Buckets: the general theory *)

Section SortedLists.

Context {A : Type} (R : A -> A -> Prop).

Lemma filter_none' (p : A -> bool) (l : list A) :
  Forall (fun x => p x = false) l -> filter p l = [].
Proof.
  induction 1 as [|x l Hx _ IH]; simpl; [reflexivity|]. now rewrite Hx.
Qed.

Lemma filter_all' (p : A -> bool) (l : list A) :
  Forall (fun x => p x = true) l -> filter p l = l.
Proof.
  induction 1 as [|x l Hx _ IH]; simpl; [reflexivity|]. now rewrite Hx, IH.
Qed.

Lemma filter_filter_implies (p q : A -> bool) (l : list A) :
  (forall x, In x l -> p x = true -> q x = true) ->
  filter p (filter q l) = filter p l.
Proof.
  induction l as [|x l IH]; intros H; simpl; [reflexivity|].
  destruct (q x) eqn:Eq; simpl.
  - destruct (p x); rewrite IH; auto with datatypes.
  - destruct (p x) eqn:Ep.
    + rewrite (H x) in Eq by auto with datatypes. discriminate.
    + apply IH. auto with datatypes.
Qed.

Lemma StronglySorted_filter (p : A -> bool) (l : list A) :
  StronglySorted R l -> StronglySorted R (filter p l).
Proof.
  induction 1 as [|x l Hs IH Hall]; simpl; [constructor|].
  destruct (p x); [|exact IH].
  constructor; [exact IH|].
  apply Forall_forall. intros y Hy. apply filter_In in Hy as [Hy _].
  rewrite Forall_forall in Hall. now apply Hall.
Qed.

(** On a sorted list a test that, once it fails, fails for what follows,
    cuts the list where it filters it. *)
Lemma take_drop_while_sorted (p : A -> bool) (l : list A) :
  (forall x y, R x y -> p y = true -> p x = true) ->
  StronglySorted R l ->
  Resample.take_while p l = filter p l /\
  Resample.drop_while p l = filter (fun x => negb (p x)) l.
Proof.
  intros Hp. induction 1 as [|x l Hs IH Hall]; simpl; [now split|].
  destruct IH as [IH1 IH2]. destruct (p x) eqn:Ex; simpl.
  - split; [now rewrite IH1 | exact IH2].
  - assert (Hf : Forall (fun y => p y = false) l).
    { eapply Forall_impl; [|exact Hall]. simpl. intros y Hy.
      destruct (p y) eqn:Ey; [|reflexivity].
      rewrite (Hp x y Hy Ey) in Ex. discriminate. }
    split.
    + symmetry. now apply filter_none'.
    + f_equal. symmetry. apply filter_all'.
      eapply Forall_impl; [|exact Hf]. simpl. now intros y ->.
Qed.

End SortedLists.

Section Ranges.

Lemma zrange_n_In n : forall a z,
  In z (zrange_n n a) <-> a <= z < a + Z.of_nat n.
Proof.
  induction n as [|n IH]; intros a z.
  - simpl. lia.
  - cbn [zrange_n In]. rewrite IH. lia.
Qed.

Lemma zrange_In a b z : In z (zrange a b) <-> a <= z <= b.
Proof. unfold zrange. rewrite zrange_n_In. lia. Qed.

Lemma zrange_empty a b : b < a -> zrange a b = [].
Proof.
  intros H. unfold zrange. replace (Z.to_nat (b + 1 - a)) with O by lia.
  reflexivity.
Qed.

Lemma zrange_cons a b : a <= b -> zrange a b = a :: zrange (a + 1) b.
Proof.
  intros H. unfold zrange.
  replace (Z.to_nat (b + 1 - a)) with (S (Z.to_nat (b + 1 - (a + 1)))) by lia.
  reflexivity.
Qed.

Lemma zrange_n_app n m : forall a,
  zrange_n (n + m) a = zrange_n n a ++ zrange_n m (a + Z.of_nat n).
Proof.
  induction n as [|n IH]; intros a.
  - simpl. f_equal. lia.
  - cbn [plus zrange_n app]. rewrite IH. do 3 f_equal. lia.
Qed.

Lemma zrange_app a c b :
  a <= c + 1 -> c <= b -> zrange a b = zrange a c ++ zrange (c + 1) b.
Proof.
  intros H1 H2. unfold zrange.
  replace (Z.to_nat (b + 1 - a))
    with (Z.to_nat (c + 1 - a) + Z.to_nat (b + 1 - (c + 1)))%nat by lia.
  rewrite zrange_n_app. do 2 f_equal. lia.
Qed.

Lemma zrange_snoc a b : a <= b + 1 -> zrange a (b + 1) = zrange a b ++ [b + 1].
Proof.
  intros H. rewrite (zrange_app a b (b + 1)) by lia.
  f_equal. rewrite zrange_cons by lia. now rewrite zrange_empty by lia.
Qed.

End Ranges.

Section Buckets.

Variable B : Z -> Z.
Hypothesis B_ge : forall z, z <= B z.
Hypothesis B_stay : forall z, z < B z -> B (z + 1) = B z.

(** The days from a day to the label of its bucket are in that bucket. *)
Lemma B_upto_n z n : z + Z.of_nat n <= B z -> B (z + Z.of_nat n) = B z.
Proof.
  induction n as [|n IH]; intros H.
  - f_equal. lia.
  - replace (z + Z.of_nat (S n)) with (z + Z.of_nat n + 1) in * by lia.
    rewrite B_stay; [apply IH; lia | rewrite IH; lia].
Qed.

Lemma B_upto z z' : z <= z' <= B z -> B z' = B z.
Proof.
  intros [H1 H2].
  replace z' with (z + Z.of_nat (Z.to_nat (z' - z))) by lia.
  apply B_upto_n. lia.
Qed.

Lemma B_idem z : B (B z) = B z.
Proof. apply B_upto. split; [apply B_ge | lia]. Qed.

Lemma B_mono z z' : z <= z' -> B z <= B z'.
Proof.
  intros H. destruct (Z.le_gt_cases z' (B z)) as [Hle|Hgt].
  - rewrite (B_upto z z') by lia. lia.
  - pose proof (B_ge z'). lia.
Qed.

(** The bucket that follows the bucket labelled [L]. *)
Lemma B_next L z : B L = L -> (L < z <= B (L + 1) <-> B z = B (L + 1)).
Proof.
  intros HL. split.
  - intros H. apply B_upto. lia.
  - intros H. split.
    + destruct (Z.lt_ge_cases L z) as [|Hle]; [assumption|].
      pose proof (B_mono z L Hle). pose proof (B_ge (L + 1)). lia.
    + rewrite <- H. apply B_ge.
Qed.

Lemma offsets_In a b z : In z (offsets B a b) <-> a <= z <= b /\ B z = z.
Proof.
  unfold offsets. rewrite filter_In, zrange_In, Z.eqb_eq. reflexivity.
Qed.

Lemma offsets_empty a b : b < a -> offsets B a b = [].
Proof. intros H. unfold offsets. now rewrite zrange_empty. Qed.

(** The days before the label of the first bucket label nothing. *)
Lemma offsets_skip_n b n : forall a,
  a + Z.of_nat n <= B a -> offsets B a b = offsets B (a + Z.of_nat n) b.
Proof.
  induction n as [|n IH]; intros a H.
  - f_equal. lia.
  - replace (a + Z.of_nat (S n)) with (a + Z.of_nat n + 1) in * by lia.
    rewrite IH by lia.
    destruct (Z.le_gt_cases (a + Z.of_nat n) b) as [Hle|Hgt].
    + unfold offsets at 1. rewrite zrange_cons by lia. cbn [filter].
      destruct (Z.eqb_spec (B (a + Z.of_nat n)) (a + Z.of_nat n)) as [E|_].
      * rewrite (B_upto a (a + Z.of_nat n)) in E by lia. lia.
      * reflexivity.
    + now rewrite !offsets_empty by lia.
Qed.

Lemma offsets_skip a b : offsets B a b = offsets B (B a) b.
Proof.
  pose proof (B_ge a) as Hge.
  rewrite (offsets_skip_n b (Z.to_nat (B a - a)) a) by lia. f_equal. lia.
Qed.

Lemma offsets_cons a b :
  B a = a -> a <= b -> offsets B a b = a :: offsets B (B (a + 1)) b.
Proof.
  intros Ha Hab. rewrite <- offsets_skip. unfold offsets at 1.
  rewrite zrange_cons by lia. cbn [filter]. now rewrite Ha, Z.eqb_refl.
Qed.

(** The label that follows the last one. *)
Lemma offsets_snoc a b :
  a <= b + 1 -> offsets B a (B (b + 1)) = offsets B a b ++ [B (b + 1)].
Proof.
  intros Hab. pose proof (B_ge (b + 1)) as Hge. unfold offsets.
  rewrite (zrange_app a b (B (b + 1))) by lia. rewrite filter_app. f_equal.
  fold (offsets B (b + 1) (B (b + 1))). rewrite offsets_skip.
  rewrite offsets_cons by (rewrite ?B_idem; lia).
  f_equal. apply offsets_empty. pose proof (B_ge (B (b + 1) + 1)). lia.
Qed.

Lemma offsets_nonempty a b : a <= b -> offsets B (B a) (B b) <> [].
Proof.
  intros Hab. pose proof (B_mono a b Hab).
  rewrite offsets_cons by (rewrite ?B_idem; lia). discriminate.
Qed.

(** ** The scan of the bins *)

Context {V : Type}.
Variable c : Resample.Closed.
Variable edge : Z -> Z.
Hypothesis edge_test : forall L (row : Z * V),
  Resample.before_edge c (edge L) row = (day_of (fst row) <=? L).

Lemma day_of_mono t t' : t <= t' -> day_of t <= day_of t'.
Proof. intros H. unfold day_of, minutes_per_day. apply Z.div_le_mono; lia. Qed.

Lemma scan_bins_offsets n : forall a b low (values : list (Z * V)),
  (Z.to_nat (b + 1 - a) <= n)%nat ->
  B low = low -> B (low + 1) = a ->
  StronglySorted row_le values ->
  Forall (fun row => low < day_of (fst row)) values ->
  Resample.scan_bins c (map edge (offsets B a b)) values
  = map (fun L => filter (in_bucket B L) values) (offsets B a b).
Proof.
  induction n as [|n IH]; intros a b low values Hn Hlow Ha Hs Hall.
  - rewrite offsets_empty by lia. reflexivity.
  - destruct (Z.le_gt_cases a b) as [Hab|Hab];
      [|rewrite offsets_empty by lia; reflexivity].
    assert (HBa : B a = a) by (rewrite <- Ha; apply B_idem).
    rewrite offsets_cons by assumption. cbn [map Resample.scan_bins].
    destruct (take_drop_while_sorted row_le
                (Resample.before_edge c (edge a)) values) as [Ht Hd];
      [|exact Hs|].
    { intros x y Hxy. rewrite !edge_test, !Z.leb_le.
      pose proof (day_of_mono _ _ Hxy). lia. }
    rewrite Ht, Hd. f_equal.
    + apply filter_ext_in. intros row Hrow. rewrite edge_test.
      rewrite Forall_forall in Hall. specialize (Hall row Hrow).
      unfold in_bucket. pose proof (B_next low (day_of (fst row)) Hlow) as Hn'.
      rewrite Ha in Hn'.
      destruct (Z.leb_spec (day_of (fst row)) a);
        destruct (Z.eqb_spec (B (day_of (fst row))) a); try reflexivity; lia.
    + pose proof (B_ge (a + 1)).
      rewrite (IH (B (a + 1)) b a); try assumption; try reflexivity.
      * apply map_ext_in. intros L HL. apply offsets_In in HL as [[HL1 _] _].
        apply filter_filter_implies. intros row _. unfold in_bucket.
        rewrite edge_test. intros E. apply Z.eqb_eq in E.
        destruct (Z.leb_spec (day_of (fst row)) a) as [Hle|]; [|reflexivity].
        pose proof (B_mono _ _ Hle). lia.
      * lia.
      * now apply StronglySorted_filter.
      * apply Forall_forall. intros row Hrow. apply filter_In in Hrow as [_ E].
        rewrite edge_test in E. destruct (Z.leb_spec (day_of (fst row)) a);
          [discriminate | lia].
Qed.

End Buckets.

(* ================================================================== *)
(** * The three rules *)

Section Rules.

Import Resample Calendar.

Lemma day_of_midnight z : day_of (midnight z) = z.
Proof. unfold day_of, midnight, minutes_per_day. apply Z.div_mul. lia. Qed.

Lemma midnight_le a b : midnight a <= midnight b <-> a <= b.
Proof. unfold midnight, minutes_per_day. lia. Qed.

Lemma midnight_day_of_le t : midnight (day_of t) <= t < midnight (day_of t + 1).
Proof.
  unfold midnight, day_of, minutes_per_day.
  pose proof (Z.div_mod t 1440 ltac:(lia)).
  pose proof (Z.mod_pos_bound t 1440 ltac:(lia)). lia.
Qed.

Lemma day_of_le_iff t L : day_of t <= L <-> t < midnight (L + 1).
Proof.
  pose proof (midnight_day_of_le t). unfold midnight, minutes_per_day in *. lia.
Qed.

(** ** The week *)

Lemma weekday_bounds z : 0 <= weekday z <= 6.
Proof. unfold weekday. pose proof (Z.mod_pos_bound (z + 3) 7 ltac:(lia)). lia. Qed.

Lemma weekday_succ z :
  weekday (z + 1) = if weekday z =? 6 then 0 else weekday z + 1.
Proof.
  unfold weekday. destruct (Z.eqb_spec ((z + 3) mod 7) 6);
    Z.div_mod_to_equations; lia.
Qed.

Lemma week_ge z : z <= bucket_day W z.
Proof. unfold bucket_day. pose proof (weekday_bounds z). lia. Qed.

Lemma week_stay z :
  z < bucket_day W z -> bucket_day W (z + 1) = bucket_day W z.
Proof.
  unfold bucket_day. rewrite weekday_succ.
  destruct (Z.eqb_spec (weekday z) 6); lia.
Qed.

Lemma week_apply_next z :
  week_apply 1 z =
  if bucket_day W z =? z then bucket_day W (z + 1) else bucket_day W z.
Proof.
  unfold week_apply, bucket_day. cbv zeta. rewrite weekday_succ.
  pose proof (weekday_bounds z).
  destruct (Z.eqb_spec (weekday z) 6) as [E|E].
  - destruct (Z.eqb_spec (z + (6 - weekday z)) z); lia.
  - destruct (Z.eqb_spec (z + (6 - weekday z)) z); [lia|].
    rewrite Z.mod_small by lia. simpl (if 0 <? 1 then _ else _). lia.
Qed.

Lemma week_apply_prev z :
  let P := week_apply (-1) z in
  bucket_day W P = P /\ P < z /\ bucket_day W (P + 1) = bucket_day W z.
Proof.
  unfold week_apply, bucket_day. pose proof (weekday_bounds z).
  destruct (Z.eqb_spec (weekday z) 6) as [E|E]; cbv zeta.
  - unfold weekday in *. Z.div_mod_to_equations. lia.
  - rewrite Z.mod_small by lia. simpl (if 0 <? -1 then _ else _).
    unfold weekday in *. Z.div_mod_to_equations. lia.
Qed.

(** ** The month *)

Lemma days_in_month_bounds y m : 28 <= days_in_month y m <= 31.
Proof.
  unfold days_in_month. destruct (m =? 2); [destruct (is_leap y); lia|].
  destruct ((m =? 4) || (m =? 6) || (m =? 9) || (m =? 11)); lia.
Qed.

Lemma valid_month_end y m :
  1 <= m <= 12 -> valid_date y m (days_in_month y m) = true.
Proof.
  intros Hm. pose proof (days_in_month_bounds y m). unfold valid_date.
  rewrite !andb_true_iff, !Z.leb_le. lia.
Qed.

Lemma valid_month_start y m : 1 <= m <= 12 -> valid_date y m 1 = true.
Proof.
  intros Hm. pose proof (days_in_month_bounds y m). unfold valid_date.
  rewrite !andb_true_iff, !Z.leb_le. lia.
Qed.

(** The month of a day: its date, and the days of its month. *)
Lemma civil_from_days_facts z :
  exists y m d,
    civil_from_days z = (y, m, d) /\
    1 <= m <= 12 /\ 1 <= d <= days_in_month y m /\
    days_from_civil y m d = z /\
    bucket_day M z = z + (days_in_month y m - d).
Proof.
  pose proof (civil_from_days_valid z) as H. unfold bucket_day.
  destruct (civil_from_days z) as [[y m] d]. destruct H as [Hv Hz].
  exists y, m, d. destruct (valid_date_bounds _ _ _ Hv) as (Hm & Hd & Hd').
  repeat split; try lia.
  rewrite (days_from_civil_day y m d). lia.
Qed.

Lemma month_ge z : z <= bucket_day M z.
Proof.
  destruct (civil_from_days_facts z) as (y & m & d & _ & _ & Hd & _ & ->). lia.
Qed.

Lemma month_stay z :
  z < bucket_day M z -> bucket_day M (z + 1) = bucket_day M z.
Proof.
  destruct (civil_from_days_facts z) as (y & m & d & E & Hm & Hd & Hz & HB).
  rewrite HB. intros Hlt.
  assert (Hc : civil_from_days (z + 1) = (y, m, d + 1)).
  { replace (z + 1) with (days_from_civil y m (d + 1))
      by (rewrite (days_from_civil_day y m d (d + 1)); lia).
    apply days_from_civil_inv. unfold valid_date.
    rewrite !andb_true_iff, !Z.leb_le. lia. }
  unfold bucket_day at 1. rewrite Hc.
  rewrite (days_from_civil_day y m d), Hz. lia.
Qed.

Lemma shift_month_end_cases y m :
  1 <= m <= 12 ->
  shift_month_end y m 0 = days_from_civil y m (days_in_month y m) /\
  shift_month_end y m (-1) =
    (let '(py, pm) := prev_month y m in
     days_from_civil py pm (days_in_month py pm)) /\
  shift_month_end y m 1 =
    (let '(ny, nm) := next_month y m in
     days_from_civil ny nm (days_in_month ny nm)).
Proof.
  intros Hm. unfold shift_month_end, prev_month, next_month.
  assert (Hc : m = 1 \/ m = 2 \/ m = 3 \/ m = 4 \/ m = 5 \/ m = 6 \/ m = 7 \/
               m = 8 \/ m = 9 \/ m = 10 \/ m = 11 \/ m = 12) by lia.
  repeat destruct Hc as [->|Hc]; [..|subst m]; cbn -[days_from_civil days_in_month];
    rewrite ?Z.add_0_r; repeat split; reflexivity.
Qed.

Lemma next_month_start y m :
  1 <= m <= 12 ->
  let '(ny, nm) := next_month y m in
  1 <= nm <= 12 /\
  days_from_civil ny nm 1 = days_from_civil y m (days_in_month y m) + 1.
Proof.
  intros Hm. unfold next_month.
  destruct (Z.eqb_spec m 12) as [->|Hne].
  - split; [lia|]. pose proof (month_start_after_month_end (y + 1) 1 ltac:(lia)) as H.
    simpl in H. replace (y + 1 - 1) with y in H by lia. exact H.
  - split; [lia|]. pose proof (month_start_after_month_end y (m + 1) ltac:(lia)) as H.
    destruct (Z.eqb_spec (m + 1) 1); [lia|].
    replace (m + 1 - 1) with m in H by lia. exact H.
Qed.

Lemma prev_month_end y m :
  1 <= m <= 12 ->
  let '(py, pm) := prev_month y m in
  1 <= pm <= 12 /\
  days_from_civil y m 1 = days_from_civil py pm (days_in_month py pm) + 1.
Proof.
  intros Hm. pose proof (month_start_after_month_end y m Hm) as H.
  unfold prev_month. destruct (Z.eqb_spec m 1); (split; [lia | exact H]).
Qed.

Lemma bucket_day_month_date y m d :
  valid_date y m d = true ->
  bucket_day M (days_from_civil y m d) = days_from_civil y m (days_in_month y m).
Proof.
  intros Hv. unfold bucket_day. now rewrite days_from_civil_inv.
Qed.

Lemma month_end_apply_unfold n z y m d :
  civil_from_days z = (y, m, d) ->
  month_end_apply n z =
  shift_month_end y m
    (if (0 <? n) && (d <? days_in_month y m) then n - 1
     else if (n <=? 0) && (days_in_month y m <? d) then n + 1
     else n).
Proof. intros E. unfold month_end_apply. now rewrite E. Qed.

Lemma month_end_apply_next z :
  month_end_apply 1 z =
  if bucket_day M z =? z then bucket_day M (z + 1) else bucket_day M z.
Proof.
  destruct (civil_from_days_facts z) as (y & m & d & E & Hm & Hd & Hz & HB).
  rewrite (month_end_apply_unfold 1 z y m d E).
  change (0 <? 1) with true. change (1 <=? 0) with false.
  change (1 - 1) with 0. cbn [andb].
  destruct (shift_month_end_cases y m Hm) as (S0 & _ & S1).
  rewrite HB.
  destruct (Z.eqb_spec (z + (days_in_month y m - d)) z) as [Heq|Hne].
  - destruct (Z.ltb_spec d (days_in_month y m)); [lia|].
    rewrite S1.
    pose proof (next_month_start y m Hm) as Hn.
    destruct (next_month y m) as [ny nm]. destruct Hn as [Hnm Hn].
    assert (Hz1 : z + 1 = days_from_civil ny nm 1)
      by (rewrite Hn, (days_from_civil_day y m d), Hz; lia).
    rewrite Hz1.
    now rewrite (bucket_day_month_date ny nm 1 (valid_month_start ny nm Hnm)).
  - destruct (Z.ltb_spec d (days_in_month y m)); [|lia].
    rewrite S0, (days_from_civil_day y m d), Hz. lia.
Qed.

Lemma month_end_apply_prev z :
  let P := month_end_apply (-1) z in
  bucket_day M P = P /\ P < z /\ bucket_day M (P + 1) = bucket_day M z.
Proof.
  destruct (civil_from_days_facts z) as (y & m & d & E & Hm & Hd & Hz & HB).
  cbv zeta. rewrite (month_end_apply_unfold (-1) z y m d E).
  change (0 <? -1) with false. change (-1 <=? 0) with true. cbn [andb].
  destruct (shift_month_end_cases y m Hm) as (_ & Sp & _).
  destruct (Z.ltb_spec (days_in_month y m) d); [lia|].
  rewrite Sp.
  pose proof (prev_month_end y m Hm) as Hp.
  destruct (prev_month y m) as [py pm]. destruct Hp as [Hpm Hp].
  set (P := days_from_civil py pm (days_in_month py pm)) in *.
  assert (HP : bucket_day M P = P)
    by exact (bucket_day_month_date py pm _ (valid_month_end py pm Hpm)).
  split; [exact HP|]. split.
  - rewrite (days_from_civil_day y m d 1) in Hp. lia.
  - rewrite <- Hp.
    rewrite (bucket_day_month_date y m 1 (valid_month_start y m Hm)).
    rewrite HB, <- Hz, (days_from_civil_day y m d). lia.
Qed.

End Rules.

(* ================================================================== *)
(** * The sorted axis *)

Section SortedAxis.

Import Resample.

Context {V : Type}.

Lemma stamp_leb_total a b : stamp_leb a b = false -> stamp_leb b a = true.
Proof.
  destruct a as [x|], b as [y|]; simpl; try discriminate; try reflexivity.
  rewrite Z.leb_gt, Z.leb_le. lia.
Qed.

Lemma stamp_leb_trans a b c :
  stamp_leb a b = true -> stamp_leb b c = true -> stamp_leb a c = true.
Proof.
  destruct a as [x|], b as [y|], c as [z|]; simpl; try discriminate;
    try reflexivity.
  rewrite !Z.leb_le. lia.
Qed.

Lemma insert_row_perm (r : option Z * V) l :
  Permutation (insert_row r l) (r :: l).
Proof.
  induction l as [|h t IH]; simpl; [reflexivity|].
  destruct (stamp_leb (fst r) (fst h)); [reflexivity|].
  rewrite IH. apply perm_swap.
Qed.

Lemma sort_index_perm (s : list (option Z * V)) :
  Permutation (sort_index s) s.
Proof.
  induction s as [|r t IH]; simpl; [reflexivity|].
  rewrite insert_row_perm. now constructor.
Qed.

Lemma insert_row_sorted (r : option Z * V) l :
  StronglySorted series_le l -> StronglySorted series_le (insert_row r l).
Proof.
  induction 1 as [|h t Hs IH Hall]; simpl.
  - repeat constructor.
  - destruct (stamp_leb (fst r) (fst h)) eqn:E.
    + constructor; [now constructor|].
      constructor; [exact E|].
      eapply Forall_impl; [|exact Hall]. intros x Hx.
      exact (stamp_leb_trans _ _ _ E Hx).
    + constructor; [exact IH|].
      apply (Permutation_Forall (Permutation_sym (insert_row_perm r t))).
      constructor; [exact (stamp_leb_total _ _ E) | exact Hall].
Qed.

Lemma sort_index_sorted (s : list (option Z * V)) :
  StronglySorted series_le (sort_index s).
Proof.
  induction s as [|r t IH]; simpl; [constructor | now apply insert_row_sorted].
Qed.

Lemma dated_rows_In (s : list (option Z * V)) t v :
  In (t, v) (dated_rows s) <-> In (Some t, v) s.
Proof.
  unfold dated_rows. rewrite in_flat_map. split.
  - intros [[[k|] q] [Hin H]]; simpl in H; [|tauto].
    destruct H as [E|[]]. now injection E as -> ->.
  - intros H. exists (Some t, v). split; [exact H | now left].
Qed.

Lemma dated_rows_cons (r : option Z * V) s :
  dated_rows (r :: s) =
  match fst r with
  | Some t => (t, snd r) :: dated_rows s
  | None => dated_rows s
  end.
Proof. destruct r as [[t|] v]; reflexivity. Qed.

Lemma dated_rows_sorted (s : list (option Z * V)) :
  StronglySorted series_le s -> StronglySorted row_le (dated_rows s).
Proof.
  induction 1 as [|[k v] s Hs IH Hall]; [constructor|].
  rewrite dated_rows_cons. simpl fst. destruct k as [t|]; [|exact IH].
  constructor; [exact IH|].
  apply Forall_forall. intros [t' v'] Hin. apply dated_rows_In in Hin.
  rewrite Forall_forall in Hall. specialize (Hall _ Hin).
  unfold series_le in Hall. simpl in Hall. unfold row_le. simpl.
  now apply Z.leb_le.
Qed.

Lemma dated_rows_perm (s s' : list (option Z * V)) :
  Permutation s s' -> Permutation (dated_rows s) (dated_rows s').
Proof. intros H. unfold dated_rows. now apply Permutation_flat_map. Qed.

Lemma last_nonempty_default {A} (l : list A) : forall x d d',
  last (x :: l) d = last (x :: l) d'.
Proof.
  induction l as [|y l IH]; intros x d d'; [reflexivity|].
  change (last (y :: l) d = last (y :: l) d'). apply IH.
Qed.

(** The first row of a sorted list is its least and the last its
    greatest. *)
Lemma sorted_bounds (r0 : Z * V) (rest : list (Z * V)) :
  StronglySorted row_le (r0 :: rest) ->
  Forall (fun row => fst r0 <= fst row <= fst (last (r0 :: rest) r0))
         (r0 :: rest).
Proof.
  revert r0. induction rest as [|r1 rest IH]; intros r0 Hs.
  - repeat constructor; simpl; lia.
  - apply StronglySorted_inv in Hs as [Hs Hall].
    specialize (IH r1 Hs).
    change (last (r0 :: r1 :: rest) r0) with (last (r1 :: rest) r0).
    rewrite (last_nonempty_default rest r1 r0 r1).
    assert (H01 : fst r0 <= fst r1) by (inversion Hall; assumption).
    constructor.
    + inversion IH as [|? ? Hr1 _]; subst. lia.
    + eapply Forall_impl; [|exact IH]. simpl. intros row Hrow. lia.
Qed.



Lemma filter_perm {A} (p : A -> bool) (l l' : list A) :
  Permutation l l' -> Permutation (filter p l) (filter p l').
Proof.
  induction 1 as [|x l l' _ IH|x y l|l l' l'' _ IH1 _ IH2].
  - reflexivity.
  - simpl. destruct (p x); [now constructor | exact IH].
  - simpl. destruct (p x), (p y); try reflexivity. apply perm_swap.
  - now rewrite IH1.
Qed.

End SortedAxis.

(* ================================================================== *)
(** * The bins of [resample] *)

Section Assembly.

Import Resample.

Context {V : Type} {numeric : Numeric V}.

Lemma resample_sum_unfold rule s first v0 rest :
  dated_rows (sort_index s) = (first, v0) :: rest ->
  resample_sum rule s =
  (let values := (first, v0) :: rest in
   let last_t := fst (last values (first, v0)) in
   '(e0, e1) <- timestamp_range_edges rule first last_t ;;
   let binner := date_range rule e0 e1 in
   '(binner, bin_edges) <- adjust_bin_edges rule binner last_t ;;
   bins <- generate_bins (closed rule) values bin_edges ;;
   let labels := match closed rule with
                 | ClosedRight => tl binner
                 | ClosedLeft => binner
                 end in
   let labels := firstn (length bins) labels in
   Ok (combine labels (map (fun g => Kahan.sum (map snd g)) bins))).
Proof.
  intros H. unfold resample_sum. destruct (sort_index s) as [|p l] eqn:E.
  - discriminate.
  - rewrite H. reflexivity.
Qed.

(** The edges of a span in range are timestamps. *)
Lemma span_in_range_edges rule first last_t :
  span_in_range rule first last_t = true ->
  timestamp_range_edges rule first last_t
  = Ok (range_edges rule first last_t).
Proof.
  unfold span_in_range, timestamp_range_edges, to_Timestamp.
  destruct (range_edges rule first last_t) as [e0 e1].
  intros H. apply andb_true_iff in H as [H _].
  apply andb_true_iff in H as [H0 H1]. now rewrite H0, H1.
Qed.

Lemma to_ns_le t t' : to_ns t <= to_ns t' <-> t <= t'.
Proof. unfold to_ns, ns_per_minute. lia. Qed.

Lemma to_ns_lt t t' : to_ns t < to_ns t' <-> t < t'.
Proof. unfold to_ns, ns_per_minute. lia. Qed.

(** The test of the scan against the right edge of the bin of a day. *)
Lemma edge_right_test L (row : Z * V) :
  before_edge ClosedRight (edge_right L) row = (day_of (fst row) <=? L).
Proof.
  unfold before_edge, edge_right.
  pose proof (day_of_le_iff (fst row) L) as H.
  unfold midnight, minutes_per_day, to_ns, ns_per_minute in *.
  destruct (Z.leb_spec (day_of (fst row)) L);
    destruct (Z.leb_spec (fst row * (60 * 1000000000))
                ((L * 1440 + 1440) * (60 * 1000000000) - 1)); try reflexivity; lia.
Qed.

Lemma edge_left_test L (row : Z * V) :
  before_edge ClosedLeft (edge_left L) row = (day_of (fst row) <=? L).
Proof.
  unfold before_edge, edge_left.
  pose proof (day_of_le_iff (fst row) L) as H.
  unfold midnight, minutes_per_day, to_ns, ns_per_minute in *.
  destruct (Z.leb_spec (day_of (fst row)) L);
    destruct (Z.ltb_spec (fst row * (60 * 1000000000))
                ((L + 1) * 1440 * (60 * 1000000000))); try reflexivity; lia.
Qed.

Lemma before_edge_false c e (row : Z * V) :
  before_edge c e row = false -> (to_ns (fst row) <? e) = false.
Proof.
  destruct c; simpl; rewrite ?Z.ltb_ge, ?Z.leb_gt; lia.
Qed.

Lemma before_edge_true c e (row : Z * V) :
  before_edge c e row = true -> (e <? to_ns (fst row)) = false.
Proof.
  destruct c; simpl; rewrite ?Z.ltb_ge, ?Z.leb_le, ?Z.ltb_lt; lia.
Qed.

Lemma combine_map {X Y Z'} (f : X -> Y) (g : X -> Z') (l : list X) :
  combine (map f l) (map g l) = map (fun x => (f x, g x)) l.
Proof. induction l as [|x l IH]; simpl; [reflexivity | now rewrite IH]. Qed.

Lemma second_last_snoc (l : list Z) x y : second_last (l ++ [x; y]) = Some x.
Proof. unfold second_last. rewrite rev_app_distr. reflexivity. Qed.

Section OneRule.

Variable rule : Rule.
Hypothesis B_ge : forall z, z <= bucket_day rule z.
Hypothesis B_stay :
  forall z, z < bucket_day rule z -> bucket_day rule (z + 1) = bucket_day rule z.
Hypothesis step : forall L,
  bucket_day rule L = L ->
  next_on_offset rule (midnight L) = midnight (bucket_day rule (L + 1)).

Local Abbreviation B := (bucket_day rule).

(** [date_range] between two midnights lists the labels between them. *)
Lemma date_range_from_offsets fuel : forall a b,
  B a = a -> (Z.to_nat (b + 1 - a) <= fuel)%nat ->
  date_range_from fuel rule (midnight a) (midnight b)
  = map midnight (offsets B a b).
Proof.
  induction fuel as [|fuel IH]; intros a b Ha Hf.
  - rewrite offsets_empty by lia. reflexivity.
  - cbn [date_range_from].
    destruct (Z.leb_spec (midnight a) (midnight b)) as [Hle|Hgt].
    + apply (proj1 (midnight_le a b)) in Hle.
      rewrite (offsets_cons B B_ge B_stay a b Ha Hle). cbn [map].
      f_equal. rewrite step by assumption.
      pose proof (B_ge (a + 1)).
      apply IH; [apply (B_idem B B_ge B_stay) | lia].
    + rewrite offsets_empty; [reflexivity|].
      unfold midnight, minutes_per_day in Hgt. lia.
Qed.

Lemma date_range_offsets a b :
  B a = a ->
  date_range rule (midnight a) (midnight b) = map midnight (offsets B a b).
Proof.
  intros Ha. unfold date_range. rewrite !day_of_midnight.
  apply date_range_from_offsets; [exact Ha | lia].
Qed.

(** The labels from the bucket of a day to the bucket of a later day end
    with the latter. *)
Lemma offsets_last a b :
  a <= b -> B a = a -> B b = b ->
  offsets B a b = offsets B a (b - 1) ++ [b].
Proof.
  intros Hab Ha Hb.
  pose proof (offsets_snoc B B_ge B_stay a (b - 1) ltac:(lia)) as H.
  replace (b - 1 + 1) with b in H by lia. now rewrite Hb in H.
Qed.

(** The bins that the scan makes between the edges of consecutive
    labels. *)
Lemma generate_bins_offsets c edge low a b first (v0 : V) rest :
  (forall L (row : Z * V),
      before_edge c (edge L) row = (day_of (fst row) <=? L)) ->
  StronglySorted row_le ((first, v0) :: rest) ->
  B low = low -> B (low + 1) = a -> a <= b -> B b = b ->
  low < day_of first ->
  day_of (fst (last ((first, v0) :: rest) (first, v0))) <= b ->
  generate_bins c ((first, v0) :: rest) (map edge (low :: offsets B a b))
  = Ok (map (fun L => filter (in_bucket B L) ((first, v0) :: rest))
            (offsets B a b)).
Proof.
  intros Htest Hs Hlow Ha Hab Hb Hfirst Hlast.
  assert (HBa : B a = a) by (rewrite <- Ha; apply (B_idem B B_ge B_stay)).
  assert (H1 : (to_ns first <? edge low) = false).
  { apply (before_edge_false c _ (first, v0)). rewrite Htest. simpl fst.
    apply Z.leb_gt. lia. }
  assert (H2 : (last (edge low :: map edge (offsets B a b)) (edge low)
                <? to_ns (fst (last ((first, v0) :: rest) (first, v0))))
               = false).
  { rewrite (offsets_last a b) by assumption.
    rewrite map_app. cbn [map].
    change (edge low :: map edge (offsets B a (b - 1)) ++ [edge b])
      with ((edge low :: map edge (offsets B a (b - 1))) ++ [edge b]).
    rewrite last_last.
    apply (before_edge_true c). rewrite Htest. now apply Z.leb_le. }
  unfold generate_bins. cbn [map]. rewrite H1.
  match goal with
  | |- context [Z.ltb ?x ?y] =>
      replace (Z.ltb x y) with false by (symmetry; exact H2)
  end.
  f_equal.
  apply (scan_bins_offsets B B_ge B_stay c edge Htest
           (Z.to_nat (b + 1 - a)) a b low); try assumption; try lia.
  pose proof (sorted_bounds (first, v0) rest Hs) as Hb'.
  eapply Forall_impl; [|exact Hb']. simpl. intros row [Hr _].
  pose proof (day_of_mono _ _ Hr). lia.
Qed.

End OneRule.

(** ** The day *)

Lemma day_ge z : z <= bucket_day D z.
Proof. simpl. lia. Qed.

Lemma day_stay z : z < bucket_day D z -> bucket_day D (z + 1) = bucket_day D z.
Proof. simpl. lia. Qed.

Lemma day_step L :
  bucket_day D L = L ->
  next_on_offset D (midnight L) = midnight (bucket_day D (L + 1)).
Proof. intros _. unfold next_on_offset, bucket_day, midnight. lia. Qed.

Lemma range_edges_D first last_t :
  range_edges D first last_t
  = (midnight (day_of first), midnight (day_of last_t + 1)).
Proof.
  unfold range_edges, midnight, day_of, minutes_per_day.
  f_equal.
  - destruct (Z.ltb_spec 0 ((first - first / 1440 * 1440) mod 1440));
      Z.div_mod_to_equations; lia.
  - destruct (Z.ltb_spec 0 ((last_t - first / 1440 * 1440) mod 1440));
      Z.div_mod_to_equations; lia.
Qed.

Lemma firstn_map_app {X Y} (f : X -> Y) (l : list X) (x : X) n :
  n = length l -> firstn n (map f (l ++ [x])) = map f l.
Proof.
  intros ->. rewrite map_app, firstn_app, length_map, Nat.sub_diag.
  cbn [firstn]. rewrite app_nil_r. rewrite <- (length_map f l).
  apply firstn_all.
Qed.

Lemma edges_D_shift n : forall a b,
  (Z.to_nat (b + 1 - a) <= n)%nat ->
  map (fun x => to_ns (midnight x)) (offsets (bucket_day D) (a + 1) (b + 1))
  = map edge_left (offsets (bucket_day D) a b).
Proof.
  induction n as [|n IH]; intros a b Hn.
  - rewrite !offsets_empty by lia. reflexivity.
  - destruct (Z.le_gt_cases a b) as [Hle|Hgt];
      [|rewrite !offsets_empty by lia; reflexivity].
    rewrite (offsets_cons (bucket_day D) day_ge day_stay (a + 1))
      by (simpl; lia).
    rewrite (offsets_cons (bucket_day D) day_ge day_stay a b) by (simpl; lia).
    cbn [map]. f_equal. apply IH. simpl. lia.
Qed.

Lemma resample_sum_D s first (v0 : V) rest :
  dated_rows (sort_index s) = (first, v0) :: rest ->
  span_in_range D first (fst (last ((first, v0) :: rest) (first, v0))) = true ->
  resample_sum D s =
  Ok (buckets D ((first, v0) :: rest) (day_of first)
        (day_of (fst (last ((first, v0) :: rest) (first, v0))))).
Proof.
  intros Hv Hin. rewrite (resample_sum_unfold D s first v0 rest Hv). cbv zeta.
  rewrite (span_in_range_edges D _ _ Hin). cbn [bindE].
  assert (Hs : StronglySorted row_le ((first, v0) :: rest)).
  { rewrite <- Hv. apply dated_rows_sorted, sort_index_sorted. }
  set (last_t := fst (last ((first, v0) :: rest) (first, v0))).
  set (dmin := day_of first). set (dmax := day_of last_t).
  assert (Hmm : dmin <= dmax).
  { pose proof (sorted_bounds (first, v0) rest Hs) as Hb.
    inversion Hb as [|? ? [_ H] _]; subst. apply day_of_mono. exact H. }
  rewrite range_edges_D. fold dmin dmax.
  rewrite (date_range_offsets D day_ge day_stay day_step) by reflexivity.
  pose proof (offsets_snoc (bucket_day D) day_ge day_stay dmin dmax ltac:(lia))
    as Hsn.
  change (bucket_day D (dmax + 1)) with (dmax + 1) in Hsn. rewrite Hsn.
  cbn [adjust_bin_edges bindE closed].
  set (Ls := offsets (bucket_day D) dmin dmax).
  assert (He : map to_ns (map midnight (Ls ++ [dmax + 1]))
               = map edge_left ((dmin - 1) :: Ls)).
  { unfold Ls. rewrite <- Hsn.
    change (dmax + 1) with (bucket_day D (dmax + 1)).
    rewrite (offsets_cons (bucket_day D) day_ge day_stay dmin)
      by (simpl; lia).
    change (bucket_day D (dmin + 1)) with (dmin + 1).
    cbn [map]. f_equal.
    - unfold edge_left. now replace (dmin - 1 + 1) with dmin by lia.
    - rewrite map_map. apply (edges_D_shift (Z.to_nat (dmax + 1 - dmin))). lia. }
  rewrite He. unfold Ls.
  rewrite (generate_bins_offsets D day_ge day_stay ClosedLeft edge_left
             (dmin - 1) dmin dmax first v0 rest edge_left_test Hs);
    try reflexivity; try (simpl; lia); try (fold last_t; fold dmax; lia);
    try (fold dmin; lia).
  cbn [bindE]. f_equal. rewrite !length_map.
  rewrite firstn_map_app by reflexivity.
  rewrite map_map. apply combine_map.
Qed.

(** ** The week and the month, closed on the right *)

Section RightClosed.

Variable rule : Rule.
Variables prev next : Z -> Z.
Hypothesis B_ge : forall z, z <= bucket_day rule z.
Hypothesis B_stay :
  forall z, z < bucket_day rule z -> bucket_day rule (z + 1) = bucket_day rule z.
Hypothesis rule_closed : closed rule = ClosedRight.
Hypothesis rule_next_on_offset :
  forall t, next_on_offset rule t = midnight (next (day_of t)).
Hypothesis rule_edges : forall first last_t,
  range_edges rule first last_t
  = (midnight (prev (day_of first)), midnight (next (day_of last_t))).
Hypothesis prev_spec : forall z,
  bucket_day rule (prev z) = prev z /\ prev z < z /\
  bucket_day rule (prev z + 1) = bucket_day rule z.
Hypothesis next_spec : forall z,
  next z = if bucket_day rule z =? z then bucket_day rule (z + 1)
           else bucket_day rule z.

Local Abbreviation B := (bucket_day rule).

Lemma right_step L :
  B L = L -> next_on_offset rule (midnight L) = midnight (B (L + 1)).
Proof.
  intros HL. rewrite rule_next_on_offset, day_of_midnight, next_spec, HL.
  now rewrite Z.eqb_refl.
Qed.

Lemma adjust_right binner ax_max :
  forallb (fun b => to_ns (b + minutes_per_day) <=? 2 ^ 63 - 1) binner = true ->
  adjust_bin_edges rule binner ax_max =
  let bin_edges := map (fun b => to_ns (b + minutes_per_day) - 1) binner in
  match second_last bin_edges with
  | Some e =>
      if to_ns ax_max <? e
      then Ok (removelast binner, removelast bin_edges)
      else Ok (binner, bin_edges)
  | None => Raise ValueError
  end.
Proof.
  intros H. unfold adjust_bin_edges. rewrite H.
  destruct rule; [discriminate rule_closed | reflexivity | reflexivity].
Qed.

Lemma adjust_right_overflow binner ax_max :
  forallb (fun b => to_ns (b + minutes_per_day) <=? 2 ^ 63 - 1) binner = false ->
  adjust_bin_edges rule binner ax_max = Raise OverflowError.
Proof.
  intros H. unfold adjust_bin_edges. rewrite H.
  destruct rule; [discriminate rule_closed | reflexivity | reflexivity].
Qed.

(** The day added to the edges stays in range when it does for the last. *)
Lemma labels_in_range P a b :
  P <= b ->
  to_ns (midnight b + minutes_per_day) <= 2 ^ 63 - 1 ->
  forallb (fun e => to_ns (e + minutes_per_day) <=? 2 ^ 63 - 1)
          (map midnight (P :: offsets B a b)) = true.
Proof.
  intros HP Hb. apply forallb_forall. intros e He. apply Z.leb_le.
  apply in_map_iff in He as (z & <- & Hz).
  assert (z <= b).
  { destruct Hz as [<-|Hz]; [exact HP|]. apply offsets_In in Hz. lia. }
  unfold to_ns, midnight, minutes_per_day, ns_per_minute in *. lia.
Qed.

Lemma map_edge_right l :
  map (fun b => to_ns (b + minutes_per_day) - 1) (map midnight l)
  = map edge_right l.
Proof. now rewrite map_map. Qed.

(** A label before the label of the bucket of a day is before that day. *)
Lemma label_before z x : B x = x -> x < B z -> x < z.
Proof.
  intros Hx Hlt. destruct (Z.lt_ge_cases x z) as [|Hge]; [assumption|].
  pose proof (B_upto B B_stay z x ltac:(lia)). lia.
Qed.

(** After [_adjust_bin_edges] the bins are the buckets from the one of the
    first day to the one of the last day, behind the label that precedes
    them. *)
Lemma adjust_right_offsets P dmin dmax last_t :
  B P = P -> P < dmin -> B (P + 1) = B dmin -> dmin <= dmax ->
  day_of last_t = dmax ->
  to_ns (midnight (next dmax) + minutes_per_day) <= 2 ^ 63 - 1 ->
  adjust_bin_edges rule
    (map midnight (P :: offsets B (B dmin) (next dmax))) last_t
  = Ok (map midnight (P :: offsets B (B dmin) (B dmax)),
        map edge_right (P :: offsets B (B dmin) (B dmax))).
Proof.
  intros HP HPlt HP1 Hmm Hlast Hrange.
  pose proof (B_mono B B_ge B_stay dmin dmax Hmm) as HBmm.
  pose proof (B_ge dmax) as Hge.
  assert (HBmin : B (B dmin) = B dmin) by apply (B_idem B B_ge B_stay).
  assert (HBmax : B (B dmax) = B dmax) by apply (B_idem B B_ge B_stay).
  pose proof (midnight_day_of_le last_t) as Hl. rewrite Hlast in Hl.
  assert (Hnext : B dmax <= next dmax).
  { rewrite next_spec. destruct (Z.eqb_spec (B dmax) dmax) as [E|]; [|lia].
    pose proof (B_ge (dmax + 1)). lia. }
  rewrite adjust_right by (apply labels_in_range; [lia | exact Hrange]).
  cbv zeta. rewrite map_edge_right, next_spec.
  destruct (Z.eqb_spec (B dmax) dmax) as [Heq|Hne].
  - (* the last day is a label: one bin too many *)
    rewrite (offsets_snoc B B_ge B_stay (B dmin) dmax) by lia.
    rewrite Heq.
    assert (Hl' : offsets B (B dmin) dmax
                  = offsets B (B dmin) (dmax - 1) ++ [dmax])
      by (apply (offsets_last rule B_ge B_stay); lia).
    rewrite Hl'.
    set (l0 := offsets B (B dmin) (dmax - 1)).
    change (P :: (l0 ++ [dmax]) ++ [B (dmax + 1)])
      with ((P :: l0 ++ [dmax]) ++ [B (dmax + 1)]).
    replace (map edge_right ((P :: l0 ++ [dmax]) ++ [B (dmax + 1)]))
      with (map edge_right (P :: l0) ++ [edge_right dmax; edge_right (B (dmax + 1))])
      by (cbn [map app]; rewrite !map_app, <- app_assoc; reflexivity).
    rewrite second_last_snoc.
    assert (Ht : (to_ns last_t <? edge_right dmax) = true).
    { apply Z.ltb_lt. unfold edge_right, to_ns, ns_per_minute.
      unfold midnight, minutes_per_day in *. lia. }
    rewrite Ht.
    replace (map edge_right (P :: l0) ++ [edge_right dmax; edge_right (B (dmax + 1))])
      with (map edge_right (P :: l0 ++ [dmax]) ++ [edge_right (B (dmax + 1))])
      by (cbn [map app]; rewrite !map_app, <- app_assoc; reflexivity).
    rewrite map_app. cbn [map]. now rewrite !removelast_last.
  - (* the last day is inside its bucket *)
    assert (Hl' : offsets B (B dmin) (B dmax)
                  = offsets B (B dmin) (B dmax - 1) ++ [B dmax])
      by (apply (offsets_last rule B_ge B_stay); lia).
    rewrite Hl'.
    set (l0 := offsets B (B dmin) (B dmax - 1)).
    destruct (exists_last (l := P :: l0) ltac:(discriminate)) as (l1 & x & Hx).
    assert (Hxin : In x (P :: l0)) by (rewrite Hx; apply in_elt).
    assert (Hxlt : x < dmax).
    { destruct Hxin as [<-|Hin]; [lia|].
      apply offsets_In in Hin as [[_ Hle] HBx].
      apply label_before; [exact HBx | lia]. }
    change (P :: l0 ++ [B dmax]) with ((P :: l0) ++ [B dmax]).
    rewrite Hx, <- app_assoc. cbn [app].
    assert (Hsl : second_last (map edge_right (l1 ++ [x; B dmax]))
                  = Some (edge_right x))
      by (rewrite map_app; apply second_last_snoc).
    assert (Ht : (to_ns last_t <? edge_right x) = false).
    { apply Z.ltb_ge. unfold edge_right, to_ns, ns_per_minute.
      unfold midnight, minutes_per_day in *. lia. }
    now rewrite Hsl, Ht.
Qed.

Lemma resample_sum_right s first (v0 : V) rest :
  dated_rows (sort_index s) = (first, v0) :: rest ->
  span_in_range rule first (fst (last ((first, v0) :: rest) (first, v0)))
    = true ->
  resample_sum rule s =
  Ok (buckets rule ((first, v0) :: rest) (day_of first)
        (day_of (fst (last ((first, v0) :: rest) (first, v0))))).
Proof.
  intros Hv Hin. rewrite (resample_sum_unfold rule s first v0 rest Hv). cbv zeta.
  rewrite (span_in_range_edges rule _ _ Hin). cbn [bindE].
  assert (Hrange : to_ns (midnight
                            (next (day_of (fst (last ((first, v0) :: rest)
                                                     (first, v0)))))
                          + minutes_per_day) <= 2 ^ 63 - 1).
  { unfold span_in_range in Hin. rewrite rule_edges, rule_closed in Hin.
    apply andb_true_iff in Hin as [_ Hin]. now apply Z.leb_le. }
  assert (Hs : StronglySorted row_le ((first, v0) :: rest)).
  { rewrite <- Hv. apply dated_rows_sorted, sort_index_sorted. }
  set (last_t := fst (last ((first, v0) :: rest) (first, v0))).
  set (dmin := day_of first). set (dmax := day_of last_t).
  assert (Hmm : dmin <= dmax).
  { pose proof (sorted_bounds (first, v0) rest Hs) as Hb.
    inversion Hb as [|? ? [_ H] _]; subst. apply day_of_mono. exact H. }
  destruct (prev_spec dmin) as (HP & HPlt & HP1).
  pose proof (B_mono B B_ge B_stay dmin dmax Hmm) as HBmm.
  pose proof (B_ge dmax) as Hge.
  assert (Hnext : B dmax <= next dmax).
  { rewrite next_spec. destruct (Z.eqb_spec (B dmax) dmax) as [E|]; [|lia].
    pose proof (B_ge (dmax + 1)). lia. }
  rewrite rule_edges. fold dmin dmax.
  rewrite (date_range_offsets rule B_ge B_stay right_step) by exact HP.
  pose proof (B_ge dmin).
  rewrite (offsets_cons B B_ge B_stay (prev dmin)) by (assumption || lia).
  rewrite HP1.
  rewrite (adjust_right_offsets (prev dmin) dmin dmax last_t)
    by (assumption || reflexivity).
  cbn [bindE]. rewrite rule_closed.
  rewrite (generate_bins_offsets rule B_ge B_stay ClosedRight edge_right
             (prev dmin) (B dmin) (B dmax) first v0 rest edge_right_test Hs);
    try assumption; try (fold dmin; lia); try (fold last_t; fold dmax; lia);
    try apply (B_idem B B_ge B_stay).
  cbn [bindE map tl]. f_equal.
  rewrite firstn_all2 by (rewrite !length_map; lia).
  rewrite map_map. apply combine_map.
Qed.

Lemma resample_sum_raises_right s first (v0 : V) rest :
  dated_rows (sort_index s) = (first, v0) :: rest ->
  span_in_range rule first (fst (last ((first, v0) :: rest) (first, v0)))
    = false ->
  exists e, resample_sum rule s = Raise e.
Proof.
  intros Hv Hout. rewrite (resample_sum_unfold rule s first v0 rest Hv). cbv zeta.
  assert (Hs : StronglySorted row_le ((first, v0) :: rest)).
  { rewrite <- Hv. apply dated_rows_sorted, sort_index_sorted. }
  set (last_t := fst (last ((first, v0) :: rest) (first, v0))) in *.
  set (dmin := day_of first). set (dmax := day_of last_t).
  assert (Hmm : dmin <= dmax).
  { pose proof (sorted_bounds (first, v0) rest Hs) as Hb.
    inversion Hb as [|? ? [_ H] _]; subst. apply day_of_mono. exact H. }
  destruct (prev_spec dmin) as (HP & HPlt & HP1).
  pose proof (B_ge dmax) as Hge.
  assert (Hnext : B dmax <= next dmax /\ B (next dmax) = next dmax).
  { rewrite next_spec. destruct (Z.eqb_spec (B dmax) dmax) as [E|].
    - pose proof (B_ge (dmax + 1)). split; [lia|].
      apply (B_idem B B_ge B_stay).
    - split; [lia | apply (B_idem B B_ge B_stay)]. }
  destruct Hnext as [Hnext HBnext].
  unfold span_in_range in Hout. unfold timestamp_range_edges, to_Timestamp.
  rewrite rule_edges in *. fold dmin dmax in Hout |- *.
  rewrite rule_closed in Hout.
  destruct (in_ns_bounds (midnight (prev dmin))); [|eexists; reflexivity].
  destruct (in_ns_bounds (midnight (next dmax))); [|eexists; reflexivity].
  cbn [andb] in Hout. cbn [bindE].
  rewrite (date_range_offsets rule B_ge B_stay right_step) by exact HP.
  rewrite adjust_right_overflow; [eexists; reflexivity|].
  destruct (forallb _ _) eqn:E; [|reflexivity].
  rewrite forallb_forall in E.
  rewrite <- Hout. symmetry.
  apply (E (midnight (next dmax))). apply in_map.
  apply offsets_In. split; [lia | exact HBnext].
Qed.

End RightClosed.

(** Outside the range the resampling raises. *)
Lemma resample_sum_raises_D s first (v0 : V) rest :
  dated_rows (sort_index s) = (first, v0) :: rest ->
  span_in_range D first (fst (last ((first, v0) :: rest) (first, v0))) = false ->
  exists e, resample_sum D s = Raise e.
Proof.
  intros Hv Hout. rewrite (resample_sum_unfold D s first v0 rest Hv). cbv zeta.
  unfold span_in_range in Hout. unfold timestamp_range_edges, to_Timestamp.
  destruct (range_edges D first _) as [e0 e1]. cbn [closed] in Hout.
  rewrite andb_true_r in Hout.
  destruct (in_ns_bounds e0); [|eexists; reflexivity].
  destruct (in_ns_bounds e1); [discriminate | eexists; reflexivity].
Qed.

Lemma resample_sum_raises rule s first (v0 : V) rest :
  dated_rows (sort_index s) = (first, v0) :: rest ->
  span_in_range rule first (fst (last ((first, v0) :: rest) (first, v0)))
    = false ->
  exists e, resample_sum rule s = Raise e.
Proof.
  destruct rule.
  - apply resample_sum_raises_D.
  - apply (resample_sum_raises_right W (week_apply (-1)) (week_apply 1)
             week_ge week_stay eq_refl).
    + reflexivity.
    + reflexivity.
    + exact week_apply_prev.
    + exact week_apply_next.
  - apply (resample_sum_raises_right M (month_end_apply (-1)) (month_end_apply 1)
             month_ge month_stay eq_refl).
    + reflexivity.
    + reflexivity.
    + exact month_end_apply_prev.
    + exact month_end_apply_next.
Qed.

(** The resampled series, bucket by bucket, for the three rules. *)
Lemma resample_sum_buckets rule s first (v0 : V) rest :
  dated_rows (sort_index s) = (first, v0) :: rest ->
  span_in_range rule first (fst (last ((first, v0) :: rest) (first, v0)))
    = true ->
  resample_sum rule s =
  Ok (buckets rule ((first, v0) :: rest) (day_of first)
        (day_of (fst (last ((first, v0) :: rest) (first, v0))))).
Proof.
  destruct rule.
  - apply resample_sum_D.
  - apply (resample_sum_right W (week_apply (-1)) (week_apply 1)
             week_ge week_stay eq_refl).
    + reflexivity.
    + reflexivity.
    + exact week_apply_prev.
    + exact week_apply_next.
  - apply (resample_sum_right M (month_end_apply (-1)) (month_end_apply 1)
             month_ge month_stay eq_refl).
    + reflexivity.
    + reflexivity.
    + exact month_end_apply_prev.
    + exact month_end_apply_next.
Qed.

End Assembly.

(* ================================================================== *)
(** * The trend: what [resample(rule).sum()] returns *)

Section Trend.

Import Resample.

Context {V : Type} {numeric : Numeric V}.

Lemma bucket_day_ge rule z : z <= bucket_day rule z.
Proof. destruct rule; [apply day_ge | apply week_ge | apply month_ge]. Qed.

Lemma bucket_day_stay rule z :
  z < bucket_day rule z -> bucket_day rule (z + 1) = bucket_day rule z.
Proof. destruct rule; [apply day_stay | apply week_stay | apply month_stay]. Qed.





Lemma midnight_inj a b : midnight a = midnight b -> a = b.
Proof. unfold midnight, minutes_per_day. lia. Qed.

Lemma stamps_perm (s s' : list (option Z * V)) :
  Permutation s s' -> Permutation (stamps s) (stamps s').
Proof. intros H. unfold stamps. now apply Permutation_map, dated_rows_perm. Qed.

(** The sorted axis of a series that has a dated row. *)
Lemma sorted_axis_nonempty (s : list (option Z * V)) :
  dated_rows s <> [] ->
  exists first v0 rest, dated_rows (sort_index s) = (first, v0) :: rest.
Proof.
  intros Hne. destruct (dated_rows (sort_index s)) as [|[first v0] rest] eqn:E.
  - exfalso. apply Hne. apply Permutation_nil.
    rewrite <- E. apply dated_rows_perm, sort_index_perm.
  - now exists first, v0, rest.
Qed.

(** The series of the buckets, from the bucket of the earliest timestamp to
    the bucket of the latest, when the edges of that span are in range; an
    exception otherwise. *)
Lemma resample_sum_summary rule (s : list (option Z * V)) :
  dated_rows s <> [] ->
  exists tmin tmax,
    In tmin (stamps s) /\ In tmax (stamps s) /\
    Forall (fun t => tmin <= t <= tmax) (stamps s) /\
    (span_in_range rule tmin tmax = true ->
     resample_sum rule s =
     Ok (buckets rule (chronological s) (day_of tmin) (day_of tmax))) /\
    (span_in_range rule tmin tmax = false ->
     exists e, resample_sum rule s = Raise e).
Proof.
  intros Hne. destruct (sorted_axis_nonempty s Hne) as (first & v0 & rest & E).
  assert (Hs : StronglySorted row_le ((first, v0) :: rest))
    by (rewrite <- E; apply dated_rows_sorted, sort_index_sorted).
  pose proof (sorted_bounds (first, v0) rest Hs) as Hb.
  assert (Hp : Permutation (stamps (sort_index s)) (stamps s))
    by apply stamps_perm, sort_index_perm.
  exists first, (fst (last ((first, v0) :: rest) (first, v0))).
  split; [|split; [|split; [|split]]].
  - apply (Permutation_in _ Hp). unfold stamps. rewrite E. now left.
  - apply (Permutation_in _ Hp). unfold stamps. rewrite E.
    apply in_map. destruct (exists_last (l := (first, v0) :: rest)
                              ltac:(discriminate)) as (l' & x & ->).
    rewrite last_last. apply in_elt.
  - apply (Permutation_Forall Hp). unfold stamps. rewrite E.
    apply Forall_map. exact Hb.
  - intros Hin. unfold chronological. rewrite E.
    now apply resample_sum_buckets.
  - intros Hout. now apply (resample_sum_raises rule s first v0 rest).
Qed.

(** The rows of a bin are the rows whose timestamp falls in its bucket. *)
Lemma bucket_values_in_bucket rule L (s : list (option Z * V)) :
  map snd (filter (in_bucket (bucket_day rule) L) (chronological s))
  = bucket_values rule (midnight L) s.
Proof.
  unfold bucket_values. f_equal. apply filter_ext.
  intros row. unfold in_bucket, bucket_label.
  destruct (Z.eqb_spec (bucket_day rule (day_of (fst row))) L) as [->|Hn].
  - symmetry. apply Z.eqb_refl.
  - symmetry. apply Z.eqb_neq. intros H. apply midnight_inj in H. contradiction.
Qed.


(** The labels of the span are the labels of the buckets of its days. *)
Lemma span_labels rule dmin dmax Ld :
  dmin <= dmax ->
  (bucket_day rule dmin <= Ld <= bucket_day rule dmax /\ bucket_day rule Ld = Ld
   <-> exists z, dmin <= z <= dmax /\ Ld = bucket_day rule z).
Proof.
  intros Hmm.
  pose proof (bucket_day_ge rule) as Hge.
  pose proof (bucket_day_stay rule) as Hstay.
  split.
  - intros [[H1 H2] H3].
    destruct (Z.le_gt_cases Ld dmax) as [Hle|Hgt].
    + exists Ld. pose proof (Hge dmin). split; [lia | now rewrite H3].
    + exists dmax. split; [lia|].
      rewrite <- H3. apply (B_upto _ Hstay). lia.
  - intros (z & Hz & ->). split.
    + split; apply (B_mono _ Hge Hstay); lia.
    + apply (B_idem _ Hge Hstay).
Qed.

Lemma lookup_buckets rule (values : list (Z * V)) dmin dmax Ld :
  bucket_day rule dmin <= Ld <= bucket_day rule dmax ->
  bucket_day rule Ld = Ld ->
  lookup (midnight Ld) (buckets rule values dmin dmax)
  = Some (Kahan.sum (map snd (filter (in_bucket (bucket_day rule) Ld) values))).
Proof.
  intros Hr HL. unfold buckets.
  assert (Hin : In Ld (offsets (bucket_day rule) (bucket_day rule dmin)
                         (bucket_day rule dmax))) by now apply offsets_In.
  induction (offsets (bucket_day rule) (bucket_day rule dmin)
               (bucket_day rule dmax)) as [|x l IH]; [destruct Hin|].
  cbn [map lookup]. destruct (Z.eqb_spec (midnight x) (midnight Ld)) as [E|Hn].
  - apply midnight_inj in E. now subst.
  - destruct Hin as [->|Hin]; [contradiction | now apply IH].
Qed.

End Trend.

(* ================================================================== *)
(** * The loaded table: its columns *)

Section LoadedTable.

Local Open Scope string_scope.

Lemma filter_named_cons name n c cols :
  filter (named name) ((n, c) :: cols) =
  if String.eqb n name then (n, c) :: filter (named name) cols
  else filter (named name) cols.
Proof. reflexivity. Qed.

Lemma filter_named_absent name cols :
  ~ In name (map fst cols) -> filter (named name) cols = [].
Proof.
  induction cols as [|[n c] cols IH]; intros H; [reflexivity|].
  rewrite filter_named_cons. simpl in H.
  destruct (String.eqb_spec n name); [tauto | apply IH; tauto].
Qed.

Lemma filter_named_rename_other name old new cols :
  name <> old -> name <> new ->
  filter (named name)
         (map (fun '(n, c) => (if String.eqb n old then new else n, c)) cols)
  = filter (named name) cols.
Proof.
  intros Ho Hn. induction cols as [|[n c] cols IH]; [reflexivity|].
  cbn [map]. rewrite !filter_named_cons, IH.
  destruct (String.eqb_spec n old) as [->|Hne].
  - destruct (String.eqb_spec new name); [congruence|].
    destruct (String.eqb_spec old name); [congruence | reflexivity].
  - reflexivity.
Qed.

Lemma filter_named_remove_other name name' cols :
  name <> name' ->
  filter (named name)
         (filter (fun nc => negb (String.eqb (fst nc) name')) cols)
  = filter (named name) cols.
Proof.
  intros Hne. induction cols as [|[n c] cols IH]; [reflexivity|].
  cbn [filter fst]. rewrite <- IH.
  destruct (String.eqb_spec n name') as [->|Hn]; cbn [negb].
  - fold (named name (name', c)). unfold named at 2. cbn [fst].
    destruct (String.eqb_spec name' name); [congruence | reflexivity].
  - reflexivity.
Qed.

(** The steps of a load that succeeds. *)
Lemma load_try_inv raw df :
  load_try (Csv raw) = Ok df ->
  exists c,
    getitem (rename "Date-Hour(NMT)" "DATE_TIME" raw) "DATE_TIME"
      = Ok (SelSeries c) /\
    df = mk_df (DatetimeIndex (to_datetime_column c))
           (filter (fun nc => negb (String.eqb (fst nc) "DATE_TIME"))
              (setitem_cols "HOUR"
                 (IntCol (map (option_map dt_hour) (to_datetime_column c)))
                 (setitem_cols "DATE"
                    (DateCol (map (option_map dt_date) (to_datetime_column c)))
                    (setitem_cols "DATE_TIME"
                       (DatetimeCol (to_datetime_column c))
                       (columns (rename "Date-Hour(NMT)" "DATE_TIME" raw)))))).
Proof.
  unfold load_try. simpl read_csv. cbn [bindE].
  destruct (getitem (rename "Date-Hour(NMT)" "DATE_TIME" raw) "DATE_TIME")
    as [[c|cs]|e] eqn:E; cbn [bindE pd_to_datetime]; try discriminate.
  intros H. exists c. split; [reflexivity|].
  destruct (getitem_series_inv _ _ _ E) as [n Hf].
  unfold set_index in H. rewrite getitem_filter in H.
  unfold setitem in H; simpl columns in H.
  rewrite !filter_named_setitem_other in H by discriminate.
  rewrite (filter_named_setitem_same _ _ _ _ _ Hf) in H.
  simpl snd in H. injection H as <-. reflexivity.
Qed.

Lemma load_success_inv raw df :
  load_and_process_data (Csv raw) = (df, []) -> load_try (Csv raw) = Ok df.
Proof.
  unfold load_and_process_data.
  destruct (load_try (Csv raw)) as [df'|[]]; intros H; try discriminate.
  now injection H as ->.
Qed.

(** X1.  A load that succeeds leaves every column of the file as it was
    read, apart from the timestamp column and from columns named DATE or
    HOUR, which the loader overwrites. *)
Theorem load_keeps_other_columns :
  forall raw df name,
    load_and_process_data (Csv raw) = (df, []) ->
    ~ In name loader_names ->
    getitem df name = getitem raw name.
Proof.
  intros raw df name H Hn. apply load_success_inv, load_try_inv in H.
  destruct H as (c & _ & ->).
  assert (H1 : name <> "Date-Hour(NMT)") by (intros ->; apply Hn; simpl; tauto).
  assert (H2 : name <> "DATE_TIME") by (intros ->; apply Hn; simpl; tauto).
  assert (H3 : name <> "DATE") by (intros ->; apply Hn; simpl; tauto).
  assert (H4 : name <> "HOUR") by (intros ->; apply Hn; simpl; tauto).
  rewrite !getitem_filter. simpl columns.
  rewrite filter_named_remove_other by assumption.
  rewrite !filter_named_setitem_other by congruence.
  now rewrite filter_named_rename_other by assumption.
Qed.

Lemma load_keeps_other_columns_witness :
  getitem (fst (load_and_process_data (Csv raw_example))) "SystemProduction"
  = Ok (SelSeries (NumCol [Float64.of_Z 3; Float64.of_Z 4])).
Proof.
  assert (Hn : ~ In "SystemProduction" loader_names)
    by (simpl; intros [H|[H|[H|[H|[]]]]]; discriminate).
  exact (eq_trans
           (load_keeps_other_columns raw_example
              (fst (load_and_process_data (Csv raw_example)))
              "SystemProduction" eq_refl Hn)
           eq_refl).
Defined.

(** ** Two timestamp headers *)

Lemma renamed_count_one old new cols x :
  (x = old \/ x = new) -> In x (map fst cols) ->
  (1 <= length (filter (named new)
                  (map (fun '(n, c) => (if String.eqb n old then new else n, c))
                       cols)))%nat.
Proof.
  intros Hx. induction cols as [|[n c] cols IH]; [intros []|].
  cbn [map fst In]. rewrite filter_named_cons. intros [->|Hin].
  - destruct (String.eqb_spec x old) as [->|Hne].
    + rewrite String.eqb_refl. cbn [length]. lia.
    + destruct Hx as [-> | ->]; [contradiction|].
      rewrite String.eqb_refl. cbn [length]. lia.
  - specialize (IH Hin).
    destruct (String.eqb (if String.eqb n old then new else n) new);
      cbn [length]; lia.
Qed.

Lemma renamed_count_two old new cols :
  old <> new ->
  In old (map fst cols) -> In new (map fst cols) ->
  (2 <= length (filter (named new)
                  (map (fun '(n, c) => (if String.eqb n old then new else n, c))
                       cols)))%nat.
Proof.
  intros Hne. induction cols as [|[n c] cols IH]; [intros []|].
  cbn [map fst In]. rewrite filter_named_cons. intros Ho Hn.
  destruct (String.eqb_spec n old) as [->|Hno].
  - rewrite String.eqb_refl. cbn [length].
    destruct Hn as [Hn|Hn]; [congruence|].
    pose proof (renamed_count_one old new cols new (or_intror eq_refl) Hn). lia.
  - destruct (String.eqb_spec n new) as [->|Hnn].
    + cbn [length]. destruct Ho as [Ho|Ho]; [congruence|].
      pose proof (renamed_count_one old new cols old (or_introl eq_refl) Ho).
      lia.
    + apply IH; [destruct Ho | destruct Hn]; congruence.
Qed.

(** X3.  A file whose header has both [Date-Hour(NMT)] and [DATE_TIME] ends,
    after the renaming, with two columns named [DATE_TIME]; the conversion
    of the pair raises, and the loader answers with the general failure
    message and the empty table. *)
Theorem two_timestamp_headers_fail :
  forall raw,
    In "Date-Hour(NMT)" (column_names raw) ->
    In "DATE_TIME" (column_names raw) ->
    load_and_process_data (Csv raw) = (pd_DataFrame, [LoadFailedMessage]).
Proof.
  intros raw H1 H2.
  pose proof (renamed_count_two "Date-Hour(NMT)" "DATE_TIME" (columns raw)
                ltac:(discriminate) H1 H2) as Hc.
  unfold load_and_process_data, load_try. simpl read_csv. cbn [bindE].
  rewrite getitem_filter. unfold rename at 1. simpl columns.
  destruct (filter (named "DATE_TIME") _) as [|x [|y l]];
    simpl in Hc; try lia.
  reflexivity.
Qed.

Lemma two_timestamp_headers_fail_witness :
  load_and_process_data (Csv raw_both_headers)
  = (pd_DataFrame, [LoadFailedMessage]).
Proof.
  apply two_timestamp_headers_fail; simpl; tauto.
Defined.

(** ** The derived columns *)

Lemma setitem_cols_names name c cols :
  In name (map fst cols) ->
  map fst (setitem_cols name c cols) = map fst cols.
Proof.
  induction cols as [|[n c'] cols IH]; simpl; [tauto|].
  destruct (String.eqb_spec n name) as [->|Hne]; [reflexivity|].
  intros [H|H]; [contradiction|]. simpl. now rewrite IH.
Qed.

Lemma setitem_cols_new name c cols :
  ~ In name (map fst cols) ->
  setitem_cols name c cols = (cols ++ [(name, c)])%list.
Proof.
  induction cols as [|[n c'] cols IH]; simpl; [reflexivity|].
  intros H. destruct (String.eqb_spec n name) as [->|Hne]; [tauto|].
  now rewrite IH by tauto.
Qed.

Lemma setitem_cols_NoDup name c cols :
  NoDup (map fst cols) -> NoDup (map fst (setitem_cols name c cols)).
Proof.
  intros H. destruct (in_dec string_dec name (map fst cols)) as [Hin|Hnin].
  - now rewrite setitem_cols_names.
  - rewrite setitem_cols_new, map_app by assumption. simpl.
    apply NoDup_app; [assumption | |].
    + repeat constructor. simpl. tauto.
    + intros x Hx [<-|[]]. contradiction.
Qed.

(** Under distinct names, the column written under a name is the one read
    under it. *)
Lemma filter_named_setitem_NoDup name c cols :
  NoDup (map fst cols) ->
  filter (named name) (setitem_cols name c cols) = [(name, c)].
Proof.
  induction cols as [|[n c'] cols IH]; intros Hnd.
  - simpl. unfold named. simpl. now rewrite String.eqb_refl.
  - simpl in Hnd. apply NoDup_cons_iff in Hnd as [Hn Hnd]. cbn [setitem_cols].
    destruct (String.eqb_spec n name) as [->|Hne].
    + rewrite filter_named_cons, String.eqb_refl.
      now rewrite filter_named_absent.
    + rewrite filter_named_cons.
      destruct (String.eqb_spec n name); [contradiction | now apply IH].
Qed.

Lemma rename_NoDup old new names :
  NoDup names -> ~ (In old names /\ In new names) ->
  NoDup (map (fun n => if String.eqb n old then new else n) names).
Proof.
  induction names as [|n names IH]; intros Hnd Hno; [constructor|].
  apply NoDup_cons_iff in Hnd as [Hn Hnd]. cbn [map].
  constructor.
  - intros Hin. apply in_map_iff in Hin as (n' & E & Hin').
    cbn [In] in Hno.
    destruct (String.eqb_spec n old) as [E1|H1];
      destruct (String.eqb_spec n' old) as [E2|H2].
    + apply Hn. now rewrite E1, <- E2.
    + apply Hno. split; [left; exact E1 | right; now rewrite <- E].
    + apply Hno. split; [right; now rewrite <- E2 | left; now rewrite <- E].
    + apply Hn. now rewrite <- E.
  - apply IH; [exact Hnd|]. simpl in Hno. tauto.
Qed.

Lemma rename_names old new df :
  column_names (rename old new df)
  = map (fun n => if String.eqb n old then new else n) (column_names df).
Proof.
  unfold column_names, rename. simpl columns. rewrite !map_map.
  apply map_ext. now intros [n c].
Qed.

Lemma dt_hour_range t : 0 <= dt_hour t <= 23.
Proof.
  unfold dt_hour, minutes_per_day.
  pose proof (Z.mod_pos_bound t 1440 ltac:(lia)).
  split; [apply Z.div_pos; lia|].
  enough (t mod 1440 / 60 < 24) by lia. apply Z.div_lt_upper_bound; lia.
Qed.

Lemma loaded_derived_columns raw df :
  NoDup (column_names raw) ->
  load_and_process_data (Csv raw) = (df, []) ->
  getitem df "HOUR"
    = Ok (SelSeries (IntCol (map (option_map dt_hour) (index_labels df)))) /\
  getitem df "DATE"
    = Ok (SelSeries (DateCol (map (option_map dt_date) (index_labels df)))) /\
  hour_column df = map (option_map dt_hour) (index_labels df) /\
  Forall hour_ok (hour_column df).
Proof.
  intros Hnd H. pose proof H as H0.
  apply load_success_inv, load_try_inv in H. destruct H as (c & Hc & ->).
  set (stamps := to_datetime_column c) in *.
  set (cols0 := columns (rename "Date-Hour(NMT)" "DATE_TIME" raw)) in *.
  assert (Hnd0 : NoDup (map fst cols0)).
  { change (map fst cols0)
      with (column_names (rename "Date-Hour(NMT)" "DATE_TIME" raw)).
    rewrite rename_names. apply rename_NoDup; [exact Hnd|].
    intros [H1 H2].
    pose proof (two_timestamp_headers_fail raw H1 H2) as Hf.
    rewrite Hf in H0. discriminate. }
  assert (Hnd1 : NoDup (map fst (setitem_cols "DATE_TIME" (DatetimeCol stamps)
                                   cols0)))
    by now apply setitem_cols_NoDup.
  assert (Hnd2 : NoDup (map fst
                          (setitem_cols "DATE"
                             (DateCol (map (option_map dt_date) stamps))
                             (setitem_cols "DATE_TIME" (DatetimeCol stamps)
                                cols0))))
    by now apply setitem_cols_NoDup.
  assert (HH : getitem
                 (mk_df (DatetimeIndex stamps)
                    (filter (fun nc => negb (String.eqb (fst nc) "DATE_TIME"))
                       (setitem_cols "HOUR"
                          (IntCol (map (option_map dt_hour) stamps))
                          (setitem_cols "DATE"
                             (DateCol (map (option_map dt_date) stamps))
                             (setitem_cols "DATE_TIME" (DatetimeCol stamps)
                                cols0))))) "HOUR"
               = Ok (SelSeries (IntCol (map (option_map dt_hour) stamps)))).
  { rewrite getitem_filter. simpl columns.
    rewrite filter_named_remove_other by discriminate.
    now rewrite filter_named_setitem_NoDup. }
  split; [exact HH|]. split; [|split].
  - rewrite getitem_filter. simpl columns.
    rewrite filter_named_remove_other by discriminate.
    rewrite filter_named_setitem_other by discriminate.
    now rewrite filter_named_setitem_NoDup.
  - unfold hour_column. now rewrite HH.
  - unfold hour_column. rewrite HH. simpl index_labels.
    apply Forall_map. apply Forall_forall. intros [t|] _; simpl; [|exact I].
    apply dt_hour_range.
Qed.

(** X2.  In a table loaded from a file whose column names are distinct, the
    HOUR column holds, row by row, the hour of the row's timestamp, between
    0 and 23, and the DATE column its calendar date; both are missing
    exactly in the rows whose timestamp is [NaT]. *)
Theorem load_derives_date_and_hour :
  forall raw df,
    NoDup (column_names raw) ->
    load_and_process_data (Csv raw) = (df, []) ->
    getitem df "HOUR"
      = Ok (SelSeries (IntCol (map (option_map dt_hour) (index_labels df)))) /\
    getitem df "DATE"
      = Ok (SelSeries (DateCol (map (option_map dt_date) (index_labels df)))) /\
    hour_column df = map (option_map dt_hour) (index_labels df) /\
    Forall hour_ok (hour_column df).
Proof. exact loaded_derived_columns. Qed.

Lemma load_derives_date_and_hour_witness :
  hour_column (fst (load_and_process_data (Csv raw_example))) = [Some 10; None].
Proof.
  assert (Hnd : NoDup (column_names raw_example)).
  { repeat constructor; simpl; intuition discriminate. }
  exact (proj1 (proj2 (proj2
           (load_derives_date_and_hour raw_example _ Hnd eq_refl)))).
Defined.

(** ** The selections on a loaded table *)

Lemma getitem_series_In df name c :
  getitem df name = Ok (SelSeries c) ->
  In (name, c) (columns df) /\
  forall c', In (name, c') (columns df) -> c' = c.
Proof.
  intros H. destruct (getitem_series_inv _ _ _ H) as [n Hf].
  assert (Hin : In (n, c) (filter (named name) (columns df)))
    by (rewrite Hf; now left).
  apply filter_In in Hin as [Hin E]. unfold named in E. simpl in E.
  apply String.eqb_eq in E. subst n. split; [exact Hin|].
  intros c' Hc'.
  assert (Hin' : In (name, c') (filter (named name) (columns df))).
  { apply filter_In. split; [exact Hc'|]. unfold named. simpl.
    apply String.eqb_refl. }
  rewrite Hf in Hin'. destruct Hin' as [E|[]]. now injection E.
Qed.

Lemma correlation_col_some df :
  numeric_cols df <> [] -> correlation_col df <> None.
Proof.
  intros Hne. unfold correlation_col, default_col_index, selectbox_default.
  destruct (existsb (String.eqb "Radiation") (numeric_cols df)) eqn:E.
  - apply existsb_eqb_In in E. now rewrite nth_error_list_index.
  - destruct (numeric_cols df); [contradiction | discriminate].
Qed.

(** X9.  On a table loaded from a file whose column names are distinct, the
    derived HOUR column is among the numeric columns offered for the
    correlation and the derived DATE column is not, so that the selection
    always has a default; neither derived column is a candidate generation
    column. *)
Theorem loaded_table_selections :
  forall raw df,
    NoDup (column_names raw) ->
    load_and_process_data (Csv raw) = (df, []) ->
    In "HOUR" (numeric_cols df) /\
    ~ In "DATE" (numeric_cols df) /\
    correlation_col df <> None /\
    ~ In "DATE" (generation_cols df) /\
    ~ In "HOUR" (generation_cols df).
Proof.
  intros raw df Hnd H.
  destruct (loaded_derived_columns raw df Hnd H) as (HH & HD & _ & _).
  apply getitem_series_In in HH as [HHin _].
  apply getitem_series_In in HD as [_ HDuniq].
  assert (Hhour : In "HOUR" (numeric_cols df)).
  { unfold numeric_cols. apply in_map_iff.
    exists ("HOUR", IntCol (map (option_map dt_hour) (index_labels df))).
    split; [reflexivity|]. apply filter_In. now split. }
  split; [exact Hhour|]. split; [|split; [|split]].
  - unfold numeric_cols. intros Hin.
    apply in_map_iff in Hin as ([n c] & E & Hin). simpl in E. subst n.
    apply filter_In in Hin as [Hin Hnum]. rewrite (HDuniq c Hin) in Hnum.
    discriminate.
  - apply correlation_col_some. intros E. now rewrite E in Hhour.
  - unfold generation_cols. intros Hin. apply filter_In in Hin as [_ E].
    discriminate.
  - unfold generation_cols. intros Hin. apply filter_In in Hin as [_ E].
    discriminate.
Qed.

Lemma loaded_table_selections_witness :
  In "HOUR" (numeric_cols (fst (load_and_process_data (Csv raw_example)))) /\
  correlation_col (fst (load_and_process_data (Csv raw_example)))
    = Some "SystemProduction".
Proof.
  assert (Hnd : NoDup (column_names raw_example)).
  { repeat constructor; simpl; intuition discriminate. }
  split.
  - exact (proj1 (loaded_table_selections raw_example _ Hnd eq_refl)).
  - reflexivity.
Defined.

End LoadedTable.

(* ================================================================== *)
(** * The date filter on sorted and on unsorted tables *)

Section DateFilterCases.

Import Loc.

Lemma index_labels_slice_frame i j df :
  index_labels (slice_frame i j df) = slice i j (index_labels df).
Proof.
  unfold slice_frame, index_labels. simpl index.
  destruct (index df) as [n|l]; [|reflexivity].
  unfold slice. now destruct (j - i)%nat, i.
Qed.

Lemma df_filtered_bounds df d0 d1 :
  is_monotonic_increasing (index_labels df) = true ->
  df_filtered df [d0; d1] =
  Ok (slice_frame
        (length (filter (label_lt (midnight d0)) (index_labels df)))
        (length (filter (label_le (midnight d1)) (index_labels df))) df).
Proof.
  intros Hm. unfold df_filtered, loc, slice_locs.
  now rewrite !get_slice_bound_monotonic by exact Hm.
Qed.



Lemma filter_length_le {A} (p q : A -> bool) (l : list A) :
  (forall x, p x = true -> q x = true) ->
  (length (filter p l) <= length (filter q l))%nat.
Proof.
  intros H. induction l as [|x l IH]; simpl; [lia|].
  destruct (p x) eqn:Ep.
  - rewrite (H x Ep). simpl. lia.
  - destruct (q x); simpl; lia.
Qed.







End DateFilterCases.

(* ================================================================== *)
(** * The trend: properties of the resampled series *)

Section TrendProperties.

Import Resample.

Context {V : Type} {numeric : Numeric V}.


(** A series without a dated row resamples to nothing, when it resamples at
    all. *)
Lemma resample_sum_undated rule (s : list (option Z * V)) out :
  dated_rows s = [] -> resample_sum rule s = Ok out -> out = [].
Proof.
  intros Hd. unfold resample_sum.
  destruct (sort_index s) as [|p l] eqn:E.
  - intros H. now injection H.
  - assert (Hn : dated_rows (p :: l) = []).
    { apply Permutation_nil. rewrite <- Hd, <- E.
      apply dated_rows_perm, Permutation_sym, sort_index_perm. }
    rewrite Hn. discriminate.
Qed.

Lemma zrange_n_sorted n : forall a, StronglySorted Z.lt (zrange_n n a).
Proof.
  induction n as [|n IH]; intros a; simpl; constructor; [apply IH|].
  apply Forall_forall. intros z Hz. apply zrange_n_In in Hz. lia.
Qed.

Lemma offsets_sorted B a b : StronglySorted Z.lt (offsets B a b).
Proof. unfold offsets, zrange. apply StronglySorted_filter, zrange_n_sorted. Qed.

Lemma sorted_lt_NoDup l : StronglySorted Z.lt l -> NoDup l.
Proof.
  induction 1 as [|x l Hs IH Hall]; constructor; [|exact IH].
  intros Hin. rewrite Forall_forall in Hall. specialize (Hall x Hin). lia.
Qed.

Lemma sorted_lt_map_midnight l :
  StronglySorted Z.lt l -> StronglySorted Z.lt (map midnight l).
Proof.
  induction 1 as [|x l Hs IH Hall]; simpl; constructor; [exact IH|].
  apply Forall_map. eapply Forall_impl; [|exact Hall]. simpl.
  intros z Hz. unfold midnight, minutes_per_day. lia.
Qed.

Lemma buckets_labels rule (values : list (Z * V)) dmin dmax :
  map fst (buckets rule values dmin dmax)
  = map midnight (offsets (bucket_day rule) (bucket_day rule dmin)
                    (bucket_day rule dmax)).
Proof. unfold buckets. rewrite map_map. reflexivity. Qed.

(** What the resampling returns, when it returns. *)
Lemma resample_sum_Ok rule (s : list (option Z * V)) out :
  resample_sum rule s = Ok out -> dated_rows s <> [] ->
  exists tmin tmax,
    In tmin (stamps s) /\ In tmax (stamps s) /\
    Forall (fun t => tmin <= t <= tmax) (stamps s) /\
    out = buckets rule (chronological s) (day_of tmin) (day_of tmax).
Proof.
  intros H Hne.
  destruct (resample_sum_summary rule s Hne)
    as (tmin & tmax & Hmin & Hmax & Hall & Hin & Hout).
  exists tmin, tmax. repeat (split; [assumption|]).
  destruct (span_in_range rule tmin tmax) eqn:E.
  - rewrite (Hin eq_refl) in H. now injection H.
  - destruct (Hout eq_refl) as [e He]. rewrite He in H. discriminate.
Qed.


(** X10.  Whatever the order of the rows of the table, the resampled series
    is in chronological order and no label occurs twice. *)
Theorem trend_is_chronological :
  forall rule s out,
    resample_sum rule s = Ok out -> StronglySorted Z.lt (map fst out).
Proof.
  intros rule s out H.
  destruct (dated_rows s) as [|r rs] eqn:E.
  - rewrite (resample_sum_undated rule s out E H). constructor.
  - destruct (resample_sum_Ok rule s out H) as (tmin & tmax & _ & _ & _ & ->).
    { rewrite E. discriminate. }
    rewrite buckets_labels.
    apply sorted_lt_map_midnight, offsets_sorted.
Qed.

(** The label of the bucket of a timestamp is the label of its period. *)
Lemma bucket_label_position rule t : bucket_label rule t = period_label rule t.
Proof.
  destruct rule.
  - reflexivity.
  - unfold period_label, bucket_label, period_start, bucket_day, midnight,
      minutes_per_day.
    lia.
  - unfold period_label, bucket_label, period_start, bucket_day, month_length.
    destruct (Calendar.civil_from_days (day_of t)) as [[y m] d].
    rewrite (days_from_civil_day y m 1 (Calendar.days_in_month y m)).
    unfold midnight, minutes_per_day. lia.
Qed.

Lemma stamps_In_rows (s : list (option Z * V)) t x :
  In (Some t, x) s -> In t (stamps s).
Proof.
  intros H. unfold stamps. apply in_map_iff. exists (t, x).
  split; [reflexivity | now apply dated_rows_In].
Qed.

Lemma chronological_In (s : list (option Z * V)) t x :
  In (t, x) (chronological s) <-> In (Some t, x) s.
Proof.
  unfold chronological. rewrite dated_rows_In. split; intros H.
  - apply (Permutation_in _ (sort_index_perm s)). exact H.
  - apply (Permutation_in _ (Permutation_sym (sort_index_perm s))). exact H.
Qed.

(** The entry of the bucket of a row. *)
Lemma resample_sum_entry rule (s : list (option Z * V)) out t x :
  resample_sum rule s = Ok out -> In (Some t, x) s ->
  lookup (bucket_label rule t) out
  = Some (Kahan.sum (bucket_values rule (bucket_label rule t) s)) /\
  In x (bucket_values rule (bucket_label rule t) s).
Proof.
  intros H Hin.
  assert (Hne : dated_rows s <> []).
  { intros E. apply dated_rows_In in Hin. now rewrite E in Hin. }
  destruct (resample_sum_Ok rule s out H Hne)
    as (tmin & tmax & Hmin & Hmax & Hall & ->).
  rewrite Forall_forall in Hall.
  pose proof (Hall t (stamps_In_rows s t x Hin)) as Ht.
  pose proof (day_of_mono tmin t ltac:(lia)).
  pose proof (day_of_mono t tmax ltac:(lia)).
  split.
  - unfold bucket_label at 1.
    rewrite lookup_buckets.
    + now rewrite bucket_values_in_bucket.
    + split; apply (B_mono _ (bucket_day_ge rule) (bucket_day_stay rule)); lia.
    + apply (B_idem _ (bucket_day_ge rule) (bucket_day_stay rule)).
  - unfold bucket_values. apply in_map_iff. exists (t, x).
    split; [reflexivity|]. apply filter_In.
    split; [now apply chronological_In | apply Z.eqb_refl].
Qed.

(** Two timestamps are in one bucket when their periods start at the same
    instant. *)
Lemma same_period rule t t' :
  (bucket_label rule t' =? bucket_label rule t)
  = (period_start rule t' =? period_start rule t).
Proof.
  destruct rule.
  - reflexivity.
  - unfold bucket_label, period_start, bucket_day, midnight, minutes_per_day.
    destruct (Z.eqb_spec ((day_of t' + (6 - Calendar.weekday (day_of t'))) * 1440)
                ((day_of t + (6 - Calendar.weekday (day_of t))) * 1440));
      destruct (Z.eqb_spec ((day_of t' - Calendar.weekday (day_of t')) * 1440)
                  ((day_of t - Calendar.weekday (day_of t)) * 1440));
      try reflexivity; lia.
  - unfold bucket_label, period_start, bucket_day.
    destruct (civil_from_days_facts (day_of t)) as (y & m & d & E & Hm & _).
    destruct (civil_from_days_facts (day_of t')) as (y' & m' & d' & E' & Hm' & _).
    rewrite E, E'.
    destruct (Z.eqb_spec
                (midnight (Calendar.days_from_civil y' m'
                             (Calendar.days_in_month y' m')))
                (midnight (Calendar.days_from_civil y m
                             (Calendar.days_in_month y m)))) as [H|H];
      destruct (Z.eqb_spec (midnight (Calendar.days_from_civil y' m' 1))
                  (midnight (Calendar.days_from_civil y m 1))) as [H'|H'];
      try reflexivity; exfalso.
    + apply H'. apply midnight_inj in H.
      pose proof (days_from_civil_inv y m _ (valid_month_end y m Hm)) as I.
      pose proof (days_from_civil_inv y' m' _ (valid_month_end y' m' Hm')) as I'.
      rewrite H in I'. rewrite I in I'. injection I' as -> -> _. reflexivity.
    + apply H. apply midnight_inj in H'.
      pose proof (days_from_civil_inv y m _ (valid_month_start y m Hm)) as I.
      pose proof (days_from_civil_inv y' m' _ (valid_month_start y' m' Hm')) as I'.
      rewrite H' in I'. rewrite I in I'. injection I' as -> ->. reflexivity.
Qed.

Lemma bucket_values_period rule (s : list (option Z * V)) t :
  bucket_values rule (bucket_label rule t) s
  = period_values rule (period_start rule t) s.
Proof.
  unfold bucket_values, period_values. f_equal. apply filter_ext.
  intros row. apply same_period.
Qed.

(** The first instant of a period is not after its timestamps, and the
    label of a week or of a month is after it. *)
Lemma period_start_le rule t : period_start rule t <= t.
Proof.
  pose proof (midnight_day_of_le t) as Ht.
  destruct rule; cbn [period_start].
  - lia.
  - pose proof (Calendar.weekday (day_of t)) as w.
    pose proof (weekday_bounds (day_of t)).
    unfold midnight, minutes_per_day in *. lia.
  - destruct (civil_from_days_facts (day_of t))
      as (y & m & d & E & Hm & Hd & Hz & _).
    rewrite E. rewrite (days_from_civil_day y m d 1), Hz.
    unfold midnight, minutes_per_day in *. lia.
Qed.

Lemma period_label_later rule t :
  rule <> D -> period_start rule t < period_label rule t.
Proof.
  intros Hr. destruct rule; [contradiction| |]; cbn [period_label].
  - unfold minutes_per_day. lia.
  - unfold month_length.
    destruct (Calendar.civil_from_days (day_of t)) as [[y m] d].
    pose proof (days_in_month_bounds y m). unfold minutes_per_day. lia.
Qed.

(** The first instant of a week or of a month labels no entry. *)
Lemma period_start_no_entry rule (s : list (option Z * V)) out t :
  resample_sum rule s = Ok out -> rule <> D ->
  lookup (period_start rule t) out = None.
Proof.
  intros H Hr.
  destruct (lookup (period_start rule t) out) as [v|] eqn:El; [|reflexivity].
  exfalso.
  assert (HL : In (period_start rule t) (map fst out)).
  { clear -El. induction out as [|[k w] l IH]; [discriminate|].
    cbn [lookup] in El. cbn [map fst].
    destruct (Z.eqb_spec k (period_start rule t)) as [->|]; [now left|].
    right. now apply IH. }
  destruct (dated_rows s) as [|r rs] eqn:Ed.
  { rewrite (resample_sum_undated rule s out Ed H) in HL. destruct HL. }
  destruct (resample_sum_Ok rule s out H) as (tmin & tmax & _ & _ & _ & ->).
  { rewrite Ed. discriminate. }
  rewrite buckets_labels in HL. apply in_map_iff in HL as (Ld & E & HLd).
  apply offsets_In in HLd as [_ HB].
  assert (Hs : exists z0, period_start rule t = midnight z0 /\
                          z0 < bucket_day rule z0).
  { destruct rule; [contradiction| |]; cbn [period_start].
    - exists (day_of t - Calendar.weekday (day_of t)). split; [reflexivity|].
      unfold bucket_day, Calendar.weekday.
      pose proof (weekday_bounds (day_of t)) as Hw.
      unfold Calendar.weekday in Hw.
      replace ((day_of t - (day_of t + 3) mod 7 + 3) mod 7) with 0; [lia|].
      symmetry. Z.div_mod_to_equations. lia.
    - destruct (civil_from_days_facts (day_of t))
        as (y & m & d & E' & Hm & Hd & Hz & _).
      rewrite E'. exists (Calendar.days_from_civil y m 1).
      split; [reflexivity|].
      rewrite bucket_day_month_date by now apply valid_month_start.
      rewrite (days_from_civil_day y m 1 (Calendar.days_in_month y m)).
      pose proof (days_in_month_bounds y m). lia. }
  destruct Hs as (z0 & Ez & Hz0). rewrite Ez in E.
  apply midnight_inj in E. subst Ld. lia.
Qed.

(** Every label of the resampled series is the label of the bucket of a day
    between the earliest and the latest timestamp. *)
Lemma resample_sum_labels rule (s : list (option Z * V)) out L :
  resample_sum rule s = Ok out -> In L (map fst out) ->
  exists t0 t1 z,
    In t0 (stamps s) /\ In t1 (stamps s) /\
    day_of t0 <= z <= day_of t1 /\ L = midnight (bucket_day rule z).
Proof.
  intros H HL.
  destruct (dated_rows s) as [|r rs] eqn:Ed.
  { rewrite (resample_sum_undated rule s out Ed H) in HL. destruct HL. }
  destruct (resample_sum_Ok rule s out H)
    as (tmin & tmax & Hmin & Hmax & Hall & ->).
  { rewrite Ed. discriminate. }
  assert (Hmm : day_of tmin <= day_of tmax).
  { rewrite Forall_forall in Hall. apply day_of_mono.
    specialize (Hall tmax Hmax). lia. }
  rewrite buckets_labels in HL. apply in_map_iff in HL as (Ld & <- & HLd).
  apply offsets_In in HLd.
  apply (span_labels rule _ _ Ld Hmm) in HLd as (z & Hz & ->).
  exists tmin, tmax, z. repeat (split; [assumption|]). reflexivity.
Qed.

End TrendProperties.

Lemma trend_is_chronological_witness :
  Resample.resample_sum Resample.D (rev gap_series)
    = Ok [(26297280, Float64.of_Z 3); (26298720, Float64.zero);
          (26300160, Float64.of_Z 4)] /\
  StronglySorted Z.lt [26297280; 26298720; 26300160].
Proof.
  split; [vm_compute; reflexivity|].
  exact (trend_is_chronological Resample.D (rev gap_series) _
           ltac:(vm_compute; reflexivity)).
Defined.

(* ================================================================== *)
(** * The trend: buckets, labels and sums *)

Section TrendClaims.

Import Resample Calendar.

(** ** The sums *)

Lemma wrap_wrap n : Int64.wrap (Int64.wrap n) = Int64.wrap n.
Proof.
  unfold Int64.wrap.
  change (2 ^ 63) with 9223372036854775808.
  change (2 ^ 64) with 18446744073709551616.
  Z.div_mod_to_equations. lia.
Qed.

Lemma wrap_add a b : Int64.wrap (Int64.wrap a + Int64.wrap b) = Int64.wrap (a + b).
Proof.
  unfold Int64.wrap.
  change (2 ^ 63) with 9223372036854775808.
  change (2 ^ 64) with 18446744073709551616.
  Z.div_mod_to_equations. lia.
Qed.

Lemma wrap_add_r a b : Int64.wrap (Int64.wrap a + b) = Int64.wrap (a + b).
Proof.
  unfold Int64.wrap.
  change (2 ^ 63) with 9223372036854775808.
  change (2 ^ 64) with 18446744073709551616.
  Z.div_mod_to_equations. lia.
Qed.

(** On whole numbers the compensation stays zero and the running sum is the
    sum wrapped to 64 bits. *)
Lemma kahan_step_int (a : Kahan.Acc Z) x :
  Kahan.compensation a = 0 ->
  Kahan.sumx (Kahan.step a x) = Int64.wrap (Kahan.sumx a + x) /\
  Kahan.compensation (Kahan.step a x) = 0.
Proof.
  intros Hc. unfold Kahan.step.
  cbn [num_isna num_add num_sub num_zero int64_numeric Kahan.sumx
       Kahan.compensation].
  rewrite Hc. unfold Int64.add, Int64.sub, Int64.wrap.
  change (2 ^ 63) with 9223372036854775808.
  change (2 ^ 64) with 18446744073709551616.
  split; Z.div_mod_to_equations; lia.
Qed.

Lemma kahan_fold_int vals : forall a : Kahan.Acc Z,
  Kahan.compensation a = 0 ->
  Kahan.sumx (fold_left Kahan.step vals a)
  = Int64.wrap (Int64.wrap (Kahan.sumx a) + fold_right Z.add 0 vals) \/
  vals = [] /\ Kahan.sumx (fold_left Kahan.step vals a) = Kahan.sumx a.
Proof.
  induction vals as [|x vals IH]; intros a Hc; [right; split; reflexivity|].
  left. cbn [fold_left fold_right].
  destruct (kahan_step_int a x Hc) as [Hs Hc'].
  destruct (IH (Kahan.step a x) Hc') as [H|[-> H]].
  - rewrite H, Hs, wrap_wrap. cbn [fold_right].
    rewrite !wrap_add_r. f_equal. lia.
  - cbn [fold_left fold_right]. rewrite Hs.
    rewrite wrap_add_r. f_equal. lia.
Qed.

Lemma kahan_sum_int (vals : list Z) : Kahan.sum vals = int_sum vals.
Proof.
  unfold Kahan.sum, Kahan.run, int_sum.
  assert (Hc : Kahan.compensation (@Kahan.start Z int64_numeric) = 0)
    by reflexivity.
  destruct (kahan_fold_int vals _ Hc) as [H|[-> H]].
  - rewrite H. reflexivity.
  - reflexivity.
Qed.





(** C4 (as the code has it).  When the resampling returns, the rows of one
    calendar day, week (from Monday to Sunday) or month are summed in one
    entry: the compensated sum in [float64] of the values that are not
    missing, or the sum in [int64] of whole numbers.  The entry is labelled
    with the first instant of the day, with midnight of the Sunday that
    ends the week, or with midnight of the last day of the month.  The
    first instant of a period is not after its timestamps; the label of a
    week or of a month is not that first instant but comes after it, and
    no entry is labelled with the first instant of the week or month of a
    row.  Every label of the resampled series is the label of the period
    of a day between the earliest and the latest timestamp. *)
Theorem trend_entry_sum_and_label :
  (forall rule (rows : list (option Timestamp * float64)) out t x,
      resample_sum rule rows = Ok out -> In (Some t, x) rows ->
      lookup (period_label rule t) out
      = Some (float_sum
                (valid_values (period_values rule (period_start rule t) rows))))
  /\ (forall rule (rows : list (option Timestamp * Z)) out t x,
      resample_sum rule rows = Ok out -> In (Some t, x) rows ->
      lookup (period_label rule t) out
      = Some (int_sum (period_values rule (period_start rule t) rows)))
  /\ (forall rule t,
      period_start rule t <= t /\
      (rule = D -> period_label rule t = period_start rule t) /\
      (rule <> D -> period_start rule t < period_label rule t))
  /\ (forall (V : Type) (numeric : Numeric V) rule
             (s : list (option Timestamp * V)) out t,
      resample_sum rule s = Ok out -> rule <> D ->
      lookup (period_start rule t) out = None)
  /\ (forall (V : Type) (numeric : Numeric V) rule
             (s : list (option Timestamp * V)) out L,
      resample_sum rule s = Ok out -> In L (map fst out) ->
      exists t0 t1 z,
        In t0 (stamps s) /\ In t1 (stamps s) /\
        day_of t0 <= z <= day_of t1 /\ L = period_label rule (midnight z)).
Proof.
  split; [|split; [|split; [|split]]].
  - intros rule rows out t x H Hin.
    destruct (resample_sum_entry rule rows out t x H Hin) as [Hl _].
    rewrite bucket_label_position in Hl. rewrite Hl.
    rewrite <- bucket_label_position, bucket_values_period.
    now rewrite kahan_sum_float.
  - intros rule rows out t x H Hin.
    destruct (resample_sum_entry rule rows out t x H Hin) as [Hl _].
    rewrite bucket_label_position in Hl. rewrite Hl.
    rewrite <- bucket_label_position, bucket_values_period.
    now rewrite kahan_sum_int.
  - intros rule t. split; [apply period_start_le|].
    split; [now intros -> | apply period_label_later].
  - intros V numeric rule s out t. apply period_start_no_entry.
  - intros V numeric rule s out L H HL.
    destruct (resample_sum_labels rule s out L H HL)
      as (t0 & t1 & z & H0 & H1 & Hz & ->).
    exists t0, t1, z. repeat (split; [assumption|]).
    rewrite <- bucket_label_position. unfold bucket_label.
    now rewrite day_of_midnight.
Qed.

Lemma trend_entry_sum_and_label_witness :
  resample_sum W wednesday_series = Ok [(26313120, Float64.of_Z 1)] /\
  period_start W (mk_timestamp 2020 1 8 10 0) = mk_timestamp 2020 1 6 0 0 /\
  period_label W (mk_timestamp 2020 1 8 10 0) = mk_timestamp 2020 1 12 0 0 /\
  lookup (period_label W (mk_timestamp 2020 1 8 10 0))
         [(26313120, Float64.of_Z 1)]
  = Some (float_sum
            (valid_values
               (period_values W (period_start W (mk_timestamp 2020 1 8 10 0))
                  wednesday_series))).
Proof.
  assert (H : resample_sum W wednesday_series = Ok [(26313120, Float64.of_Z 1)])
    by (vm_compute; reflexivity).
  split; [exact H|]. split; [vm_compute; reflexivity|].
  split; [vm_compute; reflexivity|].
  exact (proj1 trend_entry_sum_and_label W wednesday_series _
           (mk_timestamp 2020 1 8 10 0) (Float64.of_Z 1) H (or_introl eq_refl)).
Defined.

(** C4 as stated fails: the reading of Wednesday 2020-01-08 is summed in
    the entry labelled with Sunday 2020-01-12, and no entry is labelled
    with Monday 2020-01-06, the first instant of its week; in the monthly
    series it is in the entry labelled with 2020-01-31. *)
Lemma week_is_labelled_by_its_sunday :
  resample_sum W wednesday_series
    = Ok [(mk_timestamp 2020 1 12 0 0, Float64.of_Z 1)] /\
  resample_sum M wednesday_series
    = Ok [(mk_timestamp 2020 1 31 0 0, Float64.of_Z 1)] /\
  period_start W (mk_timestamp 2020 1 8 10 0) = mk_timestamp 2020 1 6 0 0 /\
  period_start M (mk_timestamp 2020 1 8 10 0) = mk_timestamp 2020 1 1 0 0.
Proof. repeat split; vm_compute; reflexivity. Qed.




End TrendClaims.

(* ================================================================== *)
(** * The hours of the profile *)

Section ProfileHours.

Import GroupBy.

Lemma ascending_sorted g : ascending g -> StronglySorted Z.lt (map fst g).
Proof.
  induction 1 as [|k vs g Hk Hg IH]; simpl; constructor; [exact IH|].
  apply Forall_map. exact Hk.
Qed.

Lemma lookup_In {V} k (l : list (Z * V)) :
  In k (map fst l) -> lookup k l <> None.
Proof.
  induction l as [|[k' v] l IH]; simpl; [tauto|].
  intros [->|Hin]; [now rewrite Z.eqb_refl|].
  destruct (k' =? k); [discriminate | now apply IH].
Qed.

Lemma groups_keys keys vals k :
  In k (map fst (groups keys vals)) -> In (Some k) keys.
Proof.
  intros Hin. apply lookup_In in Hin. rewrite lookup_groups in Hin.
  unfold values_at_hour in Hin.
  destruct (filter (row_at k) (combine keys vals)) as [|[o v] l] eqn:E;
    [now contradiction Hin|].
  assert (Hr : In (o, v) (filter (row_at k) (combine keys vals)))
    by (rewrite E; now left).
  apply filter_In in Hr as [Hc Hk]. unfold row_at in Hk. simpl in Hk.
  destruct o as [x|]; [|discriminate]. apply Z.eqb_eq in Hk. subst x.
  now apply in_combine_l in Hc.
Qed.

Lemma sorted_range_length l : forall lo hi,
  StronglySorted Z.lt l -> Forall (fun x => lo <= x <= hi) l ->
  (length l <= Z.to_nat (hi + 1 - lo))%nat.
Proof.
  induction l as [|x l IH]; intros lo hi Hs Hall; simpl; [lia|].
  apply StronglySorted_inv in Hs as [Hs Hx].
  apply Forall_cons_iff in Hall as [Hx0 Hall].
  assert (Hall' : Forall (fun y => x + 1 <= y <= hi) l).
  { rewrite Forall_forall in *. intros y Hy.
    specialize (Hx y Hy). specialize (Hall y Hy). lia. }
  specialize (IH (x + 1) hi Hs Hall'). lia.
Qed.

Lemma group_mean_keys keys vals :
  map fst (group_mean keys vals) = map fst (groups keys vals).
Proof.
  unfold group_mean. rewrite map_map. apply map_ext. now intros [k vs].
Qed.

(** X15.  The hourly profile lists each hour once, in ascending order; on a
    table whose HOUR column holds hours between 0 and 23, as the loader
    makes it, the hours of the profile are between 0 and 23 and the profile
    has at most 24 entries. *)
Theorem hourly_profile_hours :
  forall df col profile,
    hourly_avg df col = Ok profile ->
    Forall hour_ok (hour_column df) ->
    StronglySorted Z.lt (map fst profile) /\
    Forall (fun h => 0 <= h <= 23) (map fst profile) /\
    (length profile <= 24)%nat.
Proof.
  intros df col profile H Hok.
  assert (Hp : exists vals, profile = group_mean (hour_column df) vals).
  { unfold hourly_avg, hour_column in *.
    destruct (getitem df "HOUR") as [[[ | keys | | | ]|]|]; simpl in H;
      try discriminate;
      destruct (getitem df col) as [[c|]|]; simpl in H; try discriminate.
    destruct (numeric_values c) as [v|]; [|discriminate].
    injection H as <-. now exists (as_float64 v). }
  destruct Hp as [vals ->].
  assert (Hs : StronglySorted Z.lt (map fst (group_mean (hour_column df) vals))).
  { rewrite group_mean_keys. apply ascending_sorted, group_mean_keys_ascending. }
  assert (Hr : Forall (fun h => 0 <= h <= 23)
                 (map fst (group_mean (hour_column df) vals))).
  { rewrite group_mean_keys. apply Forall_forall. intros k Hk.
    apply groups_keys in Hk. rewrite Forall_forall in Hok.
    exact (Hok (Some k) Hk). }
  split; [exact Hs|]. split; [exact Hr|].
  rewrite <- (length_map fst).
  exact (sorted_range_length _ 0 23 Hs Hr).
Qed.

Lemma hourly_profile_hours_witness :
  exists profile,
    hourly_avg profile_example "SystemProduction" = Ok profile /\
    map fst profile = [10; 11] /\
    (length profile <= 24)%nat.
Proof.
  eexists. split; [reflexivity|]. split; [reflexivity|].
  assert (Hok : Forall hour_ok (hour_column profile_example)).
  { repeat constructor; simpl; lia. }
  exact (proj2 (proj2 (hourly_profile_hours profile_example "SystemProduction"
                         _ eq_refl Hok))).
Defined.

End ProfileHours.

(* ================================================================== *)
(** * The default range of the date picker *)

Section DefaultRange.

Import Loc.





End DefaultRange.

(* ================================================================== *)
(** * The trend of the filtered table *)

Section FilteredTrend.

Import Loc Resample.

Lemma stamps_In {V} (s : list (option Z * V)) t :
  In t (stamps s) -> In (Some t) (map fst s).
Proof.
  unfold stamps, dated_rows.
  induction s as [|[[k|] v] s IH]; simpl; [tauto| |].
  - intros [->|H]; [now left | right; now apply IH].
  - intros H. right. now apply IH.
Qed.

Lemma combine_stamps {V} (labels : list (option Z)) (v : list V) t :
  In t (stamps (combine labels v)) -> In (Some t) labels.
Proof.
  intros Ht. apply stamps_In in Ht.
  apply in_map_iff in Ht as ([k x] & Hk & Hin). simpl in Hk. subst k.
  now apply in_combine_l in Hin.
Qed.

(** The labels of a series are labels of the table. *)
Lemma df_series_labels df col s :
  df_series df col = Ok s ->
  forall t, In t (series_stamps s) -> In (Some t) (index_labels df).
Proof.
  unfold df_series. intros H t Ht.
  destruct (getitem df col) as [[c|]|]; simpl in H; try discriminate.
  destruct (numeric_values c) as [[v|v]|]; [| |discriminate];
    injection H as <-; simpl in Ht; now apply combine_stamps in Ht.
Qed.

Lemma df_filtered_labels df d0 d1 out :
  is_monotonic_increasing (index_labels df) = true ->
  df_filtered df [d0; d1] = Ok out ->
  forall t, In (Some t) (index_labels out) ->
            In (Some t) (index_labels df) /\
            midnight d0 <= t <= midnight d1.
Proof.
  intros Hm H t Ht.
  rewrite (df_filtered_bounds df d0 d1 Hm) in H. injection H as <-.
  rewrite index_labels_slice_frame in Ht.
  destruct (Z.le_gt_cases d0 d1) as [Hle|Hgt].
  - destruct (monotonic_increasing_sorted _ Hm) as (ts & E & Hs).
    rewrite E in *.
    rewrite slice_sorted_between in Ht;
      [|exact Hs | now apply (proj2 (midnight_le _ _))].
    apply filter_In in Ht as [Hin Hb]. split; [exact Hin|].
    unfold label_between in Hb. apply andb_true_iff in Hb as [H1 H2].
    apply Z.leb_le in H1, H2. lia.
  - exfalso. unfold slice in Ht.
    replace (length (filter (label_le (midnight d1)) (index_labels df))
             - length (filter (label_lt (midnight d0)) (index_labels df)))%nat
      with 0%nat in Ht; [exact Ht|].
    symmetry. apply Nat.sub_0_le, filter_length_le.
    intros [x|]; unfold label_le, label_lt; [|discriminate].
    rewrite Z.leb_le, Z.ltb_lt. unfold midnight, minutes_per_day. lia.
Qed.

(** X4.  On a table in chronological order, the trend drawn from the
    filtered table stays within the chosen dates: each entry of the
    resampled series is labelled by the bucket of a day between the start
    date and the end date, so a daily entry lies between the two midnights
    and no entry comes before the start date. *)
Theorem filtered_trend_stays_in_range :
  forall df d0 d1 out col o rule b L v,
    is_monotonic_increasing (index_labels df) = true ->
    df_filtered df [d0; d1] = Ok out ->
    resample_map o = Some rule ->
    df_resampled out col o = Ok (Resampled b) ->
    In (L, v) b ->
    (exists z, d0 <= z <= d1 /\ L = midnight (bucket_day rule z)) /\
    midnight d0 <= L /\
    (rule = D -> L <= midnight d1).
Proof.
  intros df d0 d1 out col o rule b L v Hm Hf Ho Hr Hin.
  assert (Hz : exists z, d0 <= z <= d1 /\ L = midnight (bucket_day rule z)).
  { assert (Hs : exists s t0 t1 z,
               df_series out col = Ok s /\
               In t0 (series_stamps s) /\ In t1 (series_stamps s) /\
               day_of t0 <= z <= day_of t1 /\
               L = midnight (bucket_day rule z)).
    { unfold df_resampled in Hr.
      destruct (df_series out col) as [s|e] eqn:Es; [|discriminate].
      cbn [bindE] in Hr. rewrite Ho in Hr. exists s.
      assert (HL : In L (map fst b))
        by (apply in_map_iff; now exists (L, v)).
      destruct s as [rows|rows];
        (destruct (resample_sum rule rows) as [b'|e] eqn:Eb; [|discriminate]);
        cbn [bindE] in Hr; injection Hr as <-;
        rewrite map_map in HL;
        rewrite (map_ext _ fst) in HL by (now intros [l x]);
        destruct (resample_sum_labels rule rows b' L Eb HL)
          as (t0 & t1 & z & H0 & H1 & Hz & ->);
        exists t0, t1, z;
        (split; [reflexivity|]); (split; [exact H0|]); (split; [exact H1|]);
        (split; [exact Hz | reflexivity]). }
    destruct Hs as (s & t0 & t1 & z & Es & H0 & H1 & Hz & ->).
    exists z. split; [|reflexivity].
    destruct (df_filtered_labels df d0 d1 out Hm Hf t0
                (df_series_labels out col s Es t0 H0)) as [_ Bmin].
    destruct (df_filtered_labels df d0 d1 out Hm Hf t1
                (df_series_labels out col s Es t1 H1)) as [_ Bmax].
    assert (d0 <= day_of t0).
    { rewrite <- (day_of_midnight d0). apply day_of_mono. lia. }
    assert (day_of t1 <= d1).
    { rewrite <- (day_of_midnight d1). apply day_of_mono. lia. }
    lia. }
  split; [exact Hz|]. destruct Hz as (z & Hz & ->).
  split.
  - apply (proj2 (midnight_le _ _)). pose proof (bucket_day_ge rule z). lia.
  - intros ->. apply (proj2 (midnight_le _ _)). unfold bucket_day. lia.
Qed.

Lemma filtered_trend_stays_in_range_witness :
  df_filtered (fst (load_and_process_data (Csv raw_sorted))) [18262; 18263]
    = Ok (slice_frame 0 2 (fst (load_and_process_data (Csv raw_sorted)))) /\
  df_resampled (slice_frame 0 2 (fst (load_and_process_data (Csv raw_sorted))))
               "SystemProduction" Harian
    = Ok (Resampled [(26297280, Float (Float64.of_Z 7))]) /\
  midnight 18262 <= 26297280 <= midnight 18263.
Proof.
  assert (H1 : df_filtered (fst (load_and_process_data (Csv raw_sorted)))
                 [18262; 18263]
               = Ok (slice_frame 0 2
                       (fst (load_and_process_data (Csv raw_sorted)))))
    by (vm_compute; reflexivity).
  assert (H2 : df_resampled
                 (slice_frame 0 2 (fst (load_and_process_data (Csv raw_sorted))))
                 "SystemProduction" Harian
               = Ok (Resampled [(26297280, Float (Float64.of_Z 7))]))
    by (vm_compute; reflexivity).
  split; [exact H1|]. split; [exact H2|].
  destruct (filtered_trend_stays_in_range
              (fst (load_and_process_data (Csv raw_sorted))) 18262 18263
              (slice_frame 0 2 (fst (load_and_process_data (Csv raw_sorted))))
              "SystemProduction" Harian D [(26297280, Float (Float64.of_Z 7))]
              26297280 (Float (Float64.of_Z 7))
              ltac:(vm_compute; reflexivity) H1 eq_refl H2 (or_introl eq_refl))
    as (_ & H3 & H4).
  split; [exact H3 | exact (H4 eq_refl)].
Defined.

End FilteredTrend.

